(** * MathQuest tournament core: timer controller, answer admission, scoring
      and finalization

    A shallow embedding of the socket handlers of the MathQuest backend:

    - [handleTournamentAnswer], the handler of the [tournament_answer] event;
    - [triggerTournamentQuestion], [triggerTournamentPause],
      [triggerTournamentResume], [triggerTournamentTimerSet], [manageTimer]
      and [forceTournamentEnd], the trigger functions of tournamentUtils.

    Conventions of the embedding.

    - JavaScript numbers are exact rationals plus [NaN]; binary floating-point
      rounding is outside the model.  Timestamps ([Date.now()]) are integers
      (milliseconds), durations are numbers (seconds).  Exact and
      double-precision arithmetic agree on whole numbers, and everywhere else
      up to the last bit of a double; so a statement whose truth that bit
      could decide is made for whole-second durations, or with a margin (1 ms
      around a deadline), or as a bound (a remaining time rounded to a tenth
      is within 0.05 s of the exact value), never as an equation between a
      fractional result and the double the program holds.
    - [null] and [undefined] are both [None]: the code never tells them apart
      on the fields modelled here (a default parameter turns [undefined] into
      [null]; [x !== null && x > 0] is false on both).  The one exception is
      the [index] argument of [triggerTournamentQuestion], compared by
      [index >= length], which has a type of its own.
    - [tournamentState], a JS object enumerated with [for ... in], is an
      association list in enumeration order.
    - [setTimeout]/[setInterval] handles are numbers handed out by an explicit
      event loop; a handle is pending while the loop lists it.
    - Every handler runs to completion on the single event-loop thread, so it
      is a function from the world before to the world after, together with
      the messages it emitted, in order.  One [Date.now()] value is passed per
      handler run.
    - [logger.info]/[debug]/[warn] calls have no effect on the session and are
      left out, except where a log line is the only trace of a path. *)

From Stdlib Require Import ZArith QArith Qround Bool Lia Lqa.
From stdpp Require Import gmap strings list fin_maps.

Set Default Proof Using "Type".
Local Open Scope Z_scope.

(** ** JavaScript numbers *)

Module JS.

Inductive jsnum : Type :=
  | NaN
  | Num (q : Q).

Definition ofZ (z : Z) : jsnum := Num (inject_Z z).

Definition add (a b : jsnum) : jsnum :=
  match a, b with
  | Num x, Num y => Num (Qplus x y)
  | _, _ => NaN
  end.

Definition sub (a b : jsnum) : jsnum :=
  match a, b with
  | Num x, Num y => Num (Qminus x y)
  | _, _ => NaN
  end.

Definition mul (a b : jsnum) : jsnum :=
  match a, b with
  | Num x, Num y => Num (Qmult x y)
  | _, _ => NaN
  end.

Definition div (a b : jsnum) : jsnum :=
  match a, b with
  | Num x, Num y => if Qeq_bool y 0 then NaN else Num (Qdiv x y)
  | _, _ => NaN
  end.

(** [a <= b]; every comparison with [NaN] is false. *)
Definition le (a b : jsnum) : bool :=
  match a, b with
  | Num x, Num y => Qle_bool x y
  | _, _ => false
  end.

(** [a > b] *)
Definition gt (a b : jsnum) : bool :=
  match a, b with
  | Num x, Num y => negb (Qle_bool x y)
  | _, _ => false
  end.

(** [a === 0] *)
Definition is_zero (a : jsnum) : bool :=
  match a with
  | Num x => Qeq_bool x 0
  | NaN => false
  end.

(** Truthiness of a number: neither [0] nor [NaN]. *)
Definition truthy (a : jsnum) : bool :=
  match a with
  | Num x => negb (Qeq_bool x 0)
  | NaN => false
  end.

(** [Math.max(0, a)] *)
Definition max0 (a : jsnum) : jsnum :=
  match a with
  | Num x => if Qle_bool 0 x then Num x else Num 0
  | NaN => NaN
  end.

(** Nearest integer, ties away from zero: the digit selection of
    [Number.prototype.toFixed] ("pick the larger n" on the absolute value). *)
Definition round_half_away (x : Q) : Z :=
  if Qle_bool 0 x then Qfloor (Qplus x (1 # 2))
  else Z.opp (Qfloor (Qplus (Qopp x) (1 # 2))).

(** [parseFloat(a.toFixed(1))], on the exact value: at a decimal tie of the
    exact value (16.65) the double the program holds lies just beside it and
    may round to the other neighbour. *)
Definition toFixed1 (a : jsnum) : jsnum :=
  match a with
  | Num x => Num (Qmake (round_half_away (Qmult x (10 # 1))) 10)
  | NaN => NaN
  end.

(** [Math.round(a)]: nearest integer, ties towards +infinity. *)
Definition round (a : jsnum) : jsnum :=
  match a with
  | Num x => Num (inject_Z (Qfloor (Qplus x (1 # 2))))
  | NaN => NaN
  end.


(** Truthiness of a nullable string: set and not empty. *)
Definition truthy_str (a : option string) : bool :=
  match a with
  | Some s => negb (String.eqb s "")
  | None => false
  end.

(** [ToNumber] of a nullable timestamp in arithmetic position: [undefined]
    gives [NaN].  ([null] would give 0; the timestamps read here are either
    set by [Date.now()] or absent.) *)
Definition num_of_time (t : option Z) : jsnum :=
  match t with
  | Some z => ofZ z
  | None => NaN
  end.

End JS.

Export JS.

(** ** Data model *)

(** A row of the [Question] table, as loaded into a session. *)
Record Question : Type := mkQuestion {
  uid : string;
  temps : option Z;                       (* Int?  seconds *)
  reponses : option (list (string * bool)) (* Json: [{texte, correct}] when an array *)
}.

(** [answerIdx]: a number for single choice, an array for multiple choice. *)
Inductive AnswerIdx : Type :=
  | IdxNumber (i : Z)
  | IdxArray (l : list Z)
  | IdxOther.

Record Answer : Type := mkAnswer {
  answerIdx : AnswerIdx;
  clientTimestamp : option Z
}.

Record Participant : Type := mkParticipant {
  p_id : option string;
  pseudo : string;
  avatar : string;
  score : jsnum;
  scoredQuestions : option (gmap string jsnum);
  p_isDiffered : bool
}.

(** One entry of [tournamentState]. *)
Record State : Type := mkState {
  questions : option (list Question);
  currentQuestionUid : option string;
  currentQuestionDuration : option jsnum;
  questionStart : option Z;
  paused : bool;
  stopped : bool;
  pausedRemainingTime : option jsnum;
  pausedAt : option Z;
  isDiffered : bool;
  linkedQuizId : option string;
  socketToJoueur : gmap string string;
  participants : gmap string Participant;
  answers : option (gmap string (gmap string Answer));
  askedQuestions : option (gset string);
  timer : option nat;
  intervalTimer : option nat;
  _timerRef : option nat;
  previousQuestionUid : option string;
  timerStatus : option string;
  statut : option string;
  isTournamentMode : bool
}.

(** Field assignments [state.f = v]. *)
Definition set_currentQuestionUid (v : option string) (s : State) : State :=
  mkState (questions s) v (currentQuestionDuration s) (questionStart s) (paused s)
    (stopped s) (pausedRemainingTime s) (pausedAt s) (isDiffered s) (linkedQuizId s)
    (socketToJoueur s) (participants s) (answers s) (askedQuestions s) (timer s)
    (intervalTimer s) (_timerRef s) (previousQuestionUid s) (timerStatus s) (statut s)
    (isTournamentMode s).

Definition set_currentQuestionDuration (v : option jsnum) (s : State) : State :=
  mkState (questions s) (currentQuestionUid s) v (questionStart s) (paused s)
    (stopped s) (pausedRemainingTime s) (pausedAt s) (isDiffered s) (linkedQuizId s)
    (socketToJoueur s) (participants s) (answers s) (askedQuestions s) (timer s)
    (intervalTimer s) (_timerRef s) (previousQuestionUid s) (timerStatus s) (statut s)
    (isTournamentMode s).

Definition set_questionStart (v : option Z) (s : State) : State :=
  mkState (questions s) (currentQuestionUid s) (currentQuestionDuration s) v (paused s)
    (stopped s) (pausedRemainingTime s) (pausedAt s) (isDiffered s) (linkedQuizId s)
    (socketToJoueur s) (participants s) (answers s) (askedQuestions s) (timer s)
    (intervalTimer s) (_timerRef s) (previousQuestionUid s) (timerStatus s) (statut s)
    (isTournamentMode s).

Definition set_paused (v : bool) (s : State) : State :=
  mkState (questions s) (currentQuestionUid s) (currentQuestionDuration s)
    (questionStart s) v (stopped s) (pausedRemainingTime s) (pausedAt s) (isDiffered s)
    (linkedQuizId s) (socketToJoueur s) (participants s) (answers s) (askedQuestions s)
    (timer s) (intervalTimer s) (_timerRef s) (previousQuestionUid s) (timerStatus s)
    (statut s) (isTournamentMode s).

Definition set_stopped (v : bool) (s : State) : State :=
  mkState (questions s) (currentQuestionUid s) (currentQuestionDuration s)
    (questionStart s) (paused s) v (pausedRemainingTime s) (pausedAt s) (isDiffered s)
    (linkedQuizId s) (socketToJoueur s) (participants s) (answers s) (askedQuestions s)
    (timer s) (intervalTimer s) (_timerRef s) (previousQuestionUid s) (timerStatus s)
    (statut s) (isTournamentMode s).

Definition set_pausedRemainingTime (v : option jsnum) (s : State) : State :=
  mkState (questions s) (currentQuestionUid s) (currentQuestionDuration s)
    (questionStart s) (paused s) (stopped s) v (pausedAt s) (isDiffered s)
    (linkedQuizId s) (socketToJoueur s) (participants s) (answers s) (askedQuestions s)
    (timer s) (intervalTimer s) (_timerRef s) (previousQuestionUid s) (timerStatus s)
    (statut s) (isTournamentMode s).

Definition set_pausedAt (v : option Z) (s : State) : State :=
  mkState (questions s) (currentQuestionUid s) (currentQuestionDuration s)
    (questionStart s) (paused s) (stopped s) (pausedRemainingTime s) v (isDiffered s)
    (linkedQuizId s) (socketToJoueur s) (participants s) (answers s) (askedQuestions s)
    (timer s) (intervalTimer s) (_timerRef s) (previousQuestionUid s) (timerStatus s)
    (statut s) (isTournamentMode s).

Definition set_linkedQuizId (v : option string) (s : State) : State :=
  mkState (questions s) (currentQuestionUid s) (currentQuestionDuration s)
    (questionStart s) (paused s) (stopped s) (pausedRemainingTime s) (pausedAt s)
    (isDiffered s) v (socketToJoueur s) (participants s) (answers s) (askedQuestions s)
    (timer s) (intervalTimer s) (_timerRef s) (previousQuestionUid s) (timerStatus s)
    (statut s) (isTournamentMode s).

Definition set_participants (v : gmap string Participant) (s : State) : State :=
  mkState (questions s) (currentQuestionUid s) (currentQuestionDuration s)
    (questionStart s) (paused s) (stopped s) (pausedRemainingTime s) (pausedAt s)
    (isDiffered s) (linkedQuizId s) (socketToJoueur s) v (answers s) (askedQuestions s)
    (timer s) (intervalTimer s) (_timerRef s) (previousQuestionUid s) (timerStatus s)
    (statut s) (isTournamentMode s).

Definition set_answers (v : option (gmap string (gmap string Answer))) (s : State) : State :=
  mkState (questions s) (currentQuestionUid s) (currentQuestionDuration s)
    (questionStart s) (paused s) (stopped s) (pausedRemainingTime s) (pausedAt s)
    (isDiffered s) (linkedQuizId s) (socketToJoueur s) (participants s) v
    (askedQuestions s) (timer s) (intervalTimer s) (_timerRef s) (previousQuestionUid s)
    (timerStatus s) (statut s) (isTournamentMode s).

Definition set_askedQuestions (v : option (gset string)) (s : State) : State :=
  mkState (questions s) (currentQuestionUid s) (currentQuestionDuration s)
    (questionStart s) (paused s) (stopped s) (pausedRemainingTime s) (pausedAt s)
    (isDiffered s) (linkedQuizId s) (socketToJoueur s) (participants s) (answers s) v
    (timer s) (intervalTimer s) (_timerRef s) (previousQuestionUid s) (timerStatus s)
    (statut s) (isTournamentMode s).

Definition set_timer (v : option nat) (s : State) : State :=
  mkState (questions s) (currentQuestionUid s) (currentQuestionDuration s)
    (questionStart s) (paused s) (stopped s) (pausedRemainingTime s) (pausedAt s)
    (isDiffered s) (linkedQuizId s) (socketToJoueur s) (participants s) (answers s)
    (askedQuestions s) v (intervalTimer s) (_timerRef s) (previousQuestionUid s)
    (timerStatus s) (statut s) (isTournamentMode s).

Definition set_intervalTimer (v : option nat) (s : State) : State :=
  mkState (questions s) (currentQuestionUid s) (currentQuestionDuration s)
    (questionStart s) (paused s) (stopped s) (pausedRemainingTime s) (pausedAt s)
    (isDiffered s) (linkedQuizId s) (socketToJoueur s) (participants s) (answers s)
    (askedQuestions s) (timer s) v (_timerRef s) (previousQuestionUid s)
    (timerStatus s) (statut s) (isTournamentMode s).

Definition set__timerRef (v : option nat) (s : State) : State :=
  mkState (questions s) (currentQuestionUid s) (currentQuestionDuration s)
    (questionStart s) (paused s) (stopped s) (pausedRemainingTime s) (pausedAt s)
    (isDiffered s) (linkedQuizId s) (socketToJoueur s) (participants s) (answers s)
    (askedQuestions s) (timer s) (intervalTimer s) v (previousQuestionUid s)
    (timerStatus s) (statut s) (isTournamentMode s).

Definition set_previousQuestionUid (v : option string) (s : State) : State :=
  mkState (questions s) (currentQuestionUid s) (currentQuestionDuration s)
    (questionStart s) (paused s) (stopped s) (pausedRemainingTime s) (pausedAt s)
    (isDiffered s) (linkedQuizId s) (socketToJoueur s) (participants s) (answers s)
    (askedQuestions s) (timer s) (intervalTimer s) (_timerRef s) v
    (timerStatus s) (statut s) (isTournamentMode s).

Definition set_isTournamentMode (v : bool) (s : State) : State :=
  mkState (questions s) (currentQuestionUid s) (currentQuestionDuration s)
    (questionStart s) (paused s) (stopped s) (pausedRemainingTime s) (pausedAt s)
    (isDiffered s) (linkedQuizId s) (socketToJoueur s) (participants s) (answers s)
    (askedQuestions s) (timer s) (intervalTimer s) (_timerRef s) (previousQuestionUid s)
    (timerStatus s) (statut s) v.

(** ** Messages and other observable effects *)

Record LeaderboardEntry : Type := mkEntry {
  e_id : option string;
  e_pseudo : string;
  e_avatar : string;
  e_score : jsnum
}.

Inductive Msg : Type :=
  | tournament_question_state_update (questionState : string) (remainingTime : jsnum)
  | tournament_set_timer (timeLeft : jsnum) (questionState : string)
  | quiz_timer_update (status : string) (questionId : option string)
      (timeLeft : jsnum) (timestamp : Z)
  | tournament_answer_result_rejected (reason message : string)
  | tournament_answer_result_received (message : string)
  | quiz_answer_stats_update (questionUid : string) (stats : list jsnum)
      (totalAnswers : Z)
  | tournament_end (leaderboard : list LeaderboardEntry)
  | tournament_finished_redirect (code : string).

Inductive Event : Type :=
  (** [io.to(room).emit(...)] *)
  | Emit (room : string) (m : Msg)
  (** [socket.emit(...)], to the submitting connection only *)
  | SocketEmit (m : Msg)
  (** [updateQuestionTimer(quizId, questionUid, status, timeLeft)] of quizUtils *)
  | UpdateQuestionTimer (quizId : string) (questionUid : option string)
      (status : string) (timeLeft : jsnum)
  (** [sendTournamentQuestion(io, room, question, index, total, time, state, linked)] *)
  | SendTournamentQuestion (room : string) (q : Question) (index : Z) (total : nat)
      (time : jsnum) (questionState : string) (linked : bool)
  (** [handleTimerExpiration(io, code)] of tournamentHelpers *)
  | HandleTimerExpiration (code : string)
  (** [prisma.tournoi.update] with the end status and the leaderboard *)
  | DbUpdateTournoi (code : string) (leaderboard : list LeaderboardEntry)
  (** [saveParticipantScore(prisma, tournoiId, participant)] *)
  | DbSaveParticipantScore (tournoiId : string) (p : Participant)
  (** [logger.error(...)] *)
  | LogError (where_ : string)
  (** the handler ended by an exception it did not catch *)
  | Uncaught (what : string).

Definition live (code : string) : string := String.append "live_" code.
Definition dashboard (quizId : string) : string := String.append "dashboard_" quizId.
Definition projection (quizId : string) : string := String.append "projection_" quizId.

(** ** The event loop: pending timeouts and intervals *)

Record Loop : Type := mkLoop {
  nextHandle : nat;
  (** armed [setTimeout]s: handle and delay in milliseconds *)
  timeouts : list (nat * jsnum);
  (** armed [setInterval]s: handle and the closure's [remainingTime] variable *)
  intervals : list (nat * jsnum)
}.

Definition handle_eqb (h : nat) (e : nat * jsnum) : bool := Nat.eqb h (fst e).

Definition setTimeout (delay : jsnum) (l : Loop) : nat * Loop :=
  (nextHandle l,
   mkLoop (S (nextHandle l)) (timeouts l ++ [(nextHandle l, delay)]) (intervals l)).

Definition setInterval (remainingTime : jsnum) (l : Loop) : nat * Loop :=
  (nextHandle l,
   mkLoop (S (nextHandle l)) (timeouts l) (intervals l ++ [(nextHandle l, remainingTime)])).

Definition clearTimeout (h : nat) (l : Loop) : Loop :=
  mkLoop (nextHandle l) (List.filter (fun e => negb (handle_eqb h e)) (timeouts l))
    (intervals l).

Definition clearInterval (h : nat) (l : Loop) : Loop :=
  mkLoop (nextHandle l) (timeouts l)
    (List.filter (fun e => negb (handle_eqb h e)) (intervals l)).

Definition pending_timeout (h : nat) (l : Loop) : bool :=
  existsb (handle_eqb h) (timeouts l).

Definition pending_interval (h : nat) (l : Loop) : bool :=
  existsb (handle_eqb h) (intervals l).

(** ** The session registry *)

Definition Registry : Type := list (string * State).

Fixpoint reg_get (code : string) (r : Registry) : option State :=
  match r with
  | [] => None
  | (k, s) :: r' => if String.eqb k code then Some s else reg_get code r'
  end.

(** Writing through the reference obtained from [tournamentState[code]]:
    the entry keeps its place in the enumeration order. *)
Fixpoint reg_set (code : string) (v : State) (r : Registry) : Registry :=
  match r with
  | [] => []
  | (k, s) :: r' =>
      if String.eqb k code then (k, v) :: r' else (k, s) :: reg_set code v r'
  end.

(** [delete tournamentState[code]] *)
Definition reg_delete (code : string) (r : Registry) : Registry :=
  List.filter (fun e => negb (String.eqb (fst e) code)) r.

Record World : Type := mkWorld {
  tournamentState : Registry;
  loop : Loop
}.

(** ** Timer controller *)

(** [question.temps || 20] *)
Definition temps_or_default (q : Question) : jsnum :=
  match temps q with
  | Some t => if Z.eqb t 0 then ofZ 20 else ofZ t
  | None => ofZ 20
  end.

Definition uid_is (u : option string) (q : Question) : bool :=
  match u with
  | Some x => String.eqb (uid q) x
  | None => false
  end.

(** [questions.find(q => q.uid === u)] *)
Definition find_question (u : option string) (qs : list Question) : option Question :=
  List.find (uid_is u) qs.

(** [questions.findIndex(q => q.uid === u)], [None] for -1 *)
Fixpoint findIndex_from (u : option string) (qs : list Question) (i : Z) : option Z :=
  match qs with
  | [] => None
  | q :: qs' => if uid_is u q then Some i else findIndex_from u qs' (i + 1)
  end.

Definition findIndex (u : option string) (qs : list Question) : option Z :=
  findIndex_from u qs 0.

(** The [index] argument of [triggerTournamentQuestion]: a number, an
    explicit [null], or nothing ([undefined]).  The two absent forms index
    nothing, and differ in the comparison [index >= length]: [null] counts
    as 0 there, [undefined] as [NaN]. *)
Inductive Index : Type :=
  | At (i : Z)
  | NullIndex
  | NoIndex.

(** The array position an index denotes, if any. *)
Definition index_position (index : Index) : option Z :=
  match index with
  | At i => Some i
  | NullIndex | NoIndex => None
  end.

(** [index >= n] *)
Definition index_ge (index : Index) (n : Z) : bool :=
  match index with
  | At i => Z.geb i n
  | NullIndex => Z.geb 0 n
  | NoIndex => false
  end.

(** [questions[i]]: [undefined] outside the array and for an absent index *)
Definition question_at (i : option Z) (qs : list Question) : option Question :=
  match i with
  | Some z => if Z.ltb z 0 then None else nth_error qs (Z.to_nat z)
  | None => None
  end.

(** The effects a handler has on one session, on the event loop, and the
    messages it sends. *)
Definition Effect : Type := State * Loop * list Event.

(** What [sendTournamentQuestion] is called with when the linked quiz id of
    the session is [linked]. *)
Definition send_question (code : string) (q : Question) (index : option Z)
    (total : nat) (time : jsnum) (linked : option string) : Event :=
  SendTournamentQuestion (live code) q (default (-1) index) total time "active"
    (truthy_str linked).

(** [triggerTournamentQuestion], once [tournamentState[code]] is at hand;
    the registry function below covers [!state]. *)
Definition setQuestion_on (code : string) (index : Index)
    (linkedQuizId_ : option string) (initialTime : option jsnum)
    (targetQuestionUid : option string) (s : State) : State * list Event :=
  match questions s with
  | None => (s, [])
  | Some qs =>
      (* resolution of the target: uid first, then the positional index *)
      let target : option (option Z * option Question) :=
        if truthy_str targetQuestionUid then
          match findIndex targetQuestionUid qs with
          | Some i => Some (Some i, question_at (Some i) qs)
          | None => None
          end
        else
          if index_ge index (Z.of_nat (length qs)) then None
          else Some (index_position index, None) in
      match target with
      | None => (s, [])
      | Some (targetIndex, targetQuestion) =>
          let s := set_linkedQuizId linkedQuizId_ s in
          let question :=
            match targetQuestion with
            | Some q => Some q
            | None => question_at targetIndex qs
            end in
          let s := set_currentQuestionUid (uid <$> question) s in
          match question with
          | None => (s, [])
          | Some q =>
              let s := set_currentQuestionUid (Some (uid q)) s in
              let time :=
                match initialTime with
                | Some t => t
                | None => temps_or_default q
                end in
              let s := set_currentQuestionDuration (Some time) s in
              (s, [send_question code q targetIndex (length qs) time linkedQuizId_])
          end
      end
  end.

(** Did the call get past the two validation returns of
    [triggerTournamentQuestion] (missing state or questions; unknown target
    uid or index beyond the array)? *)
Definition setQuestion_valid (index : Index) (targetQuestionUid : option string)
    (s : State) : bool :=
  match questions s with
  | None => false
  | Some qs =>
      if truthy_str targetQuestionUid then
        match findIndex targetQuestionUid qs with Some _ => true | None => false end
      else negb (index_ge index (Z.of_nat (length qs)))
  end.

(** The three guarded [clearTimeout]/[clearInterval] blocks shared by pause
    and timer set. *)
Definition clearTimers (s : State) (l : Loop) : State * Loop :=
  let '(s, l) :=
    match timer s with
    | Some h => (set_timer None s, clearTimeout h l)
    | None => (s, l)
    end in
  let '(s, l) :=
    match intervalTimer s with
    | Some h => (set_intervalTimer None s, clearInterval h l)
    | None => (s, l)
    end in
  match _timerRef s with
  | Some h => (set__timerRef None s, clearTimeout h l)
  | None => (s, l)
  end.

(** Is the pause override used ([remainingTime !== null && remainingTime > 0])? *)
Definition override_valid (remainingTime : option jsnum) : bool :=
  match remainingTime with
  | Some r => gt r (ofZ 0)
  | None => false
  end.

(** [(Date.now() - state.questionStart) / 1000] *)
Definition elapsed_seconds (now : Z) (s : State) : jsnum :=
  div (sub (ofZ now) (num_of_time (questionStart s))) (ofZ 1000).

(** [ToNumber(state.currentQuestionDuration)] in arithmetic position *)
Definition duration_num (s : State) : jsnum :=
  match currentQuestionDuration s with
  | Some d => d
  | None => NaN
  end.

(** [calculatedRemainingTime]: the override when it is valid, else
    [Math.max(0, state.currentQuestionDuration - elapsed)], the quotient and
    the difference being exact. *)
Definition calculatedRemainingTime (now : Z) (remainingTime : option jsnum)
    (s : State) : jsnum :=
  match remainingTime with
  | Some r =>
      if gt r (ofZ 0) then r
      else max0 (sub (duration_num s) (elapsed_seconds now s))
  | None => max0 (sub (duration_num s) (elapsed_seconds now s))
  end.

(** The dashboard mirror of a pause, sent for a linked session. *)
Definition pause_mirror (now : Z) (s : State) (timeLeft : jsnum) : list Event :=
  match linkedQuizId s with
  | Some quiz =>
      if String.eqb quiz "" then []
      else [UpdateQuestionTimer quiz (currentQuestionUid s) "pause" timeLeft;
            Emit (dashboard quiz)
              (quiz_timer_update "pause" (currentQuestionUid s) timeLeft now)]
  | None => []
  end.

(** [triggerTournamentPause] on the session found under [code]. *)
Definition pause_on (now : Z) (code : string) (remainingTime : option jsnum)
    (s : State) (l : Loop) : Effect :=
  if isDiffered s || paused s || stopped s then (s, l, [])
  else
    let '(s1, l1) := clearTimers s l in
    let precise := toFixed1 (calculatedRemainingTime now remainingTime s1) in
    let s2 := set_pausedRemainingTime (Some precise) s1 in
    let s3 := set_pausedAt (Some now) s2 in
    let s4 := set_paused true s3 in
    let s5 := set_stopped false s4 in
    (s5, l1,
     Emit (live code) (tournament_question_state_update "paused" precise)
       :: (if le precise (ofZ 0) then [] else pause_mirror now s5 precise)).

(** The dashboard mirror of a stop. *)
Definition stop_mirror (now : Z) (s : State) : list Event :=
  match linkedQuizId s with
  | Some quiz =>
      if String.eqb quiz "" then []
      else [Emit (dashboard quiz)
              (quiz_timer_update "stop" (currentQuestionUid s) (ofZ 0) now);
            UpdateQuestionTimer quiz (currentQuestionUid s) "stop" (ofZ 0)]
  | None => []
  end.

(** The dashboard mirror of a running timer. *)
Definition play_mirror (now : Z) (forceActive : bool) (s : State)
    (timeLeft : jsnum) : list Event :=
  match linkedQuizId s with
  | Some quiz =>
      if String.eqb quiz "" then []
      else if gt timeLeft (ofZ 0) then
        let quizTimerStatus :=
          if forceActive then "play"
          else match timerStatus s with
               | Some st => if String.eqb st "" then "play" else st
               | None => "play"
               end in
        [UpdateQuestionTimer quiz (currentQuestionUid s) quizTimerStatus timeLeft;
         Emit (dashboard quiz)
           (quiz_timer_update quizTimerStatus (currentQuestionUid s) timeLeft now)]
      else []
  | None => []
  end.

(** [timeLeft === 0] on the caller's argument *)
Definition arg_is_zero (timeLeft : option jsnum) : bool :=
  match timeLeft with
  | Some t => is_zero t
  | None => false
  end.

Definition pausedRemaining_positive (s : State) : bool :=
  match pausedRemainingTime s with
  | Some r => gt r (ofZ 0)
  | None => false
  end.

(** "Step 1" of [triggerTournamentTimerSet]: the value of the local [timeLeft]
    after the fallbacks for an absent or non-positive argument.  [question]
    is the active question, already found; the second lookup of the source
    finds it again. *)
Definition initial_timeLeft (timeLeft : option jsnum) (forceActive : bool)
    (question : Question) (s : State) : jsnum :=
  let t1 :=
    match timeLeft with
    | None =>
        if paused s && pausedRemaining_positive s
        then default NaN (pausedRemainingTime s)
        else temps_or_default question
    | Some t =>
        if le t (ofZ 0) && forceActive then temps_or_default question else t
    end in
  if negb (truthy t1) then
    match temps question with
    | Some z => if Z.eqb z 0 then t1 else ofZ z
    | None => t1
    end
  else t1.

(** The tail of [triggerTournamentTimerSet], from the [timeLeft <= 0] check
    to the arming of the interval and of the deadline timeout. *)
Definition start_countdown (now : Z) (code : string) (forceActive : bool)
    (qs : list Question) (timeLeft : jsnum) (s : State) (l : Loop) : Effect :=
  if le timeLeft (ofZ 0) then (s, l, [])
  else
    let s := set_currentQuestionDuration (Some timeLeft) s in
    let s := set_paused false s in
    let s := set_stopped false s in
    let ev_timer := [Emit (live code) (tournament_set_timer timeLeft "active")] in
    let mode :=
      match statut s with Some st => String.eqb st "en cours" | None => false end
      || String.prefix "T" code || isTournamentMode s in
    let s := set_isTournamentMode mode s in
    let ev_quiz := play_mirror now forceActive s timeLeft in
    let changed :=
      negb (truthy_str (previousQuestionUid s))
      || negb (bool_decide (previousQuestionUid s = currentQuestionUid s)) in
    let ev_question :=
      if changed then
        match find_question (currentQuestionUid s) qs with
        | Some q =>
            [send_question code q (findIndex (currentQuestionUid s) qs) (length qs)
               timeLeft (linkedQuizId s)]
        | None => []
        end
      else [] in
    let s := set_previousQuestionUid (currentQuestionUid s) s in
    let s := set_questionStart (Some now) s in
    let '(hi, l) := setInterval timeLeft l in
    let s := set_intervalTimer (Some hi) s in
    let '(ht, l) := setTimeout (mul timeLeft (ofZ 1000)) l in
    let s := set_timer (Some ht) s in
    let s := set__timerRef (timer s) s in
    (s, l, ev_timer ++ ev_quiz ++ ev_question).

(** [triggerTournamentTimerSet] on the session found under [code]. *)
Definition timerSet_on (now : Z) (code : string) (timeLeft : option jsnum)
    (forceActive : bool) (s : State) (l : Loop) : Effect :=
  if isDiffered s then (s, l, [])
  else if arg_is_zero timeLeft && stopped s then (s, l, [])
  else
    let '(s, l) := clearTimers s l in
    if arg_is_zero timeLeft then
      (* stop *)
      let s := set_stopped true s in
      let s := set_paused false s in
      let s := set_currentQuestionDuration (Some (ofZ 0)) s in
      let s := set_pausedRemainingTime None s in
      let s := set_pausedAt None s in
      (s, l,
       Emit (live code) (tournament_set_timer (ofZ 0) "stopped") :: stop_mirror now s)
    else if negb (truthy_str (currentQuestionUid s)) then (s, l, [])
    else
      match questions s with
      | None => (s, l, [Uncaught "TypeError: state.questions is undefined"])
      | Some qs =>
          match find_question (currentQuestionUid s) qs with
          | None => (s, l, [])
          | Some question =>
              let timeLeft := initial_timeLeft timeLeft forceActive question s in
              (* resuming: the stored remaining time wins over the argument *)
              let '(s, timeLeft) :=
                if forceActive && paused s && pausedRemaining_positive s then
                  let t := default NaN (pausedRemainingTime s) in
                  let s := set_paused false s in
                  let s := set_questionStart (Some now) s in
                  let s := set_pausedAt None s in
                  (s, t)
                else (s, timeLeft) in
              if negb forceActive then
                if stopped s then
                  let s := set_currentQuestionDuration (Some timeLeft) s in
                  (s, l, [Emit (live code) (tournament_set_timer timeLeft "stopped")])
                else if paused s then
                  let s := set_pausedRemainingTime (Some timeLeft) s in
                  let s := set_currentQuestionDuration (Some timeLeft) s in
                  (s, l,
                   Emit (live code) (tournament_set_timer timeLeft "paused")
                     :: pause_mirror now s timeLeft)
                else
                  let s := set_questionStart (Some now) s in
                  start_countdown now code forceActive qs timeLeft s l
              else
                let s := set_stopped false s in
                let s := set_paused false s in
                let s := set_questionStart (Some now) s in
                start_countdown now code forceActive qs timeLeft s l
          end
      end.

(** ** The handlers on the registry *)

(** Run a session-level handler on [tournamentState[code]]; nothing happens
    when there is no such session. *)
Definition on_session (code : string) (f : State -> Loop -> Effect) (w : World)
    : World * list Event :=
  match reg_get code (tournamentState w) with
  | None => (w, [])
  | Some s =>
      let '(s', l', evs) := f s (loop w) in
      (mkWorld (reg_set code s' (tournamentState w)) l', evs)
  end.

Definition triggerTournamentQuestion (code : string) (index : Index)
    (linkedQuizId_ : option string) (initialTime : option jsnum)
    (targetQuestionUid : option string) (w : World) : World * list Event :=
  on_session code
    (fun s l =>
       let '(s', evs) :=
         setQuestion_on code index linkedQuizId_ initialTime targetQuestionUid s in
       (s', l, evs)) w.

Definition triggerTournamentPause (now : Z) (code : string)
    (remainingTime : option jsnum) (w : World) : World * list Event :=
  on_session code (pause_on now code remainingTime) w.

Definition triggerTournamentTimerSet (now : Z) (code : string)
    (timeLeft : option jsnum) (forceActive : bool) (w : World) : World * list Event :=
  on_session code (timerSet_on now code timeLeft forceActive) w.

Inductive TimerAction : Type := play | pause | stop | other_action.

Definition manageTimer (now : Z) (code : string) (action : TimerAction)
    (timeLeft : option jsnum) (forceActive : bool) (w : World) : World * list Event :=
  match reg_get code (tournamentState w) with
  | None => (w, [])
  | Some _ =>
      match action with
      | play => triggerTournamentTimerSet now code timeLeft forceActive w
      | pause => triggerTournamentPause now code timeLeft w
      | stop => triggerTournamentTimerSet now code (Some (ofZ 0)) false w
      | other_action => (w, [])
      end
  end.

(** ** Collaborators outside this core

    [calculateScore] and [handleTimerExpiration] (tournamentHelpers),
    [computeLeaderboard] and the [quizState] registry live in other modules.
    The core only calls them, so they are parameters here. *)

Section Core.

(** [calculateScore(question, {answerIdx, clientTimestamp}, questionStart,
    totalQuestions).totalScore] *)
Variable calculateScore : Question -> Answer -> Z -> nat -> jsnum.

(** The effect of [handleTimerExpiration(io, code)] on the world. *)
Variable handleTimerExpiration : string -> World -> World.

(** [computeLeaderboard(state, askedQuestions, totalQuestions)] *)
Variable computeLeaderboard : State -> gset string -> nat -> list LeaderboardEntry.

(** [quizState[quizId].askedQuestions], [None] when either is missing. *)
Variable quizAskedQuestions : string -> option (gset string).

(** ** Timer callbacks

    The closures armed by [start_countdown].  They hold the session object
    itself; here they reach it through the registry, so they are meaningful
    while the session is registered under [code]. *)

Definition interval_var (h : nat) (l : Loop) : option jsnum :=
  snd <$> List.find (handle_eqb h) (intervals l).

Definition set_interval_var (h : nat) (r : jsnum) (l : Loop) : Loop :=
  mkLoop (nextHandle l) (timeouts l)
    (map (fun e => if handle_eqb h e then (fst e, r) else e) (intervals l)).

(** [clearInterval(state.intervalTimer); state.intervalTimer = null] *)
Definition drop_interval (s : State) (l : Loop) : State * Loop :=
  (set_intervalTimer None s,
   match intervalTimer s with Some h => clearInterval h l | None => l end).

(** One firing of the interval with handle [h]. *)
Definition intervalCallback (code : string) (h : nat) (w : World)
    : World * list Event :=
  match reg_get code (tournamentState w), interval_var h (loop w) with
  | Some s, Some remainingTime =>
      if paused s || stopped s then
        let '(s, l) := drop_interval s (loop w) in
        (mkWorld (reg_set code s (tournamentState w)) l, [])
      else
        let remainingTime := sub remainingTime (ofZ 1) in
        let l := set_interval_var h remainingTime (loop w) in
        let tick := Emit (live code) (tournament_set_timer (max0 remainingTime) "active") in
        if le remainingTime (ofZ 0) then
          let '(s, l) := drop_interval s l in
          let w := mkWorld (reg_set code s (tournamentState w)) l in
          (handleTimerExpiration code w, [tick; HandleTimerExpiration code])
        else (mkWorld (tournamentState w) l, [tick])
  | _, _ => (w, [])
  end.

(** The firing of the deadline timeout with handle [h]. *)
Definition timeoutCallback (code : string) (h : nat) (w : World)
    : World * list Event :=
  if pending_timeout h (loop w) then
    let l := clearTimeout h (loop w) in
    match reg_get code (tournamentState w) with
    | Some s =>
        if paused s || stopped s then (mkWorld (tournamentState w) l, [])
        else
          let '(s, l) :=
            match intervalTimer s with
            | Some _ => drop_interval s l
            | None => (s, l)
            end in
          let w := mkWorld (reg_set code s (tournamentState w)) l in
          (handleTimerExpiration code w, [HandleTimerExpiration code])
    | None => (mkWorld (tournamentState w) l, [])
    end
  else (w, []).

(** ** Answer admission and scoring *)

(** The return paths of [handleTournamentAnswer], one per log line. *)
Inductive Outcome : Type :=
  | Unresolved            (* "State or joueurId not found" *)
  | QuestionNotFound      (* "Question UID ... not found in tournament state" *)
  | WrongQuestion         (* "Answer received for wrong question" *)
  | NotStarted            (* "questionStart missing" *)
  | Rejected (reason : string)
  | Accepted
  | Threw.

(** [state.socketToJoueur[socket.id]] when truthy *)
Definition joueur_of (socket_id : string) (s : State) : option string :=
  match socketToJoueur s !! socket_id with
  | Some j => if String.eqb j "" then None else Some j
  | None => None
  end.

(** The [for (const key in tournamentState)] search among the replays of
    [code]: the first key [code_...] whose session knows the socket. *)
Fixpoint resolve_differed (code socket_id : string) (keys : list string)
    (r : Registry) : option (string * State * string) :=
  match keys with
  | [] => None
  | key :: keys' =>
      if String.prefix (String.append code "_") key then
        match reg_get key r with
        | Some s =>
            match joueur_of socket_id s with
            | Some j => Some (key, s, j)
            | None => resolve_differed code socket_id keys' r
            end
        | None => resolve_differed code socket_id keys' r
        end
      else resolve_differed code socket_id keys' r
  end.

(** [stateKey], [state] and [joueurId]: the live session first. *)
Definition resolve (code socket_id : string) (r : Registry)
    : option (string * State * string) :=
  match reg_get code r with
  | Some s =>
      match joueur_of socket_id s with
      | Some j => Some (code, s, j)
      | None => resolve_differed code socket_id (map fst r) r
      end
  | None => resolve_differed code socket_id (map fst r) r
  end.

(** [state.currentQuestionDuration || question.temps || 20] *)
Definition timeAllowed (s : State) (q : Question) : jsnum :=
  match currentQuestionDuration s with
  | Some d => if truthy d then d else temps_or_default q
  | None => temps_or_default q
  end.

(** [(serverReceiveTime - questionStart) > timeAllowed * 1000 + 500], with
    the exact product: for a fractional [timeAllowed] the double product can
    fall short of it in the last bit (32.3 * 1000), which only matters when
    the elapsed time is exactly on the bound. *)
Definition late_server (now qstart : Z) (allowed : jsnum) : bool :=
  gt (sub (ofZ now) (ofZ qstart)) (add (mul allowed (ofZ 1000)) (ofZ 500)).

(** [(clientTimestamp - questionStart) > timeAllowed * 1000], with the exact
    product, as above. *)
Definition late_client (cts : option Z) (qstart : Z) (allowed : jsnum) : bool :=
  gt (sub (num_of_time cts) (ofZ qstart)) (mul allowed (ofZ 1000)).

(** [Object.values(scoredQuestions).reduce((sum, score) => sum + score, 0)] *)
Definition sum_scores (m : gmap string jsnum) : jsnum :=
  map_fold (fun _ v acc => add acc v) (ofZ 0) m.

(** [answerCounts[idx]++] when [answerCounts[idx] !== undefined] *)
Definition bump (idx : Z) (counts : list Z) : list Z :=
  if Z.ltb idx 0 then counts else alter (Z.add 1) (Z.to_nat idx) counts.

Definition in_range (idx : Z) (counts : list Z) : bool :=
  Z.leb 0 idx && Z.ltb idx (Z.of_nat (length counts)).

(** One respondent's contribution to [answerCounts] and [total]. *)
Definition count_answer (a : Answer) (acc : list Z * Z) : list Z * Z :=
  let '(counts, total) := acc in
  match answerIdx a with
  | IdxArray l => (foldl (fun c i => bump i c) counts l, total + 1)
  | IdxNumber i => if in_range i counts then (bump i counts, total + 1) else acc
  | IdxOther => acc
  end.

(** The per-option percentages of the quiz-mode statistics. *)
Definition answer_stats (q : Question) (questionUid : string)
    (ans : gmap string (gmap string Answer)) : list jsnum * Z :=
  let zeros :=
    match reponses q with
    | Some rs => replicate (length rs) 0
    | None => []
    end in
  let '(counts, total) :=
    map_fold (fun _ per_q acc =>
                match per_q !! questionUid with
                | Some a => count_answer a acc
                | None => acc
                end) (zeros, 0) ans in
  (map (fun c => if Z.ltb 0 total
                 then round (mul (div (ofZ c) (ofZ total)) (ofZ 100))
                 else ofZ 0) counts,
   total).

Definition quiz_stats_events (s : State) (q : Question) (questionUid : string)
    : list Event :=
  match linkedQuizId s with
  | Some quiz =>
      if String.eqb quiz "" then []
      else
        let '(stats, total) := answer_stats q questionUid (default ∅ (answers s)) in
        [Emit (dashboard quiz) (quiz_answer_stats_update questionUid stats total);
         Emit (projection quiz) (quiz_answer_stats_update questionUid stats total)]
  | None => []
  end.

Definition rejection (reason : string) : Event :=
  SocketEmit (tournament_answer_result_rejected reason "Trop tard !").

(** Storing and scoring an admitted answer: the part of the handler after the
    timing checks. *)
Definition record_answer (joueurId questionUid : string) (a : Answer)
    (question : Question) (qstart : Z) (total : nat) (s : State)
    : State * list Event * Outcome :=
  let all := default ∅ (answers s) in
  let mine := default ∅ (all !! joueurId) in
  let s := set_answers (Some (<[joueurId := <[questionUid := a]> mine]> all)) s in
  match participants s !! joueurId with
  | None => (s, [Uncaught "TypeError: state.participants[joueurId] is undefined"], Threw)
  | Some p =>
      let totalScore := calculateScore question a qstart total in
      let scored := <[questionUid := totalScore]> (default ∅ (scoredQuestions p)) in
      let p := mkParticipant (p_id p) (pseudo p) (avatar p) (sum_scores scored)
                 (Some scored) (p_isDiffered p) in
      let s := set_participants (<[joueurId := p]> (participants s)) s in
      (s,
       SocketEmit (tournament_answer_result_received "Réponse enregistrée")
         :: quiz_stats_events s question questionUid,
       Accepted)
  end.

(** [handleTournamentAnswer] from the lookup of the active question on, for
    the session and player the connection resolved to.  The index check that
    follows the lookup ([qIdx < 0 || ... || qIdx >= length]) cannot fail for
    a question that [find] has just returned, so it has no branch here. *)
Definition answer_on (now : Z) (joueurId questionUid : string) (a : Answer)
    (s : State) : State * list Event * Outcome :=
  match questions s with
  | None => (s, [Uncaught "TypeError: state.questions is undefined"], Threw)
  | Some qs =>
      match find_question (currentQuestionUid s) qs with
      | None => (s, [], QuestionNotFound)
      | Some question =>
          if negb (String.eqb (uid question) questionUid) then (s, [], WrongQuestion)
          else
            let allowed := timeAllowed s question in
            match questionStart s with
            | None => (s, [], NotStarted)
            | Some qstart =>
                if Z.eqb qstart 0 then (s, [], NotStarted)
                else if stopped s then (s, [rejection "stopped"], Rejected "stopped")
                else if negb (paused s)
                        && (late_server now qstart allowed
                            || late_client (clientTimestamp a) qstart allowed)
                then (s, [rejection "late"], Rejected "late")
                else record_answer joueurId questionUid a question qstart (length qs) s
            end
      end
  end.

Definition handleTournamentAnswer (now : Z) (socket_id code questionUid : string)
    (a : Answer) (w : World) : World * list Event * Outcome :=
  match resolve code socket_id (tournamentState w) with
  | None => (w, [], Unresolved)
  | Some (stateKey, s, joueurId) =>
      let '(s', evs, out) := answer_on now joueurId questionUid a s in
      (mkWorld (reg_set stateKey s' (tournamentState w)) (loop w), evs, out)
  end.

(** ** Finalization *)

(** What the durable store answers during one [forceTournamentEnd]. *)
Record Db : Type := mkDb {
  (** does [prisma.tournoi.update] reject? *)
  update_rejects : bool;
  (** [prisma.tournoi.findUnique]: [None] rejects, [Some None] finds nothing *)
  findUnique : option (option string);
  (** does [saveParticipantScore] reject for this participant? *)
  save_rejects : Participant -> bool
}.

Definition with_score (v : jsnum) (p : Participant) : Participant :=
  mkParticipant (p_id p) (pseudo p) (avatar p) v (scoredQuestions p) (p_isDiffered p).

(** [scaledLeaderboard.forEach(entry => ... participant.score = entry.score)] *)
Definition apply_scaled (entries : list LeaderboardEntry)
    (ps : gmap string Participant) : gmap string Participant :=
  foldl (fun ps e =>
           match e_id e with
           | Some i =>
               match ps !! i with
               | Some p => <[i := with_score (e_score e) p]> ps
               | None => ps
               end
           | None => ps
           end) ps entries.

(** [!participant.isDiffered && participant.id && !participant.id.startsWith('socket_')] *)
Definition durable (p : Participant) : bool :=
  negb (p_isDiffered p) && truthy_str (p_id p)
  && negb (String.prefix "socket_" (default "" (p_id p))).

(** The loop over the participants inside the [try]: the rows written and
    whether a write rejected (which leaves the loop for the [catch]). *)
Fixpoint save_scores (db : Db) (tournoiId : string) (ps : list Participant)
    : list Event * bool :=
  match ps with
  | [] => ([], false)
  | p :: ps' =>
      if durable p then
        if save_rejects db p then ([], true)
        else
          let '(evs, rejected) := save_scores db tournoiId ps' in
          (DbSaveParticipantScore tournoiId p :: evs, rejected)
      else save_scores db tournoiId ps'
  end.

(** The "sync askedQuestions from quizState" block. *)
Definition sync_askedQuestions (s : State) : State :=
  match linkedQuizId s with
  | Some quiz =>
      if String.eqb quiz "" then s
      else match quizAskedQuestions quiz with
           | Some asked =>
               set_askedQuestions (Some (default ∅ (askedQuestions s) ∪ asked)) s
           | None => s
           end
  | None => s
  end.

(** [forceTournamentEnd].  The function is [async]; it is modelled as one
    uninterrupted run, with the store's answers given by [db].  A rejected
    promise that no [try] covers ends the run with [Uncaught].  The raw
    leaderboard is only logged and is left out; participants are visited in
    the map's order. *)
Definition forceTournamentEnd (db : Db) (code : string) (w : World)
    : World * list Event :=
  match reg_get code (tournamentState w) with
  | None => (w, [])
  | Some s =>
      let '(s, l) :=
        match timer s with
        | Some h => (set_timer None s, clearTimeout h (loop w))
        | None => (s, loop w)
        end in
      let s := sync_askedQuestions s in
      let asked := default ∅ (askedQuestions s) in
      match questions s with
      | None =>
          (mkWorld (reg_set code s (tournamentState w)) l,
           [Uncaught "TypeError: state.questions is undefined"])
      | Some qs =>
          let scaledLeaderboard := computeLeaderboard s asked (length qs) in
          let s := set_participants (apply_scaled scaledLeaderboard (participants s)) s in
          let r := reg_set code s (tournamentState w) in
          if update_rejects db then
            (mkWorld r l, [Uncaught "prisma.tournoi.update rejected"])
          else
            let saved :=
              match findUnique db with
              | None => [LogError "ForceEnd: error saving scores/updating tournament"]
              | Some None => []
              | Some (Some tournoiId) =>
                  let '(evs, rejected) :=
                    save_scores db tournoiId (snd <$> map_to_list (participants s)) in
                  evs ++ (if rejected
                          then [LogError "ForceEnd: error saving scores/updating tournament"]
                          else [])
              end in
            (mkWorld (reg_delete code r) l,
             [DbUpdateTournoi code scaledLeaderboard;
              Emit (live code) (tournament_end scaledLeaderboard)]
             ++ saved
             ++ [Emit (live code) (tournament_finished_redirect code)])
      end
  end.

(** ** Runs of the core *)

(** The calls a session can receive from the sockets, each stamped with the
    [Date.now()] of its run. *)
Inductive Action : Type :=
  | SubmitAnswer (socket_id code questionUid : string) (a : Answer)
  | SetQuestion (code : string) (index : Index) (linkedQuizId_ : option string)
      (initialTime : option jsnum) (targetQuestionUid : option string)
  | SetTimer (code : string) (timeLeft : option jsnum) (forceActive : bool)
  | Pause (code : string) (remainingTime : option jsnum).

Definition step (w : World) (ta : Z * Action) : World * list Event :=
  let '(now, a) := ta in
  match a with
  | SubmitAnswer socket_id code questionUid ans =>
      fst (handleTournamentAnswer now socket_id code questionUid ans w)
  | SetQuestion code index quiz initialTime target =>
      triggerTournamentQuestion code index quiz initialTime target w
  | SetTimer code timeLeft forceActive =>
      triggerTournamentTimerSet now code timeLeft forceActive w
  | Pause code remainingTime => triggerTournamentPause now code remainingTime w
  end.

Fixpoint run (w : World) (tr : list (Z * Action)) : World :=
  match tr with
  | [] => w
  | ta :: tr' => run (fst (step w ta)) tr'
  end.

Definition is_controller (a : Action) : bool :=
  match a with
  | SubmitAnswer _ _ _ _ => false
  | _ => true
  end.

End Core.

(** ** Properties under study *)

(** The three timer states of the specification, read off the two flags. *)
Inductive TimerState : Type := Active | Paused | Stopped.

Definition in_state (s : State) (t : TimerState) : Prop :=
  match t with
  | Active => paused s = false /\ stopped s = false
  | Paused => paused s = true
  | Stopped => stopped s = true
  end.

Definition exactly_one_state (s : State) : Prop :=
  exists t, in_state s t /\ forall t', in_state s t' -> t' = t.

(** The timer-state invariant as the data model words it:
    [pausedRemainingTime] is defined iff the session is paused. *)
Definition timer_invariant_iff (s : State) : Prop :=
  exactly_one_state s
  /\ (pausedRemainingTime s <> None <-> paused s = true).

(** The timer-state invariant that the controller maintains. *)
Definition timer_invariant (s : State) : Prop :=
  exactly_one_state s
  /\ (paused s = true -> pausedRemainingTime s <> None)
  /\ (stopped s = true -> pausedRemainingTime s = None).

Definition all_sessions (P : State -> Prop) (w : World) : Prop :=
  Forall (fun e => P (snd e)) (tournamentState w).

(** None of the session's timer handles is pending any more. *)
Definition timers_cancelled (before after : State) (l : Loop) : Prop :=
  timer after = None /\ intervalTimer after = None /\ _timerRef after = None
  /\ (forall h, timer before = Some h -> pending_timeout h l = false)
  /\ (forall h, intervalTimer before = Some h -> pending_interval h l = false)
  /\ (forall h, _timerRef before = Some h -> pending_timeout h l = false).

(** Is a pause mirrored to a dashboard among these events? *)
Definition mirrors_pause (evs : list Event) : Prop :=
  exists quiz uid_ t ts,
    In (Emit (dashboard quiz) (quiz_timer_update "pause" uid_ t ts)) evs.

(** The session's active question can be looked up. *)
Definition has_current_question (s : State) : Prop :=
  exists qs q,
    truthy_str (currentQuestionUid s) = true
    /\ questions s = Some qs
    /\ find_question (currentQuestionUid s) qs = Some q.


(** The remaining time a pause stores, as the specification words it: the
    override when one is supplied, else the time left of the countdown,
    rounded to a tenth of a second. *)
Definition pause_stores (remainingTime : option jsnum) (now : Z) (s : State) : jsnum :=
  toFixed1
    match remainingTime with
    | Some r => r
    | None => max0 (sub (duration_num s) (elapsed_seconds now s))
    end.

(** The remaining time a pause stores, by the controller's rule: the override
    when it is positive, else the time left of the countdown, rounded to a
    tenth of a second. *)
Definition pause_stores_valid (remainingTime : option jsnum) (now : Z) (s : State)
    : jsnum :=
  toFixed1
    (if override_valid remainingTime then default NaN remainingTime
     else max0 (sub (duration_num s) (elapsed_seconds now s))).

(** The remaining time of a pause before rounding, by the controller's rule:
    the override when it is positive, else the time left of the countdown. *)
Definition pause_time_valid (remainingTime : option jsnum) (now : Z) (s : State)
    : jsnum :=
  if override_valid remainingTime then default NaN remainingTime
  else max0 (sub (duration_num s) (elapsed_seconds now s)).

(** [r] is [x] rounded to a tenth of a second: a multiple of 0.1, not
    negative, at most 0.05 away from [x].  At a decimal tie such as 16.65 both
    neighbours qualify: [toFixed(1)] works on the double-precision value of
    [x], whose last bit decides there. *)
Definition rounded_to_tenth (x r : jsnum) : Prop :=
  exists (q : Q) (n : Z),
    x = Num q /\ r = Num (n # 10) /\ 0 <= n
    /\ (q - (1 # 20) <= n # 10)%Q /\ (n # 10 <= q + (1 # 20))%Q.

(** The countdown of the session has been started: there is a start time and
    a numeric duration. *)
Definition countdown_started (s : State) : Prop :=
  (exists t, questionStart s = Some t)
  /\ (exists d, currentQuestionDuration s = Some (Num d)).

(** What a pause does to the session [s] found under [code], given the
    remaining time [stored] that it is to record: nothing when [s] is
    deferred, paused or stopped; otherwise its timers are cancelled, it is
    paused with [stored], and the dashboard is told only if the session is
    linked and [stored] is positive. *)
Definition pause_behaviour (stored : jsnum) (now : Z) (code : string)
    (remainingTime : option jsnum) (w : World) (s : State) : Prop :=
  let '(w', evs) := triggerTournamentPause now code remainingTime w in
  (isDiffered s = true \/ paused s = true \/ stopped s = true ->
     w' = w /\ evs = [])
  /\ (isDiffered s = false -> in_state s Active ->
      exists s',
        reg_get code (tournamentState w') = Some s'
        /\ timers_cancelled s s' (loop w')
        /\ in_state s' Paused /\ stopped s' = false
        /\ pausedRemainingTime s' = Some stored
        /\ (mirrors_pause evs <->
            truthy_str (linkedQuizId s) = true /\ gt stored (ofZ 0) = true)).

(** Return paths of the answer handler that reject the submission. *)
Definition is_rejection (o : Outcome) : bool :=
  match o with
  | Accepted | Threw => false
  | _ => true
  end.

(** The participant record of player [p] in session [key]. *)
Definition part_of (w : World) (key p : string) : option Participant :=
  s ← reg_get key (tournamentState w);
  participants s !! p.








(** ** Sample sessions *)

Module Sample.

Definition q1 : Question :=
  mkQuestion "q1" (Some 20) (Some [("2", true); ("3", false); ("5", false)]).
Definition q2 : Question := mkQuestion "q2" None None.

Definition alice : Participant :=
  mkParticipant (Some "alice") "Alice" "" (ofZ 0) None false.
Definition bob : Participant :=
  mkParticipant (Some "bob") "Bob" "" (ofZ 0) None false.

(** A freshly created live session. *)
Definition fresh : State :=
  mkState (Some [q1; q2]) None None None false false None None false None
    {[ "sock_a" := "alice"; "sock_b" := "bob" ]}
    {[ "alice" := alice; "bob" := bob ]}
    None None None None None None None None false.

Definition w0 : World := mkWorld [("T1", fresh)] (mkLoop 0 [] []).

(** Question set at t = 1 s, countdown of 20 s started at t = 2 s. *)
Definition start : list (Z * Action) :=
  [ (1000, SetQuestion "T1" (At 0) None None None);
    (2000, SetTimer "T1" (Some (ofZ 20)) true) ].

(** ... then paused at t = 5 s with 10 s on the moderator's clock. *)
Definition start_pause : list (Z * Action) :=
  start ++ [ (5000, Pause "T1" (Some (ofZ 10))) ].

(** ... then resumed at t = 9 s. *)
Definition start_pause_resume : list (Z * Action) :=
  start_pause ++ [ (9000, SetTimer "T1" (Some (ofZ 50)) true) ].

(** A scorer: 100 points per option rank, for illustration. *)
Definition scorer (q : Question) (a : Answer) (qstart : Z) (total : nat) : jsnum :=
  match answerIdx a with
  | IdxNumber i => ofZ (100 * (i + 1))
  | _ => ofZ 0
  end.

(** An expiration handler that leaves the world as it is. *)
Definition no_effect (code : string) (w : World) : World := w.

Definition w_started : World := run scorer w0 start.
Definition w_paused : World := run scorer w0 start_pause.

(** A store whose leaderboard write rejects. *)
Definition db_down : Db := mkDb true (Some (Some "t-1")) (fun _ => false).

Definition no_scaling (s : State) (asked : gset string) (total : nat)
    : list LeaderboardEntry :=
  (fun p => mkEntry (p_id p) (pseudo p) (avatar p) (score p))
    <$> (snd <$> map_to_list (participants s)).

Definition no_quiz (quiz : string) : option (gset string) := None.

(** The session "T1" of a world. *)
Definition session (w : World) : State :=
  default fresh (reg_get "T1" (tournamentState w)).

(** Stopped at t = 4 s. *)
Definition w_stopped : World :=
  run scorer w_started [ (4000, SetTimer "T1" (Some (ofZ 0)) false) ].

(** The same question set with a dashboard attached. *)
Definition w_linked : World :=
  run scorer w0 [ (1000, SetQuestion "T1" (At 0) (Some "quiz-7") None None) ].

(** A countdown of one second. *)
Definition w_one_second : World :=
  run scorer w0 [ (1000, SetQuestion "T1" (At 0) None None None);
                  (2000, SetTimer "T1" (Some (ofZ 1)) true) ].

Definition pick (i t : Z) : Answer := mkAnswer (IdxNumber i) (Some t).

(** Alice answers q1 twice: option 2 after 0.9 s, then option 0 after 3.9 s. *)
Definition two_answers : list (Z * Action) :=
  start ++ [ (3000, SubmitAnswer "sock_a" "T1" "q1" (pick 2 2900));
             (6000, SubmitAnswer "sock_a" "T1" "q1" (pick 0 5900)) ].

End Sample.

(** ** Further handlers and the vocabulary of their properties *)

(** [triggerTournamentResume] (deprecated in the source): a paused session is
    handed to the timer set with its stored remaining time and
    [forceActive = true]. *)
Definition triggerTournamentResume (now : Z) (code : string) (w : World)
    : World * list Event :=
  match reg_get code (tournamentState w) with
  | Some s =>
      if paused s
      then triggerTournamentTimerSet now code (pausedRemainingTime s) true w
      else (w, [])
  | None => (w, [])
  end.

(** The keys under which an answer sent for [code] looks for its session:
    the live session [code] and its replays [code_...]. *)
Definition candidate_key (code key : string) : Prop :=
  key = code \/ String.prefix (String.append code "_") key = true.

(** [state.answers[joueurId][questionUid]] *)
Definition answer_of (s : State) (joueurId questionUid : string) : option Answer :=
  per_q ← default ∅ (answers s) !! joueurId;
  per_q !! questionUid.

(** [s'] is [s] up to the fields [answers] and [participants]. *)
Definition same_but_answers_participants (s s' : State) : Prop :=
  s' = set_participants (participants s') (set_answers (answers s') s).

(** [s'] is [s] up to [linkedQuizId], [currentQuestionUid] and
    [currentQuestionDuration]. *)
Definition same_but_question (s s' : State) : Prop :=
  s' = set_currentQuestionDuration (currentQuestionDuration s')
         (set_currentQuestionUid (currentQuestionUid s')
            (set_linkedQuizId (linkedQuizId s') s)).

(** Does option [k] occur among the indices of a multiple-choice answer? *)
Definition hits (k : nat) (l : list Z) : bool :=
  existsb (fun i => Z.leb 0 i && Nat.eqb (Z.to_nat i) k) l.

(** An answer that selects each option at most once. *)
Definition selects_once (a : Answer) : Prop :=
  match answerIdx a with
  | IdxArray l => NoDup l
  | _ => True
  end.

(** A percentage: a number between 0 and 100. *)
Definition is_percentage (x : jsnum) : Prop :=
  exists q, x = Num q /\ (0 <= q)%Q /\ (q <= inject_Z 100)%Q.

(** Every pending timeout is the [timer] of a registered session and every
    pending interval the [intervalTimer] of one. *)
Definition timers_owned (w : World) : Prop :=
  (forall h d, In (h, d) (timeouts (loop w)) ->
     exists code s, In (code, s) (tournamentState w) /\ timer s = Some h)
  /\ (forall h r, In (h, r) (intervals (loop w)) ->
     exists code s, In (code, s) (tournamentState w) /\ intervalTimer s = Some h).

(** [k] successive firings of the interval [h]. *)
Fixpoint ticks (handleTimerExpiration : string -> World -> World)
    (code : string) (h : nat) (k : nat) (w : World) : World * list Event :=
  match k with
  | O => (w, [])
  | S k' =>
      let '(w1, evs1) := intervalCallback handleTimerExpiration code h w in
      let '(w2, evs2) := ticks handleTimerExpiration code h k' w1 in
      (w2, evs1 ++ evs2)
  end.

(** The rows [forceTournamentEnd] writes when the store accepts everything. *)
Definition saved_rows (tournoiId : string) (ps : list Participant) : list Event :=
  DbSaveParticipantScore tournoiId <$> List.filter durable ps.

(** The running tallies are consistent: no tally is negative or exceeds the
    number of respondents counted so far. *)
Definition tally_ok (n : nat) (acc : list Z * Z) : Prop :=
  length (fst acc) = n /\ 0 <= snd acc
  /\ Forall (fun c => 0 <= c <= snd acc) (fst acc).

(** The tallies [answer_stats] folds over the stored answers. *)
Definition tallies (q : Question) (questionUid : string)
    (ans : gmap string (gmap string Answer)) : list Z * Z :=
  map_fold (fun _ per_q acc =>
              match per_q !! questionUid with
              | Some a => count_answer a acc
              | None => acc
              end)
    (match reponses q with Some rs => replicate (length rs) 0 | None => [] end, 0)
    ans.

(** A countdown of [t] seconds runs for the session: the session is active
    since [now], and the loop holds the cleared timers of before plus one
    fresh interval counting down from [t] and one fresh deadline at
    [t * 1000] ms, which the session's handles point to. *)
Definition countdown_armed (now : Z) (t : jsnum) (before : Loop) (s' : State)
    (after : Loop) : Prop :=
  in_state s' Active
  /\ currentQuestionDuration s' = Some t
  /\ questionStart s' = Some now
  /\ previousQuestionUid s' = currentQuestionUid s'
  /\ intervalTimer s' = Some (nextHandle before)
  /\ timer s' = Some (S (nextHandle before))
  /\ _timerRef s' = timer s'
  /\ intervals after = intervals before ++ [(nextHandle before, t)]
  /\ timeouts after = timeouts before ++ [(S (nextHandle before), mul t (ofZ 1000))]
  /\ nextHandle after = S (S (nextHandle before)).

(** What one handler run on a session may do to the pending timers: a timer
    pending afterwards is the one the session now points to, or was pending
    before and was not the session's. *)
Definition owned_step (s s' : State) (l l' : Loop) : Prop :=
  (forall h d, In (h, d) (timeouts l') ->
     timer s' = Some h \/ (In (h, d) (timeouts l) /\ timer s <> Some h))
  /\ (forall h r, In (h, r) (intervals l') ->
     intervalTimer s' = Some h \/ (In (h, r) (intervals l) /\ intervalTimer s <> Some h)).




(** ** Further sample sessions *)

Module Scenario.

Import Sample.

(** A replay of "T1" played by Carol, registered beside the live session. *)
Definition carol : Participant :=
  mkParticipant (Some "carol") "Carol" "" (ofZ 0) None true.

Definition replay : State :=
  mkState (Some [q1; q2]) None None None false false None None true None
    {[ "sock_c" := "carol" ]}
    {[ "carol" := carol ]}
    None None None None None None None None false.

Definition w_replay : World :=
  mkWorld [("T1", fresh); ("T1_carol", replay)] (mkLoop 0 [] []).

(** The first question set at t = 1 s, no countdown started yet. *)
Definition w_question : World :=
  run scorer w0 [ (1000, SetQuestion "T1" (At 0) None None None) ].

(** A countdown of three seconds. *)
Definition w_three_seconds : World :=
  run scorer w_question [ (2000, SetTimer "T1" (Some (ofZ 3)) true) ].

(** The 20 s countdown paused at t = 30 s, when nothing is left of it. *)
Definition w_paused_out : World :=
  run scorer w_started [ (30000, Pause "T1" None) ].



(** A session that has been marked paused while its countdown of three
    seconds is still armed. *)
Definition w_paused_armed : World :=
  mkWorld (reg_set "T1" (set_paused true (session w_three_seconds))
             (tournamentState w_three_seconds))
    (loop w_three_seconds).

(** The same with the stopped mark. *)
Definition w_stopped_armed : World :=
  mkWorld (reg_set "T1" (set_stopped true (session w_three_seconds))
             (tournamentState w_three_seconds))
    (loop w_three_seconds).

(** An expiration handler that removes the session. *)
Definition drop_session (code : string) (w : World) : World :=
  mkWorld (reg_delete code (tournamentState w)) (loop w).

(** Options 0 and 2 ticked. *)
Definition ticked : Answer := mkAnswer (IdxArray [0; 2]) (Some 2900).

Definition stored : gmap string (gmap string Answer) :=
  {[ "alice" := {[ "q1" := ticked ]} ]}.

(** A store that accepts every write. *)
Definition db_up : Db := mkDb false (Some (Some "t-1")) (fun _ => false).

(** A leaderboard that gives Alice 500 points. *)
Definition alice_500 : LeaderboardEntry := mkEntry (Some "alice") "Alice" "" (ofZ 500).

End Scenario.

(** ** Registry lemmas *)

Lemma reg_get_set_eq code v r s :
  reg_get code r = Some s -> reg_get code (reg_set code v r) = Some v.
Proof.
  induction r as [|[k x] r IH]; simpl; [discriminate|].
  destruct (String.eqb k code) eqn:E; simpl; rewrite E; auto.
Qed.

Lemma reg_get_set_ne code code' v r :
  code <> code' -> reg_get code' (reg_set code v r) = reg_get code' r.
Proof.
  intros Hne. induction r as [|[k x] r IH]; simpl; [reflexivity|].
  destruct (String.eqb k code) eqn:E; simpl.
  - apply String.eqb_eq in E. subst k.
    destruct (String.eqb code code') eqn:E'; [|reflexivity].
    apply String.eqb_eq in E'. contradiction.
  - destruct (String.eqb k code'); auto.
Qed.

Lemma reg_set_same code s r : reg_get code r = Some s -> reg_set code s r = r.
Proof.
  induction r as [|[k x] r IH]; simpl; [reflexivity|].
  destruct (String.eqb k code) eqn:E.
  - intros [= ->]. reflexivity.
  - intros H. rewrite (IH H). reflexivity.
Qed.

Lemma reg_set_Forall (P : State -> Prop) code v r :
  Forall (fun e => P (snd e)) r -> P v ->
  Forall (fun e => P (snd e)) (reg_set code v r).
Proof.
  intros Hr Hv. induction Hr as [|[k x] r Hx Hr IH]; simpl; [constructor|].
  destruct (String.eqb k code); constructor; auto.
Qed.

Lemma reg_get_Forall (P : State -> Prop) code s r :
  Forall (fun e => P (snd e)) r -> reg_get code r = Some s -> P s.
Proof.
  induction 1 as [|[k x] r Hx Hr IH]; simpl; [discriminate|].
  destruct (String.eqb k code); [intros [= <-]; exact Hx | exact IH].
Qed.

Lemma on_session_unchanged code f w :
  (forall s, reg_get code (tournamentState w) = Some s -> f s (loop w) = (s, loop w, [])) ->
  on_session code f w = (w, []).
Proof.
  intros H. unfold on_session.
  destruct (reg_get code (tournamentState w)) as [s|] eqn:E; [|reflexivity].
  rewrite (H s eq_refl). rewrite (reg_set_same _ _ _ E). destruct w; reflexivity.
Qed.

Lemma on_session_get code f w s :
  reg_get code (tournamentState w) = Some s ->
  reg_get code (tournamentState (fst (on_session code f w)))
  = Some (fst (fst (f s (loop w)))).
Proof.
  intros E. unfold on_session. rewrite E.
  destruct (f s (loop w)) as [[s' l'] evs]. simpl.
  eapply reg_get_set_eq; eauto.
Qed.

(** ** Setting the question *)

Lemma setQuestion_on_invalid code index quiz initialTime target s :
  setQuestion_valid index target s = false ->
  setQuestion_on code index quiz initialTime target s = (s, []).
Proof.
  unfold setQuestion_valid, setQuestion_on.
  destruct (questions s) as [qs|]; [|reflexivity].
  destruct (truthy_str target).
  - destruct (findIndex target qs); [discriminate|reflexivity].
  - destruct (index_ge index (Z.of_nat (length qs))); [reflexivity|discriminate].
Qed.

Lemma setQuestion_on_linkedQuizId code index quiz initialTime target s :
  setQuestion_valid index target s = true ->
  linkedQuizId (fst (setQuestion_on code index quiz initialTime target s)) = quiz.
Proof.
  unfold setQuestion_valid, setQuestion_on.
  destruct (questions s) as [qs|]; [|discriminate].
  destruct (truthy_str target).
  - destruct (findIndex target qs) as [i|]; [|discriminate]. intros _.
    destruct (question_at (Some i) qs); reflexivity.
  - destruct (index_ge index (Z.of_nat (length qs))); [discriminate|]. intros _.
    destruct (question_at (index_position index) qs); reflexivity.
Qed.

(** C10.  A call of [triggerTournamentQuestion] that gets past its validation
    (the session exists and has questions; the target uid is found, or no
    uid is given and the index is not beyond the array) leaves the session
    with [linkedQuizId] equal to the call's argument, whatever it was before;
    the argument is [None] when the caller omits it, which detaches a linked
    dashboard. *)
Theorem setQuestion_overwrites_linkedQuizId
    (code : string) (index : Index) (quiz : option string)
    (initialTime : option jsnum) (target : option string) (w : World) (s : State) :
  reg_get code (tournamentState w) = Some s ->
  setQuestion_valid index target s = true ->
  exists s',
    reg_get code
      (tournamentState
         (fst (triggerTournamentQuestion code index quiz initialTime target w)))
    = Some s'
    /\ linkedQuizId s' = quiz
    /\ (quiz = None -> truthy_str (linkedQuizId s') = false).
Proof.
  intros Hget Hvalid. unfold triggerTournamentQuestion.
  rewrite (on_session_get _ _ _ _ Hget).
  pose proof (setQuestion_on_linkedQuizId code index quiz initialTime target s Hvalid) as H.
  destruct (setQuestion_on code index quiz initialTime target s) as [s' evs].
  simpl in *. exists s'. split; [reflexivity|]. split; [exact H|].
  intros ->. rewrite H. reflexivity.
Qed.

(** ** Stopping *)

Lemma timerSet_on_stopped now code t fa s l :
  is_zero t = true -> stopped s = true ->
  timerSet_on now code (Some t) fa s l = (s, l, []).
Proof.
  intros Hz Hs. unfold timerSet_on. simpl. rewrite Hz, Hs.
  destruct (isDiffered s); reflexivity.
Qed.

Lemma timerSet_on_stop_stopped now code t fa s l :
  is_zero t = true -> isDiffered s = false ->
  stopped (fst (fst (timerSet_on now code (Some t) fa s l))) = true.
Proof.
  intros Hz Hd. unfold timerSet_on. simpl. rewrite Hz, Hd. simpl.
  destruct (stopped s) eqn:Hs; [exact Hs|].
  destruct (clearTimers s l) as [s1 l1]. reflexivity.
Qed.

Lemma timerSet_on_differed now code t fa s l :
  isDiffered s = true -> timerSet_on now code t fa s l = (s, l, []).
Proof. intros Hd. unfold timerSet_on. rewrite Hd. reflexivity. Qed.

(** C6.  [setTimer(0)] on a stopped session changes nothing and emits
    nothing, neither to the live channel nor to the dashboard; and a second
    stop right after any stop is such a no-op, so stopping is idempotent
    (also through [manageTimer]'s "stop" action). *)
Theorem stop_twice_is_noop
    (now now' : Z) (code : string) (fa fa' : bool) (w : World) :
  (forall s, reg_get code (tournamentState w) = Some s -> stopped s = true ->
     triggerTournamentTimerSet now code (Some (ofZ 0)) fa w = (w, [])
     /\ manageTimer now code stop None fa w = (w, []))
  /\ (let w1 := fst (triggerTournamentTimerSet now code (Some (ofZ 0)) fa w) in
      triggerTournamentTimerSet now' code (Some (ofZ 0)) fa' w1 = (w1, [])).
Proof.
  split.
  - intros s Hget Hs.
    assert (forall b, triggerTournamentTimerSet now code (Some (ofZ 0)) b w = (w, [])) as H.
    { intros b. apply on_session_unchanged. intros s0 H0.
      rewrite Hget in H0. injection H0 as <-.
      apply timerSet_on_stopped; [reflexivity|exact Hs]. }
    split; [apply H|]. unfold manageTimer. rewrite Hget. apply H.
  - cbv zeta. unfold triggerTournamentTimerSet at 2.
    apply on_session_unchanged. intros s1 H1.
    destruct (reg_get code (tournamentState w)) as [s|] eqn:Hget.
    + unfold triggerTournamentTimerSet in H1.
      rewrite (on_session_get _ _ _ _ Hget) in H1. injection H1 as <-.
      destruct (isDiffered s) eqn:Hd.
      * rewrite (timerSet_on_differed _ _ _ _ _ _ Hd). simpl.
        apply timerSet_on_differed. exact Hd.
      * apply timerSet_on_stopped; [reflexivity|].
        apply timerSet_on_stop_stopped; [reflexivity|exact Hd].
    + unfold triggerTournamentTimerSet, on_session in H1.
      rewrite Hget in H1. simpl in H1. congruence.
Qed.

(** ** Rejected answers *)

Lemma answer_on_rejection now j quid a s s' evs out
    (calculateScore : Question -> Answer -> Z -> nat -> jsnum) :
  answer_on calculateScore now j quid a s = (s', evs, out) ->
  is_rejection out = true -> s' = s.
Proof.
  unfold answer_on.
  destruct (questions s) as [qs|]; [|intros [= <- <- <-]; discriminate].
  destruct (find_question (currentQuestionUid s) qs) as [q|]; [|intros [= <- <- <-]; reflexivity].
  destruct (negb (String.eqb (uid q) quid)); [intros [= <- <- <-]; reflexivity|].
  destruct (questionStart s) as [t|]; [|intros [= <- <- <-]; reflexivity].
  destruct (Z.eqb t 0); [intros [= <- <- <-]; reflexivity|].
  destruct (stopped s); [intros [= <- <- <-]; reflexivity|].
  destruct (negb (paused s) && _); [intros [= <- <- <-]; reflexivity|].
  unfold record_answer. cbn [participants set_answers].
  destruct (_ !! j); intros [= <- <- <-]; discriminate.
Qed.

Lemma resolve_differed_get code sock keys r key s j :
  resolve_differed code sock keys r = Some (key, s, j) -> reg_get key r = Some s.
Proof.
  induction keys as [|k keys IH]; simpl; [discriminate|].
  destruct (String.prefix _ k); [|exact IH].
  destruct (reg_get k r) as [s0|] eqn:E; [|exact IH].
  destruct (joueur_of sock s0); [|exact IH].
  intros [= <- <- <-]. exact E.
Qed.

Lemma resolve_get code sock r key s j :
  resolve code sock r = Some (key, s, j) -> reg_get key r = Some s.
Proof.
  unfold resolve.
  destruct (reg_get code r) as [s0|] eqn:E.
  - destruct (joueur_of sock s0).
    + intros [= <- <- <-]. exact E.
    + apply resolve_differed_get.
  - apply resolve_differed_get.
Qed.

(** C9.  Every return path of the answer handler that rejects the submission
    (unresolved connection, active question not found, answer for another
    question, question not started, session stopped, too late) leaves the
    whole world as it was: every session's answers, every participant's
    [scoredQuestions] and total included. *)
Theorem rejected_answer_changes_nothing
    (calculateScore : Question -> Answer -> Z -> nat -> jsnum)
    (now : Z) (socket_id code questionUid : string) (a : Answer) (w : World) :
  let '(w', _, out) :=
    handleTournamentAnswer calculateScore now socket_id code questionUid a w in
  match out with
  | Unresolved | QuestionNotFound | WrongQuestion | NotStarted | Rejected _ => w' = w
  | Accepted | Threw => True
  end.
Proof.
  unfold handleTournamentAnswer.
  destruct (resolve code socket_id (tournamentState w)) as [[[key s] j]|] eqn:R;
    [|reflexivity].
  destruct (answer_on calculateScore now j questionUid a s) as [[s' evs] out] eqn:A.
  pose proof (answer_on_rejection _ _ _ _ _ _ _ _ _ A) as H.
  apply resolve_get in R.
  assert (is_rejection out = true ->
          mkWorld (reg_set key s' (tournamentState w)) (loop w) = w) as Hw.
  { intros Hr. rewrite (H Hr), (reg_set_same _ _ _ R). destruct w; reflexivity. }
  destruct out; auto.
Qed.

(** ** Answer admission *)





(** ** Resuming *)

Lemma clearTimers_fst s l :
  fst (clearTimers s l)
  = set__timerRef None (set_intervalTimer None (set_timer None s)).
Proof.
  destruct s. unfold clearTimers. cbn.
  repeat match goal with
         | |- context [match ?x with Some _ => _ | None => _ end] => destruct x; cbn
         end; reflexivity.
Qed.

Ltac norm_clearTimers s1 l1 :=
  match goal with
  | |- context [clearTimers ?s ?l] =>
      let C := fresh "C" in
      let H := fresh "H" in
      pose proof (clearTimers_fst s l) as H;
      destruct (clearTimers s l) as [s1 l1] eqn:C;
      simpl fst in H; subst s1
  end.

Lemma gt_le_false a b : gt a b = true -> le a b = false.
Proof.
  destruct a, b; simpl; try discriminate.
  intros H. apply negb_true_iff in H. exact H.
Qed.

Lemma timerSet_on_resume now code timeLeft s l r :
  isDiffered s = false ->
  arg_is_zero timeLeft = false ->
  has_current_question s ->
  paused s = true ->
  pausedRemainingTime s = Some r ->
  gt r (ofZ 0) = true ->
  let s' := fst (fst (timerSet_on now code timeLeft true s l)) in
  paused s' = false /\ stopped s' = false
  /\ currentQuestionDuration s' = Some r
  /\ questionStart s' = Some now.
Proof.
  intros Hd Hz (qs & q & Hu & Hq & Hf) Hp Hr Hpos.
  unfold timerSet_on. rewrite Hd, Hz. simpl andb. cbv iota.
  norm_clearTimers s1 l1.
  unfold pausedRemaining_positive.
  cbn [currentQuestionUid questions paused stopped pausedRemainingTime
       set_timer set_intervalTimer set__timerRef].
  rewrite Hu, Hq, Hf, Hp, Hr, Hpos. simpl negb. simpl andb. cbv iota beta.
  unfold start_countdown. simpl default. rewrite (gt_le_false _ _ Hpos).
  cbv zeta. cbn. repeat split; reflexivity.
Qed.


(** ** Pausing *)

Lemma existsb_filter_false {A} (f g : A -> bool) xs :
  existsb f xs = false -> existsb f (List.filter g xs) = false.
Proof.
  induction xs as [|x xs IH]; simpl; [reflexivity|].
  intros H. apply orb_false_iff in H. destruct H as [Hx Hxs].
  destruct (g x); simpl; [rewrite Hx|]; auto.
Qed.

Lemma existsb_filter_self h (xs : list (nat * jsnum)) :
  existsb (handle_eqb h) (List.filter (fun e => negb (handle_eqb h e)) xs) = false.
Proof.
  induction xs as [|e es IH]; simpl; [reflexivity|].
  destruct (handle_eqb h e) eqn:E; simpl; [exact IH|]. rewrite E. exact IH.
Qed.

Lemma clearTimers_cancels s l :
  timers_cancelled s (fst (clearTimers s l)) (snd (clearTimers s l)).
Proof.
  rewrite clearTimers_fst. unfold timers_cancelled.
  do 3 (split; [reflexivity|]).
  destruct s. unfold clearTimers. cbn.
  repeat match goal with
         | |- context [match ?x with Some _ => _ | None => _ end] => destruct x; cbn
         end;
    (split; [|split]); intros h [= <-];
    first [ apply existsb_filter_self
          | apply existsb_filter_false; apply existsb_filter_self ].
Qed.

Lemma calculated_valid now rt s :
  calculatedRemainingTime now rt s
  = if override_valid rt then default NaN rt
    else max0 (sub (duration_num s) (elapsed_seconds now s)).
Proof.
  unfold calculatedRemainingTime, override_valid.
  destruct rt as [r|]; [|reflexivity]. destruct (gt r (ofZ 0)); reflexivity.
Qed.

Lemma stored_is_num now rt s :
  countdown_started s -> exists x, pause_stores_valid rt now s = Num x.
Proof.
  intros [[t Ht] [d Hd]]. unfold pause_stores_valid, override_valid.
  assert (exists x, toFixed1 (max0 (sub (duration_num s) (elapsed_seconds now s))) = Num x)
    as Hcalc.
  { unfold duration_num, elapsed_seconds. rewrite Ht, Hd. simpl.
    match goal with |- context [Qle_bool ?a ?b] => destruct (Qle_bool a b) end;
      eexists; reflexivity. }
  destruct rt as [[|r]|]; simpl; try exact Hcalc.
  destruct (Qle_bool r (inject_Z 0)); simpl; [exact Hcalc|].
  eexists; reflexivity.
Qed.

Lemma toFixed1_close x :
  (0 <= x)%Q ->
  exists n : Z,
    toFixed1 (Num x) = Num (n # 10)
    /\ 0 <= n
    /\ (x - (1 # 20) <= n # 10)%Q /\ (n # 10 <= x + (1 # 20))%Q.
Proof.
  intros Hx. unfold toFixed1, round_half_away.
  assert (Qle_bool 0 (x * (10 # 1)) = true) as ->.
  { apply Qle_bool_iff. apply Qmult_le_0_compat; [exact Hx|discriminate]. }
  eexists. split; [reflexivity|].
  destruct x as [a b]. unfold Qle in Hx. simpl in Hx.
  unfold Qfloor, Qmult, Qplus. simpl Qnum. simpl Qden.
  set (num := (a * 10 * 2 + 1 * Z.pos (b * 1))).
  set (den := Z.pos (b * 1 * 2)).
  assert (0 < den) as Hden by (unfold den; lia).
  pose proof (Z.mul_div_le num den Hden) as Hlo.
  pose proof (Z.mul_succ_div_gt num den Hden) as Hhi.
  assert (0 <= num) as Hnum by (unfold num; lia).
  split; [apply Z.div_pos; assumption|].
  unfold Qle, Qminus, Qplus, Qopp. simpl Qnum. simpl Qden.
  unfold num, den in *. clear num den.
  rewrite ?Pos2Z.inj_mul in *. split; nia.
Qed.

Lemma pause_time_nonneg now rt s :
  countdown_started s ->
  exists x, pause_time_valid rt now s = Num x /\ (0 <= x)%Q.
Proof.
  intros [[t Ht] [d Hdur]]. unfold pause_time_valid, override_valid.
  assert (exists x, max0 (sub (duration_num s) (elapsed_seconds now s)) = Num x
                    /\ (0 <= x)%Q) as Hc.
  { unfold duration_num, elapsed_seconds. rewrite Ht, Hdur. simpl.
    match goal with |- context [Qle_bool ?a ?b] => destruct (Qle_bool a b) eqn:E end.
    - eexists. split; [reflexivity|]. apply Qle_bool_iff. exact E.
    - exists 0%Q. split; [reflexivity|]. apply Qle_refl. }
  destruct rt as [[|r]|]; try exact Hc.
  simpl. destruct (Qle_bool r (inject_Z 0)) eqn:E; simpl; [exact Hc|].
  exists r. split; [reflexivity|].
  apply Qlt_le_weak. apply (Qnot_le_lt r (inject_Z 0)). intros H.
  apply Qle_bool_iff in H. congruence.
Qed.

Lemma stored_rounded now rt s x :
  pause_time_valid rt now s = Num x -> (0 <= x)%Q ->
  rounded_to_tenth (Num x) (pause_stores_valid rt now s).
Proof.
  intros Hx Hx0. destruct (toFixed1_close x Hx0) as (n & Hn & Hn0 & Hlo & Hhi).
  exists x, n. split; [reflexivity|].
  split; [|auto]. unfold pause_stores_valid. unfold pause_time_valid in Hx.
  rewrite Hx. exact Hn.
Qed.

Lemma pause_on_guarded now code rt s l :
  isDiffered s = true \/ paused s = true \/ stopped s = true ->
  pause_on now code rt s l = (s, l, []).
Proof.
  intros H. unfold pause_on.
  destruct H as [->|[->| ->]]; rewrite ?orb_true_r; reflexivity.
Qed.

Lemma pause_on_active now code rt s l :
  isDiffered s = false -> paused s = false -> stopped s = false ->
  pause_on now code rt s l
  = (let precise := pause_stores_valid rt now s in
     let s' :=
       set_stopped false
         (set_paused true
            (set_pausedAt (Some now)
               (set_pausedRemainingTime (Some precise) (fst (clearTimers s l))))) in
     (s', snd (clearTimers s l),
      Emit (live code) (tournament_question_state_update "paused" precise)
        :: (if le precise (ofZ 0) then [] else pause_mirror now s' precise))).
Proof.
  intros Hd Hp Hs. unfold pause_on. rewrite Hd, Hp, Hs. simpl orb. cbv iota.
  pose proof (clearTimers_fst s l) as H.
  destruct (clearTimers s l) as [s1 l1]. simpl fst in *. simpl snd. subst s1.
  cbv zeta. rewrite calculated_valid. reflexivity.
Qed.

(** C8, as amended.  A pause does nothing on a session that is deferred,
    already paused or stopped.  On an active, non-deferred session whose
    countdown has started it cancels the session's timers, makes the session
    paused (and not stopped), and stores as [pausedRemainingTime] the
    override when that is a positive number, otherwise (no override, or one
    that is zero or negative) [max(0, currentQuestionDuration - elapsed)],
    in both cases rounded to a tenth of a second: the stored time is a
    multiple of 0.1, not negative, at most 0.05 away from that value (at a
    decimal tie either neighbour, as the last bit of the double decides); the
    dashboard is sent the pause exactly when the session is linked and the
    stored time is positive. *)
Theorem pause_stores_valid_override
    (now : Z) (code : string) (remainingTime : option jsnum) (w : World) (s : State) :
  reg_get code (tournamentState w) = Some s ->
  countdown_started s ->
  exists stored,
    rounded_to_tenth (pause_time_valid remainingTime now s) stored
    /\ pause_behaviour stored now code remainingTime w s.
Proof.
  intros Hget Hstarted. exists (pause_stores_valid remainingTime now s).
  split.
  { destruct (pause_time_nonneg now remainingTime s Hstarted) as (x & Hx & Hx0).
    rewrite Hx. apply stored_rounded; assumption. }
  unfold pause_behaviour.
  destruct (triggerTournamentPause now code remainingTime w) as [w' evs] eqn:E.
  split.
  - intros Hg. unfold triggerTournamentPause in E.
    rewrite on_session_unchanged in E.
    + injection E as <- <-. auto.
    + intros s0 H0. rewrite Hget in H0. injection H0 as <-.
      apply pause_on_guarded. exact Hg.
  - intros Hd [Hp Hs]. unfold triggerTournamentPause, on_session in E.
    rewrite Hget, (pause_on_active _ _ _ _ _ Hd Hp Hs) in E. cbv zeta in E.
    injection E as <- <-. cbn [tournamentState loop].
    eexists. split; [eapply reg_get_set_eq; eauto|].
    pose proof (clearTimers_cancels s (loop w)) as Hc.
    rewrite clearTimers_fst in *.
    split; [exact Hc|]. split; [reflexivity|]. split; [reflexivity|].
    split; [reflexivity|].
    destruct (stored_is_num now remainingTime s Hstarted) as [x Hx].
    rewrite Hx. unfold mirrors_pause, pause_mirror. cbn [linkedQuizId le gt ofZ
      set_stopped set_paused set_pausedAt set_pausedRemainingTime set__timerRef
      set_intervalTimer set_timer currentQuestionUid].
    unfold truthy_str.
    destruct (Qle_bool x (inject_Z 0)) eqn:Le; simpl negb.
    + split.
      * intros (quiz & u & t & ts & [H|[]]). discriminate.
      * intros [_ H]. discriminate.
    + destruct (linkedQuizId s) as [quiz|].
      * destruct (String.eqb quiz "") eqn:Eq; simpl negb.
        -- split.
           ++ intros (quiz' & u & t & ts & [H|[]]). discriminate.
           ++ intros [H _]. discriminate.
        -- split; [auto|]. intros _. exists quiz. do 3 eexists.
           right. right. left. reflexivity.
      * split.
        -- intros (quiz' & u & t & ts & [H|[]]). discriminate.
        -- intros [H _]. discriminate.
Qed.

(** ** The timer-state invariant *)

Ltac flat :=
  cbn [questions currentQuestionUid currentQuestionDuration questionStart paused
       stopped pausedRemainingTime pausedAt isDiffered linkedQuizId socketToJoueur
       participants answers askedQuestions timer intervalTimer _timerRef
       previousQuestionUid timerStatus statut isTournamentMode
       set_currentQuestionUid set_currentQuestionDuration set_questionStart
       set_paused set_stopped set_pausedRemainingTime set_pausedAt set_linkedQuizId
       set_participants set_answers set_askedQuestions set_timer set_intervalTimer
       set__timerRef set_previousQuestionUid set_isTournamentMode fst snd] in *.

Lemma exactly_one_state_flags s :
  exactly_one_state s <-> (paused s = true -> stopped s = false).
Proof.
  unfold exactly_one_state. split.
  - intros (t & Ht & Hu) Hp.
    destruct (stopped s) eqn:Hs; [|reflexivity].
    pose proof (Hu Paused Hp) as H1. pose proof (Hu Stopped Hs) as H2. congruence.
  - intros H. destruct (paused s) eqn:Hp.
    + exists Paused. split; [exact Hp|].
      intros [] H'; simpl in H'; try reflexivity.
      * destruct H'; congruence.
      * rewrite (H eq_refl) in H'. discriminate.
    + destruct (stopped s) eqn:Hs.
      * exists Stopped. split; [exact Hs|].
        intros [] H'; simpl in H'; try reflexivity; try congruence.
        destruct H'; congruence.
      * exists Active. split; [split; assumption|].
        intros [] H'; simpl in H'; try reflexivity; congruence.
Qed.

Lemma timer_invariant_flags s :
  timer_invariant s
  <-> (paused s = true -> stopped s = false)
      /\ (paused s = true -> pausedRemainingTime s <> None)
      /\ (stopped s = true -> pausedRemainingTime s = None).
Proof. unfold timer_invariant. rewrite exactly_one_state_flags. reflexivity. Qed.

Lemma timer_invariant_same s s' :
  paused s' = paused s -> stopped s' = stopped s ->
  pausedRemainingTime s' = pausedRemainingTime s ->
  timer_invariant s -> timer_invariant s'.
Proof. rewrite !timer_invariant_flags. intros -> -> ->. auto. Qed.

Lemma setQuestion_on_flags code index quiz initialTime target s :
  let s' := fst (setQuestion_on code index quiz initialTime target s) in
  paused s' = paused s /\ stopped s' = stopped s
  /\ pausedRemainingTime s' = pausedRemainingTime s.
Proof.
  unfold setQuestion_on.
  destruct (questions s) as [qs|]; [|auto].
  destruct (if truthy_str target then _ else _) as [[ti tq]|]; [|auto].
  destruct tq as [q|]; [flat; auto|].
  destruct (question_at ti qs); flat; auto.
Qed.

Lemma pause_on_invariant now code rt s l :
  timer_invariant s -> timer_invariant (fst (fst (pause_on now code rt s l))).
Proof.
  intros H. unfold pause_on.
  destruct (isDiffered s || paused s || stopped s); [exact H|].
  norm_clearTimers s1 l1. apply timer_invariant_flags. flat.
  repeat split; congruence.
Qed.

Lemma start_countdown_flags now code fa qs timeLeft s l :
  let s' := fst (fst (start_countdown now code fa qs timeLeft s l)) in
  s' = s
  \/ (paused s' = false /\ stopped s' = false
      /\ pausedRemainingTime s' = pausedRemainingTime s).
Proof.
  unfold start_countdown. destruct (le timeLeft (ofZ 0)); [left; reflexivity|].
  right. flat. auto.
Qed.

Ltac countdown_cases :=
  match goal with
  | |- context [start_countdown ?a ?b ?c ?d ?e ?f ?g] =>
      let E := fresh "E" in
      let A := fresh "A" in
      let B := fresh "B" in
      let C := fresh "C" in
      destruct (start_countdown_flags a b c d e f g) as [E|(A & B & C)];
      apply timer_invariant_flags;
      [ rewrite E | rewrite A, B, C ]
  end.

Lemma timerSet_on_invariant now code timeLeft fa s l :
  timer_invariant s -> timer_invariant (fst (fst (timerSet_on now code timeLeft fa s l))).
Proof.
  intros H. unfold timerSet_on.
  destruct (isDiffered s); [exact H|].
  destruct (arg_is_zero timeLeft && stopped s); [exact H|].
  norm_clearTimers s1 l1.
  apply timer_invariant_flags in H. destruct H as (H1 & H2 & H3).
  destruct (arg_is_zero timeLeft).
  { apply timer_invariant_flags. flat. repeat split; congruence. }
  unfold pausedRemaining_positive. flat.
  destruct (negb (truthy_str (currentQuestionUid s)));
    [apply timer_invariant_flags; flat; auto|].
  destruct (questions s) as [qs|]; [|apply timer_invariant_flags; flat; auto].
  destruct (find_question (currentQuestionUid s) qs) as [q|];
    [|apply timer_invariant_flags; flat; auto].
  destruct fa, (paused s) eqn:Hp, (stopped s) eqn:Hs,
    (pausedRemainingTime s) as [r|] eqn:Hr;
    try (destruct (gt r (ofZ 0)));
    simpl negb; simpl andb; cbv iota beta; flat;
    rewrite ?Hp, ?Hs; cbv iota; flat;
    first [ countdown_cases | apply timer_invariant_flags ]; flat;
    rewrite ?Hp, ?Hs, ?Hr;
    try solve [intuition congruence].
Qed.

Lemma answer_on_flags calculateScore now j quid a s :
  let s' := fst (fst (answer_on calculateScore now j quid a s)) in
  paused s' = paused s /\ stopped s' = stopped s
  /\ pausedRemainingTime s' = pausedRemainingTime s.
Proof.
  unfold answer_on.
  destruct (questions s) as [qs|]; [|auto].
  destruct (find_question (currentQuestionUid s) qs) as [q|]; [|auto].
  destruct (negb (String.eqb (uid q) quid)); [auto|].
  destruct (questionStart s) as [t|]; [|auto].
  destruct (Z.eqb t 0); [auto|].
  destruct (stopped s) eqn:Hs; [auto|].
  destruct (negb (paused s) && _); [flat; auto|].
  unfold record_answer. flat.
  destruct (participants s !! j); flat; auto.
Qed.

Lemma on_session_all (P : State -> Prop) code f w :
  (forall s l, P s -> P (fst (fst (f s l)))) ->
  all_sessions P w -> all_sessions P (fst (on_session code f w)).
Proof.
  intros Hf Hw. unfold on_session.
  destruct (reg_get code (tournamentState w)) as [s|] eqn:E; [|exact Hw].
  pose proof (Hf s (loop w) (reg_get_Forall _ _ _ _ Hw E)) as Hs.
  destruct (f s (loop w)) as [[s' l'] evs]. simpl in *.
  apply reg_set_Forall; assumption.
Qed.

Lemma step_invariant calculateScore w ta :
  all_sessions timer_invariant w ->
  all_sessions timer_invariant (fst (step calculateScore w ta)).
Proof.
  intros Hw. destruct ta as [now [sock code quid a|code i quiz it tg|code tl fa|code rt]];
    simpl.
  - unfold handleTournamentAnswer.
    destruct (resolve code sock (tournamentState w)) as [[[key s] j]|] eqn:R;
      [|exact Hw].
    pose proof (answer_on_flags calculateScore now j quid a s) as (A & B & C).
    destruct (answer_on calculateScore now j quid a s) as [[s' evs] out]. simpl in *.
    apply reg_set_Forall; [exact Hw|].
    apply (timer_invariant_same s s' A B C).
    exact (reg_get_Forall _ _ _ _ Hw (resolve_get _ _ _ _ _ _ R)).
  - apply on_session_all; [|exact Hw]. intros s l Hs.
    pose proof (setQuestion_on_flags code i quiz it tg s) as (A & B & C).
    destruct (setQuestion_on code i quiz it tg s) as [s' evs]. simpl in *.
    exact (timer_invariant_same s s' A B C Hs).
  - apply on_session_all; [|exact Hw]. intros s l. apply timerSet_on_invariant.
  - apply on_session_all; [|exact Hw]. intros s l. apply pause_on_invariant.
Qed.

(** C4, as amended.  In every world reached by any sequence of controller
    operations (set question, set timer with any arguments, pause) and answer
    submissions, from sessions that satisfy it, each session is in exactly
    one of the states active, paused, stopped (never paused and stopped at
    once); [pausedRemainingTime] is set whenever the session is paused and
    unset whenever it is stopped.  An active session may still hold the
    remaining time of its last pause. *)
Theorem timer_invariant_reachable
    (calculateScore : Question -> Answer -> Z -> nat -> jsnum)
    (w : World) (tr : list (Z * Action)) :
  all_sessions timer_invariant w ->
  all_sessions timer_invariant (run calculateScore w tr).
Proof.
  revert w. induction tr as [|ta tr IH]; intros w Hw; simpl; [exact Hw|].
  apply IH. apply step_invariant. exact Hw.
Qed.

(** ** Scoring *)

















(** ** Finalization when the store fails *)

Lemma reg_get_delete code r : reg_get code (reg_delete code r) = None.
Proof.
  unfold reg_delete. induction r as [|[k x] r IH]; simpl; [reflexivity|].
  destruct (String.eqb k code) eqn:E; simpl; [exact IH|]. rewrite E. exact IH.
Qed.

Lemma sync_askedQuestions_questions quizAskedQuestions s :
  questions (sync_askedQuestions quizAskedQuestions s) = questions s.
Proof.
  unfold sync_askedQuestions. destruct (linkedQuizId s) as [quiz|]; [|reflexivity].
  destruct (String.eqb quiz ""); [reflexivity|].
  destruct (quizAskedQuestions quiz); reflexivity.
Qed.

Lemma forceEnd_questions computeLeaderboard quizAskedQuestions db code w s :
  reg_get code (tournamentState w) = Some s ->
  exists s1 l1,
    questions s1 = questions s
    /\ forceTournamentEnd computeLeaderboard quizAskedQuestions db code w
       = match questions s1 with
         | None =>
             (mkWorld (reg_set code s1 (tournamentState w)) l1,
              [Uncaught "TypeError: state.questions is undefined"])
         | Some qs =>
             let scaled := computeLeaderboard s1 (default ∅ (askedQuestions s1)) (length qs) in
             let s2 := set_participants (apply_scaled scaled (participants s1)) s1 in
             let r := reg_set code s2 (tournamentState w) in
             if update_rejects db then
               (mkWorld r l1, [Uncaught "prisma.tournoi.update rejected"])
             else
               (mkWorld (reg_delete code r) l1,
                [DbUpdateTournoi code scaled; Emit (live code) (tournament_end scaled)]
                ++ match findUnique db with
                   | None => [LogError "ForceEnd: error saving scores/updating tournament"]
                   | Some None => []
                   | Some (Some tournoiId) =>
                       let '(evs, rejected) :=
                         save_scores db tournoiId (snd <$> map_to_list (participants s2)) in
                       evs ++ (if rejected
                               then [LogError "ForceEnd: error saving scores/updating tournament"]
                               else [])
                   end
                ++ [Emit (live code) (tournament_finished_redirect code)])
         end.
Proof.
  intros Hget. unfold forceTournamentEnd. rewrite Hget.
  destruct (timer s) as [h|].
  - eexists _, _. split; [|reflexivity].
    rewrite sync_askedQuestions_questions. reflexivity.
  - eexists _, _. split; [|reflexivity].
    rewrite sync_askedQuestions_questions. reflexivity.
Qed.

(** When the write of the scaled leaderboard rejects, [forceTournamentEnd]
    ends there: nothing is sent to the live channel, nothing is logged by
    the function, and the session stays registered. *)
Lemma leaderboard_write_failure_aborts
    (computeLeaderboard : State -> gset string -> nat -> list LeaderboardEntry)
    (quizAskedQuestions : string -> option (gset string))
    (db : Db) (code : string) (w : World) (s : State) (qs : list Question) :
  reg_get code (tournamentState w) = Some s ->
  questions s = Some qs ->
  update_rejects db = true ->
  let '(w', evs) :=
    forceTournamentEnd computeLeaderboard quizAskedQuestions db code w in
  evs = [Uncaught "prisma.tournoi.update rejected"]
  /\ reg_get code (tournamentState w') <> None.
Proof.
  intros Hget Hq Hu.
  destruct (forceEnd_questions computeLeaderboard quizAskedQuestions db code w s Hget)
    as (s1 & l1 & Hq1 & ->).
  rewrite Hq1, Hq, Hu. cbv zeta. split; [reflexivity|]. cbn [tournamentState].
  erewrite reg_get_set_eq by eauto. discriminate.
Qed.

(** When that write succeeds, the leaderboard is broadcast, a failure of the
    later score writes is caught and logged, the redirect is sent and the
    session is removed. *)
Lemma score_write_failure_is_absorbed
    (computeLeaderboard : State -> gset string -> nat -> list LeaderboardEntry)
    (quizAskedQuestions : string -> option (gset string))
    (db : Db) (code : string) (w : World) (s : State) (qs : list Question) :
  reg_get code (tournamentState w) = Some s ->
  questions s = Some qs ->
  update_rejects db = false ->
  let '(w', evs) :=
    forceTournamentEnd computeLeaderboard quizAskedQuestions db code w in
  (exists scaled mid,
     evs = [DbUpdateTournoi code scaled; Emit (live code) (tournament_end scaled)]
           ++ mid ++ [Emit (live code) (tournament_finished_redirect code)]
     /\ (findUnique db = None ->
         mid = [LogError "ForceEnd: error saving scores/updating tournament"]))
  /\ reg_get code (tournamentState w') = None.
Proof.
  intros Hget Hq Hu.
  destruct (forceEnd_questions computeLeaderboard quizAskedQuestions db code w s Hget)
    as (s1 & l1 & Hq1 & ->).
  rewrite Hq1, Hq, Hu. cbv zeta. split.
  - eexists _, _. split; [reflexivity|]. intros ->. reflexivity.
  - cbn [tournamentState]. apply reg_get_delete.
Qed.

(** ** Expiry of a countdown *)

(** Every tick sent by the interval carries [max(0, remainingTime)] of the
    decremented closure variable: a number that is not negative. *)
Lemma tick_is_floored handleTimerExpiration code h w room t st :
  In (Emit room (tournament_set_timer t st))
     (snd (intervalCallback handleTimerExpiration code h w)) ->
  exists r,
    interval_var h (loop w) = Some r
    /\ t = max0 (sub r (ofZ 1))
    /\ (t = NaN \/ exists x, t = Num x /\ (0 <= x)%Q).
Proof.
  assert (forall a, max0 a = NaN \/ exists x, max0 a = Num x /\ (0 <= x)%Q) as Hfloor.
  { intros [|x]; [left; reflexivity|right]. simpl.
    destruct (Qle_bool 0 x) eqn:E.
    - exists x. split; [reflexivity|]. apply Qle_bool_iff. exact E.
    - exists 0%Q. split; [reflexivity|]. apply Qle_refl. }
  unfold intervalCallback.
  destruct (reg_get code (tournamentState w)) as [s|]; [|intros []].
  destruct (interval_var h (loop w)) as [r|]; [|intros []].
  destruct (paused s || stopped s).
  - unfold drop_interval. simpl. intros [].
  - destruct (le (sub r (ofZ 1)) (ofZ 0)).
    + unfold drop_interval. simpl. intros [H|[H|[]]]; [|discriminate].
      injection H as _ <- _. eauto.
    + simpl. intros [H|[]]. injection H as _ <- _. eauto.
Qed.

(** The zero-crossing of the interval clears the interval only: expiration
    handling is entered with every pending timeout still armed and with the
    session neither paused nor stopped. *)
Lemma interval_expiry_keeps_deadline handleTimerExpiration code h w s r :
  reg_get code (tournamentState w) = Some s ->
  paused s = false -> stopped s = false ->
  interval_var h (loop w) = Some r ->
  le (sub r (ofZ 1)) (ofZ 0) = true ->
  exists w1 s1,
    intervalCallback handleTimerExpiration code h w
    = (handleTimerExpiration code w1,
       [Emit (live code) (tournament_set_timer (max0 (sub r (ofZ 1))) "active");
        HandleTimerExpiration code])
    /\ timeouts (loop w1) = timeouts (loop w)
    /\ reg_get code (tournamentState w1) = Some s1
    /\ timer s1 = timer s /\ paused s1 = false /\ stopped s1 = false.
Proof.
  intros Hget Hp Hs Hi Hle. unfold intervalCallback.
  rewrite Hget, Hi, Hp, Hs, Hle. simpl orb. cbv iota.
  unfold drop_interval. cbv zeta beta iota.
  eexists _, _. split; [reflexivity|]. cbn [loop tournamentState].
  split; [destruct (intervalTimer s); reflexivity|].
  split; [eapply reg_get_set_eq; eauto|]. flat. auto.
Qed.

(** The deadline callback is held back only by the two flags: on a session
    that is neither paused nor stopped, a pending deadline calls expiration
    handling, whether or not the interval has already done so. *)
Lemma pending_deadline_expires handleTimerExpiration code h w s :
  reg_get code (tournamentState w) = Some s ->
  paused s = false -> stopped s = false ->
  pending_timeout h (loop w) = true ->
  snd (timeoutCallback handleTimerExpiration code h w) = [HandleTimerExpiration code].
Proof.
  intros Hget Hp Hs Hpend. unfold timeoutCallback.
  rewrite Hpend, Hget, Hp, Hs. simpl orb. cbv iota.
  destruct (intervalTimer s); reflexivity.
Qed.

(** ** The properties on the sample sessions *)

Import Sample.
Import Scenario.

Lemma session_started : reg_get "T1" (tournamentState w_started) = Some (session w_started).
Proof. vm_compute. reflexivity. Qed.

Lemma session_paused : reg_get "T1" (tournamentState w_paused) = Some (session w_paused).
Proof. vm_compute. reflexivity. Qed.



(** An answer 20.6 s into a 20 s question is rejected as late. *)
Example answer_late_by_600ms :
  snd (handleTournamentAnswer scorer 22600 "sock_a" "T1" "q1" (pick 1 21800) w_started)
  = Rejected "late".
Proof. vm_compute. reflexivity. Qed.

(** While paused, an answer long after the nominal duration is accepted. *)
Example answer_while_paused :
  snd (handleTournamentAnswer scorer 99000 "sock_a" "T1" "q1" (pick 1 98000) w_paused)
  = Accepted.
Proof. vm_compute. reflexivity. Qed.


Example two_answers_total :
  score <$> part_of (run scorer w0 two_answers) "T1" "alice" = Some (Num (100 # 1)).
Proof. vm_compute. reflexivity. Qed.



Lemma fresh_invariant : all_sessions timer_invariant w0.
Proof.
  repeat constructor; simpl; try discriminate.
  exists Active. split; [split; reflexivity|].
  intros [] H; simpl in H; try reflexivity; discriminate.
Qed.

Lemma timer_invariant_reachable_witness :
  all_sessions timer_invariant (run scorer w0 start_pause_resume).
Proof.
  apply (timer_invariant_reachable scorer w0 start_pause_resume).
  exact fresh_invariant.
Defined.

(** C4, counterexample.  Question set, countdown started, paused, resumed:
    four controller operations from a fresh session, after which the session
    is active and still holds the remaining time of the pause. *)
Lemma resumed_keeps_pausedRemainingTime :
  all_sessions timer_invariant_iff w0
  /\ forallb (fun ta => is_controller (snd ta)) start_pause_resume = true
  /\ ~ all_sessions timer_invariant_iff (run scorer w0 start_pause_resume).
Proof.
  split; [|split; [reflexivity|]].
  - repeat constructor; simpl; try discriminate.
    + exists Active. split; [split; reflexivity|].
      intros [] H; simpl in H; try reflexivity; discriminate.
    + intros H. contradiction.
  - intros H.
    assert (reg_get "T1" (tournamentState (run scorer w0 start_pause_resume))
            = Some (session (run scorer w0 start_pause_resume))) as G
      by (vm_compute; reflexivity).
    pose proof (reg_get_Forall _ _ _ _ H G) as [_ [Hdef _]].
    assert (paused (session (run scorer w0 start_pause_resume)) = true) as Hp.
    { apply Hdef. vm_compute. discriminate. }
    vm_compute in Hp. discriminate.
Qed.

Lemma stop_twice_is_noop_witness :
  triggerTournamentTimerSet 5000 "T1" (Some (ofZ 0)) false w_stopped = (w_stopped, []).
Proof.
  assert (reg_get "T1" (tournamentState w_stopped) = Some (session w_stopped)) as G
    by (vm_compute; reflexivity).
  assert (stopped (session w_stopped) = true) as S by (vm_compute; reflexivity).
  destruct (proj1 (stop_twice_is_noop 5000 5000 "T1" false false w_stopped)
              (session w_stopped) G S) as [H _].
  exact H.
Defined.

Lemma pause_stores_valid_override_witness :
  exists stored,
    rounded_to_tenth (pause_time_valid (Some (ofZ 10)) 5000 (session w_started)) stored
    /\ pause_behaviour stored 5000 "T1" (Some (ofZ 10)) w_started (session w_started).
Proof.
  apply (pause_stores_valid_override 5000 "T1" (Some (ofZ 10)) w_started
           (session w_started)).
  - exact session_started.
  - split; eexists; vm_compute; reflexivity.
Defined.

(** C8, counterexample.  A pause 3.3 s into the 20 s countdown with the
    override 0 supplied stores 16.7, not the override. *)
Lemma pause_with_zero_override :
  ~ pause_behaviour (pause_stores (Some (ofZ 0)) 5300 (session w_started))
      5300 "T1" (Some (ofZ 0)) w_started (session w_started).
Proof.
  unfold pause_behaviour.
  destruct (triggerTournamentPause 5300 "T1" (Some (ofZ 0)) w_started) as [w' evs] eqn:E.
  intros [_ H].
  assert (isDiffered (session w_started) = false) as Hd by (vm_compute; reflexivity).
  assert (in_state (session w_started) Active) as Ha
    by (split; vm_compute; reflexivity).
  destruct (H Hd Ha) as (s' & Hg & _ & _ & _ & Hprt & _).
  assert (w' = fst (triggerTournamentPause 5300 "T1" (Some (ofZ 0)) w_started)) as ->
    by (rewrite E; reflexivity).
  vm_compute in Hg. injection Hg as <-. vm_compute in Hprt. discriminate.
Qed.

Example pause_with_zero_override_stores :
  pausedRemainingTime
    (session (fst (triggerTournamentPause 5300 "T1" (Some (ofZ 0)) w_started)))
  = Some (Num (167 # 10)).
Proof. vm_compute. reflexivity. Qed.

Lemma setQuestion_overwrites_linkedQuizId_witness :
  linkedQuizId (session w_linked) = Some "quiz-7"
  /\ exists s',
       reg_get "T1"
         (tournamentState
            (fst (triggerTournamentQuestion "T1" (At 1) None None None w_linked)))
       = Some s'
       /\ linkedQuizId s' = None
       /\ (@None string = None -> truthy_str (linkedQuizId s') = false).
Proof.
  split; [vm_compute; reflexivity|].
  apply (setQuestion_overwrites_linkedQuizId "T1" (At 1) None None None w_linked
           (session w_linked)).
  - vm_compute. reflexivity.
  - vm_compute. reflexivity.
Defined.

(** C5.  With a store whose leaderboard write rejects, [forceTournamentEnd]
    on the started session ends by the rejection: no [tournament_end] is sent
    to the live channel, no error is logged, no redirect is sent, and the
    session stays in the registry. *)
Theorem forceEnd_store_down_no_broadcast :
  let '(w', evs) := forceTournamentEnd no_scaling no_quiz db_down "T1" w_started in
  evs = [Uncaught "prisma.tournoi.update rejected"]
  /\ reg_get "T1" (tournamentState w') <> None.
Proof.
  apply (leaderboard_write_failure_aborts no_scaling no_quiz db_down "T1" w_started
           (session w_started) [q1; q2]).
  - exact session_started.
  - vm_compute. reflexivity.
  - vm_compute. reflexivity.
Qed.

(** C7.  A countdown of one second: the interval (handle 0) and the deadline
    timeout (handle 1) are both due after 1000 ms, the interval first.  Its
    tick sends 0, clears the interval and calls expiration handling; the
    timeout is still pending, and with the session left neither paused nor
    stopped its callback calls expiration handling a second time. *)
Theorem one_second_countdown_expires_twice :
  let '(w1, evs1) := intervalCallback no_effect "T1" 0 w_one_second in
  let '(w2, evs2) := timeoutCallback no_effect "T1" 1 w1 in
  intervals (loop w_one_second) = [(0%nat, ofZ 1)]
  /\ timeouts (loop w_one_second) = [(1%nat, Num (1 * 1000))]
  /\ evs1 = [Emit "live_T1" (tournament_set_timer (Num 0) "active");
             HandleTimerExpiration "T1"]
  /\ pending_timeout 1 (loop w1) = true
  /\ evs2 = [HandleTimerExpiration "T1"].
Proof. vm_compute. repeat split; reflexivity. Qed.

(** ** Resolution of the connection *)

Lemma joueur_of_Some sock s j :
  joueur_of sock s = Some j -> socketToJoueur s !! sock = Some j /\ j <> "".
Proof.
  unfold joueur_of. destruct (socketToJoueur s !! sock) as [x|]; [|discriminate].
  destruct (String.eqb_spec x ""); [discriminate|]. intros [= <-]. auto.
Qed.

Lemma resolve_differed_sound code sock keys r key s j :
  resolve_differed code sock keys r = Some (key, s, j) ->
  String.prefix (String.append code "_") key = true
  /\ reg_get key r = Some s /\ joueur_of sock s = Some j.
Proof.
  induction keys as [|k keys IH]; simpl; [discriminate|].
  destruct (String.prefix _ k) eqn:P; [|exact IH].
  destruct (reg_get k r) as [s0|] eqn:E; [|exact IH].
  destruct (joueur_of sock s0) eqn:J; [|exact IH].
  intros [= <- <- <-]. auto.
Qed.

Lemma resolve_differed_none code sock keys r :
  resolve_differed code sock keys r = None <->
  forall key s, In key keys ->
    String.prefix (String.append code "_") key = true ->
    reg_get key r = Some s -> joueur_of sock s = None.
Proof.
  induction keys as [|k keys IH]; simpl.
  - split; [intros _ key s []|reflexivity].
  - destruct (String.prefix _ k) eqn:P.
    + destruct (reg_get k r) as [s0|] eqn:E.
      * destruct (joueur_of sock s0) eqn:J.
        -- split; [discriminate|]. intros H.
           specialize (H k s0 (or_introl eq_refl) P E). congruence.
        -- rewrite IH. split.
           ++ intros H key s [<-|Hin] Hp Hg; [congruence|eauto].
           ++ intros H key s Hin. apply H. right. exact Hin.
      * rewrite IH. split.
        -- intros H key s [<-|Hin] Hp Hg; [congruence|eauto].
        -- intros H key s Hin. apply H. right. exact Hin.
    + rewrite IH. split.
      * intros H key s [<-|Hin] Hp Hg; [congruence|eauto].
      * intros H key s Hin. apply H. right. exact Hin.
Qed.

Lemma reg_get_key_In code r s : reg_get code r = Some s -> In code (map fst r).
Proof.
  induction r as [|[k x] r IH]; simpl; [discriminate|].
  destruct (String.eqb_spec k code); [left; assumption|]. intros H. right. auto.
Qed.

(** X1.  What the answer handler resolves a connection to: a session
    registered under the event's code or under a replay key [code_...], and
    the non-empty player id that this session's [socketToJoueur] gives for
    the socket.  The live session wins whenever it knows the socket. *)
Theorem resolve_sound (code socket_id : string) (r : Registry)
    (key : string) (s : State) (j : string) :
  resolve code socket_id r = Some (key, s, j) ->
  candidate_key code key
  /\ reg_get key r = Some s
  /\ socketToJoueur s !! socket_id = Some j /\ j <> ""
  /\ (forall s0 j0, reg_get code r = Some s0 -> joueur_of socket_id s0 = Some j0 ->
        key = code /\ s = s0 /\ j = j0).
Proof.
  unfold resolve, candidate_key. intros H.
  destruct (reg_get code r) as [s0|] eqn:E.
  - destruct (joueur_of socket_id s0) as [j0|] eqn:J.
    + injection H as <- <- <-. destruct (joueur_of_Some _ _ _ J) as [A B].
      split; [left; reflexivity|]. split; [exact E|]. split; [exact A|].
      split; [exact B|]. intros s1 j1 [= <-] J1. rewrite J in J1.
      injection J1 as <-. auto.
    + destruct (resolve_differed_sound _ _ _ _ _ _ _ H) as (P & G & J').
      destruct (joueur_of_Some _ _ _ J') as [A B].
      split; [right; exact P|]. split; [exact G|]. split; [exact A|].
      split; [exact B|]. intros s1 j1 [= <-]. congruence.
  - destruct (resolve_differed_sound _ _ _ _ _ _ _ H) as (P & G & J').
    destruct (joueur_of_Some _ _ _ J') as [A B].
    split; [right; exact P|]. split; [exact G|]. split; [exact A|].
    split; [exact B|]. intros s1 j1. discriminate.
Qed.

(** X2.  A connection is left unresolved (and its answer dropped without a
    reply) exactly when no session registered under the code or under one of
    its replay keys maps the socket to a player. *)
Theorem resolve_none_iff (code socket_id : string) (r : Registry) :
  resolve code socket_id r = None <->
  forall key s, candidate_key code key -> reg_get key r = Some s ->
    joueur_of socket_id s = None.
Proof.
  unfold resolve, candidate_key. split.
  - intros H key s Hk Hg.
    assert (resolve_differed code socket_id (map fst r) r = None
            /\ (forall s0, reg_get code r = Some s0 -> joueur_of socket_id s0 = None))
      as [Hd Hl].
    { destruct (reg_get code r) as [s0|].
      - destruct (joueur_of socket_id s0) eqn:J; [discriminate|].
        split; [exact H|]. intros s1 [= <-]. exact J.
      - split; [exact H|]. discriminate. }
    destruct Hk as [->|Hp]; [auto|].
    apply (proj1 (resolve_differed_none _ _ _ _) Hd key s); auto.
    eapply reg_get_key_In; eauto.
  - intros H.
    assert (resolve_differed code socket_id (map fst r) r = None) as Hd.
    { apply resolve_differed_none. intros key s _ Hp Hg. apply (H key s); auto. }
    destruct (reg_get code r) as [s0|] eqn:E; [|exact Hd].
    rewrite (H code s0 (or_introl eq_refl) E). exact Hd.
Qed.

(** ** What an answer changes *)

Lemma answer_on_frame cs now j quid a s :
  same_but_answers_participants s (fst (fst (answer_on cs now j quid a s))).
Proof.
  unfold same_but_answers_participants, answer_on.
  destruct (questions s) as [qs|]; [|destruct s; reflexivity].
  destruct (find_question (currentQuestionUid s) qs) as [q|]; [|destruct s; reflexivity].
  destruct (negb (String.eqb (uid q) quid)); [destruct s; reflexivity|].
  destruct (questionStart s) as [t|]; [|destruct s; reflexivity].
  destruct (Z.eqb t 0); [destruct s; reflexivity|].
  destruct (stopped s); [destruct s; reflexivity|].
  destruct (negb (paused s) && _); [destruct s; reflexivity|].
  unfold record_answer. flat.
  destruct (participants s !! j); destruct s; reflexivity.
Qed.

Lemma reg_get_set code code' v r s :
  reg_get code r = Some s ->
  reg_get code' (reg_set code v r)
  = if String.eqb code code' then Some v else reg_get code' r.
Proof.
  intros H. destruct (String.eqb_spec code code') as [<-|Hne].
  - eapply reg_get_set_eq; eauto.
  - apply reg_get_set_ne. exact Hne.
Qed.

(** X3.  The answer handler never touches the timer: whatever the
    submission, the event loop and the registry's keys are as before, and
    every session keeps all its fields except [answers] and [participants]
    (so the timer flags, the start time, the duration, the current question
    and the timer handles are never changed by an answer). *)
Theorem answer_changes_only_answers_and_scores
    (calculateScore : Question -> Answer -> Z -> nat -> jsnum)
    (now : Z) (socket_id code questionUid : string) (a : Answer) (w : World) :
  let w' := fst (fst (handleTournamentAnswer calculateScore now socket_id code
                        questionUid a w)) in
  loop w' = loop w
  /\ map fst (tournamentState w') = map fst (tournamentState w)
  /\ forall key s, reg_get key (tournamentState w) = Some s ->
       exists s', reg_get key (tournamentState w') = Some s'
                  /\ same_but_answers_participants s s'.
Proof.
  unfold handleTournamentAnswer.
  destruct (resolve code socket_id (tournamentState w)) as [[[k s0] j]|] eqn:R.
  - pose proof (answer_on_frame calculateScore now j questionUid a s0) as F.
    destruct (answer_on calculateScore now j questionUid a s0) as [[s0' evs] out].
    cbn [fst snd tournamentState loop] in *.
    split; [reflexivity|]. split.
    + clear. induction (tournamentState w) as [|[k' x] r IH]; simpl; [reflexivity|].
      destruct (String.eqb k' k); simpl; congruence.
    + intros key s Hg. pose proof (resolve_get _ _ _ _ _ _ R) as G.
      rewrite (reg_get_set _ _ _ _ _ G).
      destruct (String.eqb_spec k key) as [<-|Hne].
      * exists s0'. split; [reflexivity|]. congruence.
      * exists s. split; [exact Hg|]. destruct s; reflexivity.
  - cbn [fst]. split; [reflexivity|]. split; [reflexivity|].
    intros key s Hg. exists s. split; [exact Hg|]. destruct s; reflexivity.
Qed.

Lemma answer_of_set_answers v s j q :
  answer_of (set_answers (Some v) s) j q = (v !! j) ≫= (fun m => m !! q).
Proof. reflexivity. Qed.

Lemma answer_on_stored cs now j quid a s :
  let '(s', _, out) := answer_on cs now j quid a s in
  out = Accepted ->
  answer_of s' j quid = Some a
  /\ (forall j' q', (j', q') <> (j, quid) -> answer_of s' j' q' = answer_of s j' q')
  /\ (forall j', j' <> j -> participants s' !! j' = participants s !! j').
Proof.
  unfold answer_on.
  destruct (questions s) as [qs|]; [|discriminate].
  destruct (find_question (currentQuestionUid s) qs) as [q|]; [|discriminate].
  destruct (negb (String.eqb (uid q) quid)); [discriminate|].
  destruct (questionStart s) as [t|]; [|discriminate].
  destruct (Z.eqb t 0); [discriminate|].
  destruct (stopped s); [discriminate|].
  destruct (negb (paused s) && _); [discriminate|].
  unfold record_answer. flat.
  destruct (participants s !! j) as [p|]; [|discriminate]. intros _.
  unfold answer_of. flat. simpl default.
  split; [|split].
  - rewrite lookup_insert_eq. simpl. apply lookup_insert_eq.
  - intros j' q' Hne. destruct (decide (j' = j)) as [->|Hj].
    + rewrite lookup_insert_eq. simpl.
      rewrite lookup_insert_ne by congruence.
      destruct (default ∅ (answers s) !! j); simpl; [reflexivity|apply lookup_empty].
    + rewrite lookup_insert_ne by congruence. reflexivity.
  - intros j' Hj. rewrite lookup_insert_ne by congruence. reflexivity.
Qed.

(** X4.  An accepted answer is stored under (player, question), replacing
    whatever the player had answered to that question before; no other
    stored answer changes, and no other player's participant record
    changes. *)
Theorem accepted_answer_is_stored
    (calculateScore : Question -> Answer -> Z -> nat -> jsnum)
    (now : Z) (socket_id code questionUid : string) (a : Answer) (w : World)
    (key joueurId : string) (s : State) :
  resolve code socket_id (tournamentState w) = Some (key, s, joueurId) ->
  snd (handleTournamentAnswer calculateScore now socket_id code questionUid a w)
  = Accepted ->
  exists s',
    reg_get key
      (tournamentState
         (fst (fst (handleTournamentAnswer calculateScore now socket_id code
                      questionUid a w)))) = Some s'
    /\ answer_of s' joueurId questionUid = Some a
    /\ (forall j' q', (j', q') <> (joueurId, questionUid) ->
          answer_of s' j' q' = answer_of s j' q')
    /\ (forall j', j' <> joueurId -> participants s' !! j' = participants s !! j').
Proof.
  intros R. unfold handleTournamentAnswer. rewrite R.
  pose proof (answer_on_stored calculateScore now joueurId questionUid a s) as H.
  destruct (answer_on calculateScore now joueurId questionUid a s) as [[s' evs] out].
  cbn [fst snd tournamentState]. intros ->.
  exists s'. split; [|apply H; reflexivity].
  eapply reg_get_set_eq. eapply resolve_get. exact R.
Qed.




(** ** Quiz-mode answer statistics *)

Lemma bump_length i counts : length (bump i counts) = length counts.
Proof. unfold bump. destruct (Z.ltb i 0); [reflexivity|apply length_alter]. Qed.

Lemma bump_lookup i counts k :
  bump i counts !! k
  = (if Z.leb 0 i && Nat.eqb (Z.to_nat i) k then Z.add 1 else fun c => c)
      <$> counts !! k.
Proof.
  unfold bump. destruct (Z.ltb_spec i 0) as [Hn|Hp].
  - replace (Z.leb 0 i) with false by (symmetry; apply Z.leb_gt; exact Hn).
    simpl. destruct (counts !! k); reflexivity.
  - replace (Z.leb 0 i) with true by (symmetry; apply Z.leb_le; exact Hp).
    simpl. destruct (Nat.eqb_spec (Z.to_nat i) k) as [<-|Hne].
    + rewrite list_lookup_alter. rewrite decide_True by reflexivity. reflexivity.
    + rewrite list_lookup_alter_ne by exact Hne.
      destruct (counts !! k); reflexivity.
Qed.

Lemma foldl_bump_length l : forall counts,
  length (foldl (fun c i => bump i c) counts l) = length counts.
Proof.
  induction l as [|i l IH]; intros counts; simpl; [reflexivity|].
  rewrite IH. apply bump_length.
Qed.

Lemma foldl_bump_lookup l : NoDup l -> forall counts k,
  foldl (fun c i => bump i c) counts l !! k
  = (if hits k l then Z.add 1 else fun c => c) <$> counts !! k.
Proof.
  induction 1 as [|i l Hi Hl IH]; intros counts k; simpl.
  - destruct (counts !! k); reflexivity.
  - rewrite IH, bump_lookup.
    destruct (Z.leb 0 i && Nat.eqb (Z.to_nat i) k) eqn:E; simpl.
    + assert (hits k l = false) as ->.
      { apply andb_true_iff in E. destruct E as [E1 E2].
        apply Z.leb_le in E1. apply Nat.eqb_eq in E2.
        unfold hits. apply not_true_is_false. intros Hex.
        apply existsb_exists in Hex. destruct Hex as (i' & Hin & Hi').
        apply andb_true_iff in Hi'. destruct Hi' as [E1' E2'].
        apply Z.leb_le in E1'. apply Nat.eqb_eq in E2'.
        assert (i' = i) as -> by lia.
        apply Hi. apply list_elem_of_In. exact Hin. }
      destruct (counts !! k); reflexivity.
    + destruct (counts !! k); reflexivity.
Qed.

Lemma count_answer_length a acc :
  length (fst (count_answer a acc)) = length (fst acc).
Proof.
  destruct acc as [counts total]. unfold count_answer.
  destruct (answerIdx a) as [i|l|]; simpl.
  - destruct (in_range i counts); simpl; [apply bump_length|reflexivity].
  - apply foldl_bump_length.
  - reflexivity.
Qed.

Lemma Forall_lookup_Z (P : Z -> Prop) (xs ys : list Z) :
  length ys = length xs ->
  (forall k y, ys !! k = Some y -> exists x, xs !! k = Some x /\ (P x -> P y)) ->
  Forall P xs -> Forall P ys.
Proof.
  intros Hlen H Hxs. apply Forall_lookup. intros k y Hy.
  destruct (H k y Hy) as (x & Hx & Himp). apply Himp.
  eapply (proj1 (Forall_lookup P xs)); eauto.
Qed.

Lemma count_answer_ok n a acc :
  selects_once a -> tally_ok n acc -> tally_ok n (count_answer a acc).
Proof.
  intros Ha (Hlen & Htot & Hall). unfold tally_ok.
  rewrite count_answer_length. split; [exact Hlen|].
  destruct acc as [counts total]. unfold count_answer, selects_once in *.
  simpl in Hlen, Htot, Hall.
  destruct (answerIdx a) as [i|l|]; simpl.
  - destruct (in_range i counts); simpl; [|auto].
    split; [lia|].
    apply (Forall_lookup_Z _ (bump i counts) (bump i counts)) ; [reflexivity| |].
    + intros k y Hy. exists y. auto.
    + apply Forall_lookup. intros k y Hy. rewrite bump_lookup in Hy.
      destruct (counts !! k) as [c|] eqn:Hc; [|discriminate].
      pose proof (proj1 (Forall_lookup _ counts) Hall k c Hc) as Hb. simpl in Hb.
      simpl in Hy. injection Hy as <-.
      destruct (Z.leb 0 i && Nat.eqb (Z.to_nat i) k); lia.
  - split; [lia|]. apply Forall_lookup. intros k y Hy.
    rewrite (foldl_bump_lookup l Ha) in Hy.
    destruct (counts !! k) as [c|] eqn:Hc; [|discriminate].
    pose proof (proj1 (Forall_lookup _ counts) Hall k c Hc) as Hb. simpl in Hb.
    simpl in Hy. injection Hy as <-. destruct (hits k l); lia.
  - auto.
Qed.

Lemma answer_stats_tallies q quid ans :
  answer_stats q quid ans
  = (map (fun c => if Z.ltb 0 (snd (tallies q quid ans))
                   then round (mul (div (ofZ c) (ofZ (snd (tallies q quid ans))))
                                 (ofZ 100))
                   else ofZ 0) (fst (tallies q quid ans)),
     snd (tallies q quid ans)).
Proof.
  unfold answer_stats, tallies.
  destruct (map_fold _ _ ans) as [counts total]. reflexivity.
Qed.

Lemma options_length q :
  length (match reponses q with Some rs => replicate (length rs) 0 | None => [] end)
  = length (default [] (reponses q)).
Proof. destruct (reponses q); simpl; [apply length_replicate|reflexivity]. Qed.

Lemma tallies_shape q quid ans :
  length (fst (tallies q quid ans)) = length (default [] (reponses q))
  /\ 0 <= snd (tallies q quid ans) <= Z.of_nat (size ans)
  /\ ((forall j per_q, ans !! j = Some per_q -> per_q !! quid = None) ->
      snd (tallies q quid ans) = 0).
Proof.
  unfold tallies.
  apply (map_fold_weak_ind
           (fun acc (m : gmap string (gmap string Answer)) =>
              length (fst acc) = length (default [] (reponses q))
              /\ 0 <= snd acc <= Z.of_nat (size m)
              /\ ((forall j per_q, m !! j = Some per_q -> per_q !! quid = None) ->
                  snd acc = 0))).
  - simpl. split; [apply options_length|]. rewrite map_size_empty. split; [lia|reflexivity].
  - intros j per_q m acc Hfresh (Hlen & Htot & Hnone).
    rewrite map_size_insert_None by exact Hfresh.
    destruct (per_q !! quid) as [a|] eqn:Ha.
    + rewrite count_answer_length. split; [exact Hlen|]. split.
      * destruct acc as [counts total]. unfold count_answer. simpl in *.
        destruct (answerIdx a); simpl; try destruct (in_range _ _); simpl; lia.
      * intros H. specialize (H j per_q (lookup_insert_eq _ _ _)). congruence.
    + split; [exact Hlen|]. split; [lia|]. intros H. apply Hnone.
      intros j' per_q' Hj'. apply (H j'). rewrite lookup_insert_ne; [exact Hj'|].
      intros <-. congruence.
Qed.

(** X6.  The statistics sent to the dashboard have one entry per answer
    option of the question (none when [reponses] is not an array); the total
    counts at most one respondent per player; and when no player has an
    answer stored for the question the total is 0 and every entry is 0. *)
Theorem answer_stats_shape (q : Question) (questionUid : string)
    (ans : gmap string (gmap string Answer)) :
  let '(stats, total) := answer_stats q questionUid ans in
  length stats = length (default [] (reponses q))
  /\ 0 <= total <= Z.of_nat (size ans)
  /\ ((forall j per_q, ans !! j = Some per_q -> per_q !! questionUid = None) ->
      total = 0 /\ Forall (fun x => x = ofZ 0) stats).
Proof.
  rewrite answer_stats_tallies.
  destruct (tallies_shape q questionUid ans) as (Hlen & Htot & Hnone).
  split; [rewrite length_map; exact Hlen|]. split; [exact Htot|].
  intros H. rewrite (Hnone H). split; [reflexivity|].
  apply Forall_forall. intros x Hx. apply list_elem_of_In, in_map_iff in Hx.
  destruct Hx as (c & <- & _). reflexivity.
Qed.

Lemma percentage_round c t :
  0 <= c <= t -> 0 < t ->
  is_percentage (round (mul (div (ofZ c) (ofZ t)) (ofZ 100))).
Proof.
  intros Hc Ht. unfold div, ofZ.
  assert (Qeq_bool (inject_Z t) 0 = false) as ->.
  { apply not_true_is_false. intros H. apply Qeq_bool_iff in H.
    unfold Qeq in H. simpl in H. lia. }
  simpl mul. unfold round.
  assert (0 < inject_Z t)%Q as Htq
    by (change (inject_Z 0 < inject_Z t)%Q; rewrite <- Zlt_Qlt; exact Ht).
  assert (0 <= inject_Z c / inject_Z t)%Q as Hlo.
  { apply Qle_shift_div_l; [exact Htq|]. rewrite Qmult_0_l.
    change (inject_Z 0 <= inject_Z c)%Q. rewrite <- Zle_Qle. lia. }
  assert (inject_Z c / inject_Z t <= 1)%Q as Hhi.
  { apply Qle_shift_div_r; [exact Htq|]. rewrite Qmult_1_l.
    rewrite <- Zle_Qle. lia. }
  set (x := (inject_Z c / inject_Z t)%Q) in *.
  assert (0 <= x * inject_Z 100 + (1 # 2))%Q as Hlo'.
  { apply (Qle_trans _ (0 * inject_Z 100 + 0)%Q); [vm_compute; discriminate|].
    apply Qplus_le_compat; [|vm_compute; discriminate].
    apply Qmult_le_compat_r; [exact Hlo|vm_compute; discriminate]. }
  assert (x * inject_Z 100 + (1 # 2) <= 201 # 2)%Q as Hhi'.
  { apply (Qle_trans _ (1 * inject_Z 100 + (1 # 2))%Q); [|vm_compute; discriminate].
    apply Qplus_le_compat; [|apply Qle_refl].
    apply Qmult_le_compat_r; [exact Hhi|vm_compute; discriminate]. }
  eexists. split; [reflexivity|].
  apply Qfloor_resp_le in Hlo'. apply Qfloor_resp_le in Hhi'.
  change (Qfloor 0) with 0 in Hlo'. change (Qfloor (201 # 2)) with 100 in Hhi'.
  split.
  - change (inject_Z 0 <= inject_Z (Qfloor (x * inject_Z 100 + (1 # 2))))%Q.
    rewrite <- Zle_Qle. exact Hlo'.
  - rewrite <- Zle_Qle. exact Hhi'.
Qed.

Lemma tallies_ok q quid ans :
  (forall j per_q a, ans !! j = Some per_q -> per_q !! quid = Some a ->
     selects_once a) ->
  tally_ok (length (default [] (reponses q))) (tallies q quid ans).
Proof.
  unfold tallies.
  apply (map_fold_weak_ind
           (fun acc (m : gmap string (gmap string Answer)) =>
              (forall j per_q a, m !! j = Some per_q -> per_q !! quid = Some a ->
                 selects_once a) ->
              tally_ok (length (default [] (reponses q))) acc)).
  - intros _. unfold tally_ok. simpl. split; [apply options_length|].
    split; [lia|]. destruct (reponses q); simpl; [|constructor].
    apply Forall_forall. intros c Hc. apply elem_of_replicate in Hc. lia.
  - intros j per_q m acc Hfresh IH H.
    assert (tally_ok (length (default [] (reponses q))) acc) as Hacc.
    { apply IH. intros j' per_q' a Hj'. apply (H j').
      rewrite lookup_insert_ne; [exact Hj'|]. intros <-. congruence. }
    destruct (per_q !! quid) as [a|] eqn:Ha; [|exact Hacc].
    apply count_answer_ok; [|exact Hacc].
    apply (H j per_q a); [apply lookup_insert_eq|exact Ha].
Qed.

(** X7.  When every stored answer to the question is a single option or a
    list of options without repetition, every entry of the statistics is a
    percentage: a number between 0 and 100. *)
Theorem answer_stats_are_percentages (q : Question) (questionUid : string)
    (ans : gmap string (gmap string Answer)) :
  (forall j per_q a, ans !! j = Some per_q -> per_q !! questionUid = Some a ->
     selects_once a) ->
  Forall is_percentage (fst (answer_stats q questionUid ans)).
Proof.
  intros H. rewrite answer_stats_tallies. cbn [fst].
  destruct (tallies_ok q questionUid ans H) as (_ & Htot & Hall).
  apply Forall_forall. intros x Hx. apply list_elem_of_In, in_map_iff in Hx.
  destruct Hx as (c & <- & Hc).
  pose proof (proj1 (Forall_forall _ _) Hall c (proj2 (list_elem_of_In _ _) Hc)) as Hb. simpl in Hb.
  destruct (Z.ltb_spec 0 (snd (tallies q questionUid ans))) as [Hpos|Hz].
  - apply percentage_round; [exact Hb|exact Hpos].
  - exists 0%Q. split; [reflexivity|]. split; vm_compute; discriminate.
Qed.

(** ** Setting the question: which question, and what is left alone *)

Lemma uid_is_true u q : uid_is u q = true -> u = Some (uid q).
Proof.
  destruct u as [x|]; simpl; [|discriminate].
  intros H. apply String.eqb_eq in H. congruence.
Qed.

Lemma findIndex_from_find u qs : forall off q,
  find_question u qs = Some q ->
  exists i, findIndex_from u qs off = Some i
            /\ off <= i
            /\ nth_error qs (Z.to_nat (i - off)) = Some q
            /\ u = Some (uid q).
Proof.
  unfold find_question.
  induction qs as [|x qs IH]; intros off q; simpl; [discriminate|].
  destruct (uid_is u x) eqn:E.
  - intros [= <-]. exists off. split; [reflexivity|]. split; [lia|].
    rewrite Z.sub_diag. split; [reflexivity|]. apply uid_is_true. exact E.
  - intros H. destruct (IH (off + 1) q H) as (i & Hi & Hle & Hn & Hu).
    exists i. split; [exact Hi|]. split; [lia|]. split; [|exact Hu].
    replace (Z.to_nat (i - off)) with (S (Z.to_nat (i - (off + 1)))) by lia.
    exact Hn.
Qed.

Lemma findIndex_find u qs q :
  find_question u qs = Some q ->
  exists i, findIndex u qs = Some i /\ question_at (Some i) qs = Some q
            /\ u = Some (uid q).
Proof.
  intros H. destruct (findIndex_from_find u qs 0 q H) as (i & Hi & Hle & Hn & Hu).
  exists i. split; [exact Hi|]. split; [|exact Hu].
  unfold question_at. destruct (Z.ltb_spec i 0); [lia|].
  rewrite Z.sub_0_r in Hn. exact Hn.
Qed.

(** X8.  With a non-empty target uid that the session's questions contain,
    [triggerTournamentQuestion] activates the first question with that uid
    whatever the positional index says: it becomes the current question, the
    duration is the initial time if one is given and else the question's
    [temps] or 20, and exactly that question is sent to the live room. *)
Theorem setQuestion_by_uid
    (code : string) (index : Index) (quiz : option string)
    (initialTime : option jsnum) (target : option string)
    (w : World) (s : State) (qs : list Question) (q : Question) :
  reg_get code (tournamentState w) = Some s ->
  questions s = Some qs ->
  truthy_str target = true ->
  find_question target qs = Some q ->
  let '(w', evs) := triggerTournamentQuestion code index quiz initialTime target w in
  let time := match initialTime with Some t => t | None => temps_or_default q end in
  exists s',
    reg_get code (tournamentState w') = Some s'
    /\ currentQuestionUid s' = target
    /\ currentQuestionDuration s' = Some time
    /\ evs = [send_question code q (findIndex target qs) (length qs) time quiz].
Proof.
  intros Hget Hq Ht Hf.
  destruct (findIndex_find target qs q Hf) as (i & Hi & Hat & Hu).
  unfold triggerTournamentQuestion, on_session. rewrite Hget.
  unfold setQuestion_on. rewrite Hq, Ht, Hi, Hat. cbv zeta. flat.
  cbn [tournamentState]. eexists. split; [eapply reg_get_set_eq; eauto|].
  flat. auto.
Qed.

(** X9.  Without a target uid, an index inside the array activates the
    question at that position, with the same rule for the duration. *)
Theorem setQuestion_by_index
    (code : string) (i : Z) (quiz : option string)
    (initialTime : option jsnum) (target : option string)
    (w : World) (s : State) (qs : list Question) (q : Question) :
  reg_get code (tournamentState w) = Some s ->
  questions s = Some qs ->
  truthy_str target = false ->
  0 <= i -> nth_error qs (Z.to_nat i) = Some q ->
  let '(w', evs) := triggerTournamentQuestion code (At i) quiz initialTime target w in
  let time := match initialTime with Some t => t | None => temps_or_default q end in
  exists s',
    reg_get code (tournamentState w') = Some s'
    /\ currentQuestionUid s' = Some (uid q)
    /\ currentQuestionDuration s' = Some time
    /\ evs = [send_question code q (Some i) (length qs) time quiz].
Proof.
  intros Hget Hq Ht Hi Hn.
  unfold triggerTournamentQuestion, on_session. rewrite Hget.
  unfold setQuestion_on. rewrite Hq, Ht.
  assert (i < Z.of_nat (length qs)) as Hlt.
  { assert (Z.to_nat i < length qs)%nat by (apply nth_error_Some; congruence).
    lia. }
  cbn [index_ge index_position].
  replace (Z.geb i (Z.of_nat (length qs))) with false
    by (symmetry; rewrite Z.geb_leb; apply Z.leb_gt; exact Hlt).
  unfold question_at. replace (Z.ltb i 0) with false
    by (symmetry; apply Z.ltb_ge; exact Hi).
  rewrite Hn. cbv zeta. flat.
  cbn [tournamentState]. eexists. split; [eapply reg_get_set_eq; eauto|].
  flat. auto.
Qed.

(** X10.  Only [index >= length] is refused when no target uid is given, so a
    negative index, an absent one ([undefined]), and an explicit [null] on a
    session that has at least one question (where [null >= length] is false)
    all get past the validation: the call then overwrites [linkedQuizId],
    leaves the session without a current question and sends nothing.  An
    explicit [null] on an empty question list is refused ([null >= 0]) and
    changes nothing. *)
Theorem setQuestion_negative_index
    (code : string) (index : Index) (quiz : option string)
    (initialTime : option jsnum) (target : option string) (w : World) (s : State)
    (qs : list Question) :
  reg_get code (tournamentState w) = Some s ->
  questions s = Some qs ->
  truthy_str target = false ->
  ((index = NoIndex
    \/ (index = NullIndex /\ qs <> [])
    \/ exists i, index = At i /\ i < 0) ->
   triggerTournamentQuestion code index quiz initialTime target w
   = (mkWorld (reg_set code (set_currentQuestionUid None (set_linkedQuizId quiz s))
                 (tournamentState w)) (loop w), []))
  /\ (index = NullIndex -> qs = [] ->
      triggerTournamentQuestion code index quiz initialTime target w = (w, [])).
Proof.
  intros Hget Hq Ht. split.
  - intros Hi.
    unfold triggerTournamentQuestion, on_session. rewrite Hget.
    unfold setQuestion_on. rewrite Hq, Ht.
    destruct Hi as [->|[[-> Hne]|(i & -> & Hneg)]]; cbn [index_ge index_position].
    + reflexivity.
    + replace (Z.geb 0 (Z.of_nat (length qs))) with false
        by (symmetry; rewrite Z.geb_leb; apply Z.leb_gt; destruct qs; [contradiction|];
            cbn [length]; lia).
      reflexivity.
    + replace (Z.geb i (Z.of_nat (length qs))) with false
        by (symmetry; rewrite Z.geb_leb; apply Z.leb_gt; lia).
      unfold question_at. replace (Z.ltb i 0) with true
        by (symmetry; apply Z.ltb_lt; exact Hneg).
      reflexivity.
  - intros -> ->. unfold triggerTournamentQuestion.
    apply on_session_unchanged. intros s0 H0. rewrite Hget in H0. injection H0 as <-.
    unfold setQuestion_on. rewrite Hq, Ht. reflexivity.
Qed.

Lemma setQuestion_on_frame code index quiz it tg s :
  same_but_question s (fst (setQuestion_on code index quiz it tg s)).
Proof.
  unfold same_but_question, setQuestion_on.
  destruct (questions s) as [qs|]; [|destruct s; reflexivity].
  destruct (if truthy_str tg then _ else _) as [[ti tq]|]; [|destruct s; reflexivity].
  destruct tq as [q|]; [destruct s; reflexivity|].
  destruct (question_at ti qs); destruct s; reflexivity.
Qed.

(** X11.  [triggerTournamentQuestion] does not start anything: the event
    loop is as before, so no timer is armed or cancelled; the session keeps
    every field except [linkedQuizId], [currentQuestionUid] and
    [currentQuestionDuration] (its flags, start time, answers and scores
    stay); and a call that fails the validation (unregistered code, session
    without questions, unknown target uid, index beyond the array) changes
    nothing at all and sends nothing. *)
Theorem setQuestion_starts_nothing
    (code : string) (index : Index) (quiz : option string)
    (initialTime : option jsnum) (target : option string) (w : World) :
  let '(w', evs) := triggerTournamentQuestion code index quiz initialTime target w in
  loop w' = loop w
  /\ (forall s, reg_get code (tournamentState w) = Some s ->
        exists s', reg_get code (tournamentState w') = Some s'
                   /\ same_but_question s s')
  /\ (forall key, key <> code ->
        reg_get key (tournamentState w') = reg_get key (tournamentState w))
  /\ ((reg_get code (tournamentState w) = None
       \/ exists s, reg_get code (tournamentState w) = Some s
                    /\ setQuestion_valid index target s = false) ->
      w' = w /\ evs = []).
Proof.
  unfold triggerTournamentQuestion, on_session.
  destruct (reg_get code (tournamentState w)) as [s|] eqn:Hget.
  - pose proof (setQuestion_on_frame code index quiz initialTime target s) as F.
    pose proof (setQuestion_on_invalid code index quiz initialTime target s) as I.
    destruct (setQuestion_on code index quiz initialTime target s) as [s' evs].
    cbn [fst snd tournamentState loop] in *.
    split; [reflexivity|]. split; [|split].
    + intros s0 [= <-]. exists s'. split; [eapply reg_get_set_eq; eauto|exact F].
    + intros key Hne. apply reg_get_set_ne. congruence.
    + intros [H|(s0 & [= <-] & Hv)]; [discriminate|].
      specialize (I Hv). injection I as -> ->.
      rewrite (reg_set_same _ _ _ Hget). destruct w; auto.
  - split; [reflexivity|]. split; [discriminate|]. split; [reflexivity|]. auto.
Qed.

(** ** The paths of the timer set *)

Lemma clearTimers_nextHandle s l : nextHandle (snd (clearTimers s l)) = nextHandle l.
Proof.
  destruct s. unfold clearTimers. cbn.
  repeat match goal with
         | |- context [match ?x with Some _ => _ | None => _ end] => destruct x; cbn
         end; reflexivity.
Qed.

Lemma clearTimers_pair s l : clearTimers s l = (fst (clearTimers s l), snd (clearTimers s l)).
Proof. destruct (clearTimers s l); reflexivity. Qed.

Lemma timerSet_on_stop now code t fa s l :
  isDiffered s = false -> stopped s = false -> is_zero t = true ->
  timerSet_on now code (Some t) fa s l
  = (let s' :=
       set_pausedAt None
         (set_pausedRemainingTime None
            (set_currentQuestionDuration (Some (ofZ 0))
               (set_paused false (set_stopped true (fst (clearTimers s l)))))) in
     (s', snd (clearTimers s l),
      Emit (live code) (tournament_set_timer (ofZ 0) "stopped") :: stop_mirror now s')).
Proof.
  intros Hd Hs Hz. unfold timerSet_on. simpl arg_is_zero.
  rewrite Hd, Hs, Hz. simpl andb. cbv iota.
  rewrite (clearTimers_pair s l). reflexivity.
Qed.

(** X12.  [setTimer(0)] on a session that is neither deferred nor already
    stopped cancels the session's timers and leaves it stopped and not
    paused, with duration 0 and no stored remaining time or pause instant;
    the current question, the start time, the answers and the scores stay.
    The live room is told "stopped" with 0, and the dashboard is told exactly
    when the session is linked. *)
Theorem stop_effect
    (now : Z) (code : string) (t : jsnum) (fa : bool) (w : World) (s : State) :
  reg_get code (tournamentState w) = Some s ->
  isDiffered s = false -> stopped s = false -> is_zero t = true ->
  let '(w', evs) := triggerTournamentTimerSet now code (Some t) fa w in
  exists s',
    reg_get code (tournamentState w') = Some s'
    /\ timers_cancelled s s' (loop w')
    /\ stopped s' = true /\ paused s' = false
    /\ currentQuestionDuration s' = Some (ofZ 0)
    /\ pausedRemainingTime s' = None /\ pausedAt s' = None
    /\ currentQuestionUid s' = currentQuestionUid s
    /\ questionStart s' = questionStart s
    /\ answers s' = answers s /\ participants s' = participants s
    /\ evs = Emit (live code) (tournament_set_timer (ofZ 0) "stopped")
               :: stop_mirror now s'
    /\ (truthy_str (linkedQuizId s) = false -> stop_mirror now s' = []).
Proof.
  intros Hget Hd Hs Hz. unfold triggerTournamentTimerSet, on_session.
  rewrite Hget, (timerSet_on_stop now code t fa s (loop w) Hd Hs Hz). cbv zeta.
  cbn [tournamentState loop].
  eexists. split; [eapply reg_get_set_eq; eauto|].
  pose proof (clearTimers_cancels s (loop w)) as Hc.
  rewrite clearTimers_fst in *.
  split; [exact Hc|]. flat. repeat (split; [reflexivity|]).
  unfold stop_mirror, truthy_str. flat.
  destruct (linkedQuizId s) as [quiz|]; [|reflexivity].
  destruct (String.eqb quiz ""); [reflexivity|discriminate].
Qed.

Lemma initial_timeLeft_number t fa q s :
  truthy t = true -> (fa = false \/ gt t (ofZ 0) = true) ->
  initial_timeLeft (Some t) fa q s = t.
Proof.
  intros Ht Hfa. unfold initial_timeLeft.
  assert (le t (ofZ 0) && fa = false) as ->.
  { destruct Hfa as [->|Hpos]; [apply andb_false_r|].
    rewrite (gt_le_false _ _ Hpos). reflexivity. }
  rewrite Ht. reflexivity.
Qed.

Lemma truthy_not_zero t : truthy t = true -> is_zero t = false.
Proof. destruct t; simpl; [reflexivity|]. apply negb_true_iff. Qed.

Lemma timerSet_on_edit now code t s l qs q :
  isDiffered s = false -> truthy t = true ->
  truthy_str (currentQuestionUid s) = true ->
  questions s = Some qs -> find_question (currentQuestionUid s) qs = Some q ->
  timerSet_on now code (Some t) false s l
  = (let s1 := fst (clearTimers s l) in
     let l1 := snd (clearTimers s l) in
     if stopped s then
       (set_currentQuestionDuration (Some t) s1, l1,
        [Emit (live code) (tournament_set_timer t "stopped")])
     else if paused s then
       let s2 := set_currentQuestionDuration (Some t)
                   (set_pausedRemainingTime (Some t) s1) in
       (s2, l1,
        Emit (live code) (tournament_set_timer t "paused") :: pause_mirror now s2 t)
     else start_countdown now code false qs t (set_questionStart (Some now) s1) l1).
Proof.
  intros Hd Ht Hu Hq Hf. unfold timerSet_on. simpl arg_is_zero.
  rewrite Hd, (truthy_not_zero _ Ht). simpl andb. cbv iota.
  rewrite (clearTimers_pair s l). cbv zeta.
  rewrite clearTimers_fst. flat. rewrite Hu, Hq, Hf. simpl negb. cbv iota.
  rewrite initial_timeLeft_number by auto. reflexivity.
Qed.

(** X13.  Editing a stopped timer does not resume it: [setTimer(t, false)]
    with a number [t] other than 0 on a stopped session with a current
    question stores [t] as the duration, leaves the session stopped with no
    timer armed, and sends the live room the one message [t], "stopped". *)
Theorem edit_stopped_stays_stopped
    (now : Z) (code : string) (t : jsnum) (w : World) (s : State) :
  reg_get code (tournamentState w) = Some s ->
  isDiffered s = false -> has_current_question s ->
  truthy t = true -> stopped s = true ->
  let '(w', evs) := triggerTournamentTimerSet now code (Some t) false w in
  exists s',
    reg_get code (tournamentState w') = Some s'
    /\ stopped s' = true /\ paused s' = paused s
    /\ currentQuestionDuration s' = Some t
    /\ questionStart s' = questionStart s
    /\ timers_cancelled s s' (loop w')
    /\ nextHandle (loop w') = nextHandle (loop w)
    /\ evs = [Emit (live code) (tournament_set_timer t "stopped")].
Proof.
  intros Hget Hd (qs & q & Hu & Hq & Hf) Ht Hs.
  unfold triggerTournamentTimerSet, on_session.
  rewrite Hget, (timerSet_on_edit now code t s (loop w) qs q Hd Ht Hu Hq Hf).
  cbv zeta. rewrite Hs. cbn [tournamentState loop].
  eexists. split; [eapply reg_get_set_eq; eauto|].
  pose proof (clearTimers_cancels s (loop w)) as Hc.
  pose proof (clearTimers_nextHandle s (loop w)) as Hn.
  rewrite clearTimers_fst in *. flat.
  split; [exact Hs|]. do 3 (split; [reflexivity|]).
  split; [exact Hc|]. split; [exact Hn|reflexivity].
Qed.

(** X14.  Editing a paused timer keeps it paused: [setTimer(t, false)] with
    a number [t] other than 0 on a paused session stores [t] both as the
    remaining time and as the duration, arms no timer, tells the live room
    [t], "paused", and mirrors the pause to the dashboard of a linked
    session whatever the sign of [t]. *)
Theorem edit_paused_stays_paused
    (now : Z) (code : string) (t : jsnum) (w : World) (s : State) :
  reg_get code (tournamentState w) = Some s ->
  isDiffered s = false -> has_current_question s ->
  truthy t = true -> stopped s = false -> paused s = true ->
  let '(w', evs) := triggerTournamentTimerSet now code (Some t) false w in
  exists s',
    reg_get code (tournamentState w') = Some s'
    /\ paused s' = true /\ stopped s' = false
    /\ pausedRemainingTime s' = Some t
    /\ currentQuestionDuration s' = Some t
    /\ questionStart s' = questionStart s
    /\ timers_cancelled s s' (loop w')
    /\ nextHandle (loop w') = nextHandle (loop w)
    /\ evs = Emit (live code) (tournament_set_timer t "paused")
               :: pause_mirror now s' t
    /\ (mirrors_pause evs <-> truthy_str (linkedQuizId s) = true).
Proof.
  intros Hget Hd (qs & q & Hu & Hq & Hf) Ht Hs Hp.
  unfold triggerTournamentTimerSet, on_session.
  rewrite Hget, (timerSet_on_edit now code t s (loop w) qs q Hd Ht Hu Hq Hf).
  cbv zeta. rewrite Hs, Hp. cbn [tournamentState loop].
  eexists. split; [eapply reg_get_set_eq; eauto|].
  pose proof (clearTimers_cancels s (loop w)) as Hc.
  pose proof (clearTimers_nextHandle s (loop w)) as Hn.
  rewrite clearTimers_fst in *. flat.
  split; [exact Hp|]. split; [exact Hs|]. do 3 (split; [reflexivity|]).
  split; [exact Hc|]. split; [exact Hn|]. split; [reflexivity|].
  unfold mirrors_pause, pause_mirror, truthy_str. flat.
  destruct (linkedQuizId s) as [quiz|].
  - destruct (String.eqb quiz "") eqn:E; simpl negb.
    + split; [|discriminate]. intros (quiz' & u & x & ts & [H|[]]). discriminate.
    + split; [reflexivity|]. intros _. exists quiz. do 3 eexists.
      right. right. left. reflexivity.
  - split; [|discriminate]. intros (quiz' & u & x & ts & [H|[]]). discriminate.
Qed.

Lemma start_countdown_runs now code fa qs t s l :
  gt t (ofZ 0) = true ->
  exists evs,
    start_countdown now code fa qs t s l
    = (set__timerRef (Some (S (nextHandle l)))
         (set_timer (Some (S (nextHandle l)))
            (set_intervalTimer (Some (nextHandle l))
               (set_questionStart (Some now)
                  (set_previousQuestionUid (currentQuestionUid s)
                     (set_isTournamentMode
                        (match statut s with
                         | Some st => String.eqb st "en cours"
                         | None => false
                         end || String.prefix "T" code || isTournamentMode s)
                        (set_stopped false
                           (set_paused false
                              (set_currentQuestionDuration (Some t) s)))))))),
       mkLoop (S (S (nextHandle l)))
         (timeouts l ++ [(S (nextHandle l), mul t (ofZ 1000))])
         (intervals l ++ [(nextHandle l, t)]),
       Emit (live code) (tournament_set_timer t "active") :: evs).
Proof.
  intros Hpos. unfold start_countdown. rewrite (gt_le_false _ _ Hpos).
  cbv zeta. unfold setInterval, setTimeout. flat. cbn [nextHandle timeouts intervals].
  eexists. reflexivity.
Qed.

Lemma start_countdown_armed now code fa qs t s l :
  gt t (ofZ 0) = true ->
  let '(s', l', evs) := start_countdown now code fa qs t s l in
  countdown_armed now t l s' l'
  /\ currentQuestionUid s' = currentQuestionUid s
  /\ pausedRemainingTime s' = pausedRemainingTime s
  /\ answers s' = answers s /\ participants s' = participants s
  /\ exists rest, evs = Emit (live code) (tournament_set_timer t "active") :: rest.
Proof.
  intros Hpos. destruct (start_countdown_runs now code fa qs t s l Hpos) as [evs ->].
  unfold countdown_armed, in_state. flat. cbn [nextHandle timeouts intervals].
  split; [split; [split; reflexivity|]; repeat (split; [reflexivity|]); reflexivity|].
  repeat (split; [reflexivity|]). eexists. reflexivity.
Qed.

Lemma gt_truthy t : gt t (ofZ 0) = true -> truthy t = true.
Proof.
  destruct t as [|x]; simpl; [discriminate|]. intros H.
  apply negb_true_iff in H. apply negb_true_iff.
  apply not_true_is_false. intros E. apply Qeq_bool_iff in E.
  assert (Qle_bool x (inject_Z 0) = true) as H'.
  { apply Qle_bool_iff. rewrite E. apply Qle_refl. }
  congruence.
Qed.

Lemma timerSet_on_forced now code t s l qs q :
  isDiffered s = false -> gt t (ofZ 0) = true ->
  paused s && pausedRemaining_positive s = false ->
  truthy_str (currentQuestionUid s) = true ->
  questions s = Some qs -> find_question (currentQuestionUid s) qs = Some q ->
  timerSet_on now code (Some t) true s l
  = start_countdown now code true qs t
      (set_questionStart (Some now)
         (set_paused false (set_stopped false (fst (clearTimers s l)))))
      (snd (clearTimers s l)).
Proof.
  intros Hd Hpos Hp Hu Hq Hf. unfold timerSet_on. simpl arg_is_zero.
  rewrite Hd, (truthy_not_zero _ (gt_truthy _ Hpos)). simpl andb. cbv iota.
  rewrite (clearTimers_pair s l). cbv zeta.
  rewrite clearTimers_fst. flat. rewrite Hu, Hq, Hf. simpl negb. cbv iota.
  assert (pausedRemaining_positive
            (set__timerRef None (set_intervalTimer None (set_timer None s)))
          = pausedRemaining_positive s) as -> by reflexivity.
  rewrite Hp. cbv iota.
  rewrite initial_timeLeft_number by (auto using gt_truthy). reflexivity.
Qed.

(** X15.  A positive [timeLeft] on a session that is not paused starts the
    countdown, whether forced ([forceActive], also from stopped) or as the
    edit of a running timer: the session's previous timers are cleared, one
    interval counting down from [timeLeft] and one deadline at
    [timeLeft * 1000] ms are armed with fresh handles and stored in the
    session, the session is active from [now] with [timeLeft] as duration,
    and the live room is first sent [timeLeft], "active". *)
Theorem positive_timeLeft_starts_countdown
    (now : Z) (code : string) (t : jsnum) (fa : bool) (w : World) (s : State) :
  reg_get code (tournamentState w) = Some s ->
  isDiffered s = false -> has_current_question s ->
  gt t (ofZ 0) = true ->
  paused s = false -> (fa = true \/ stopped s = false) ->
  let '(w', evs) := triggerTournamentTimerSet now code (Some t) fa w in
  exists s',
    reg_get code (tournamentState w') = Some s'
    /\ countdown_armed now t (snd (clearTimers s (loop w))) s' (loop w')
    /\ currentQuestionUid s' = currentQuestionUid s
    /\ pausedRemainingTime s' = pausedRemainingTime s
    /\ answers s' = answers s /\ participants s' = participants s
    /\ exists rest, evs = Emit (live code) (tournament_set_timer t "active") :: rest.
Proof.
  intros Hget Hd (qs & q & Hu & Hq & Hf) Hpos Hp Hfa.
  unfold triggerTournamentTimerSet, on_session. rewrite Hget.
  assert (timerSet_on now code (Some t) fa s (loop w)
          = start_countdown now code fa qs t
              (set_questionStart (Some now)
                 (set_paused false (set_stopped false (fst (clearTimers s (loop w))))))
              (snd (clearTimers s (loop w)))
          \/ timerSet_on now code (Some t) fa s (loop w)
             = start_countdown now code fa qs t
                 (set_questionStart (Some now) (fst (clearTimers s (loop w))))
                 (snd (clearTimers s (loop w)))) as [-> | ->].
  { destruct fa.
    - left. apply (timerSet_on_forced now code t s (loop w) qs q); try assumption.
      rewrite Hp. reflexivity.
    - right. destruct Hfa as [?|Hs]; [discriminate|].
      rewrite (timerSet_on_edit now code t s (loop w) qs q Hd (gt_truthy _ Hpos) Hu Hq Hf).
      cbv zeta. rewrite Hs, Hp. reflexivity. }
  - match goal with
    | |- context [start_countdown ?a ?b ?c ?d ?e ?f ?g] =>
        pose proof (start_countdown_armed a b c d e f g Hpos) as H;
        destruct (start_countdown a b c d e f g) as [[s' l'] evs]
    end.
    cbn [tournamentState loop]. exists s'.
    split; [eapply reg_get_set_eq; eauto|].
    rewrite clearTimers_fst in H. flat. exact H.
  - match goal with
    | |- context [start_countdown ?a ?b ?c ?d ?e ?f ?g] =>
        pose proof (start_countdown_armed a b c d e f g Hpos) as H;
        destruct (start_countdown a b c d e f g) as [[s' l'] evs]
    end.
    cbn [tournamentState loop]. exists s'.
    split; [eapply reg_get_set_eq; eauto|].
    rewrite clearTimers_fst in H. flat. exact H.
Qed.

(** X16.  A negative [timeLeft] without [forceActive] on a running session
    is refused only after the running timers have been cancelled and the
    start time reset: the session stays active with its old duration, no
    timer is armed in their place and nothing is sent. *)
Theorem negative_edit_cancels_countdown
    (now : Z) (code : string) (t : jsnum) (w : World) (s : State) :
  reg_get code (tournamentState w) = Some s ->
  isDiffered s = false -> has_current_question s ->
  truthy t = true -> le t (ofZ 0) = true ->
  paused s = false -> stopped s = false ->
  let '(w', evs) := triggerTournamentTimerSet now code (Some t) false w in
  exists s',
    reg_get code (tournamentState w') = Some s'
    /\ in_state s' Active
    /\ currentQuestionDuration s' = currentQuestionDuration s
    /\ questionStart s' = Some now
    /\ timers_cancelled s s' (loop w')
    /\ loop w' = snd (clearTimers s (loop w))
    /\ evs = [].
Proof.
  intros Hget Hd (qs & q & Hu & Hq & Hf) Ht Hle Hp Hs.
  unfold triggerTournamentTimerSet, on_session.
  rewrite Hget, (timerSet_on_edit now code t s (loop w) qs q Hd Ht Hu Hq Hf).
  cbv zeta. rewrite Hs, Hp. unfold start_countdown. rewrite Hle.
  cbn [tournamentState loop].
  eexists. split; [eapply reg_get_set_eq; eauto|].
  pose proof (clearTimers_cancels s (loop w)) as Hc.
  rewrite clearTimers_fst in *. flat. unfold in_state.
  split; [split; assumption|]. do 2 (split; [reflexivity|]).
  split; [exact Hc|]. split; reflexivity.
Qed.

Lemma temps_or_default_positive q :
  (forall z, temps q = Some z -> 0 <= z) -> gt (temps_or_default q) (ofZ 0) = true.
Proof.
  intros H. unfold temps_or_default. destruct (temps q) as [z|]; [|reflexivity].
  specialize (H z eq_refl).
  destruct (Z.eqb_spec z 0); [reflexivity|].
  unfold ofZ, gt. apply negb_true_iff. apply not_true_is_false.
  intros E. apply Qle_bool_iff in E. rewrite <- Zle_Qle in E. lia.
Qed.

(** X17.  A forced start without a usable [timeLeft] falls back on the
    question: with [forceActive] and [timeLeft] absent or negative, on a
    session that is not paused, the countdown starts with the question's
    [temps], or with 20 seconds when [temps] is absent or 0 ([temps] not
    being negative). *)
Theorem forced_start_uses_question_time
    (now : Z) (code : string) (timeLeft : option jsnum) (w : World) (s : State)
    (qs : list Question) (q : Question) :
  reg_get code (tournamentState w) = Some s ->
  isDiffered s = false -> paused s = false ->
  truthy_str (currentQuestionUid s) = true ->
  questions s = Some qs -> find_question (currentQuestionUid s) qs = Some q ->
  (forall z, temps q = Some z -> 0 <= z) ->
  (timeLeft = None
   \/ exists t, timeLeft = Some t /\ truthy t = true /\ le t (ofZ 0) = true) ->
  let '(w', evs) := triggerTournamentTimerSet now code timeLeft true w in
  exists s',
    reg_get code (tournamentState w') = Some s'
    /\ countdown_armed now (temps_or_default q) (snd (clearTimers s (loop w))) s'
         (loop w').
Proof.
  intros Hget Hd Hp Hu Hq Hf Hz Ht.
  pose proof (temps_or_default_positive q Hz) as Hpos.
  unfold triggerTournamentTimerSet, on_session. rewrite Hget.
  assert (timerSet_on now code timeLeft true s (loop w)
          = start_countdown now code true qs (temps_or_default q)
              (set_questionStart (Some now)
                 (set_paused false (set_stopped false (fst (clearTimers s (loop w))))))
              (snd (clearTimers s (loop w)))) as ->.
  { unfold timerSet_on. rewrite Hd.
    assert (arg_is_zero timeLeft = false) as ->.
    { destruct Ht as [->|(t & -> & Ht & _)]; [reflexivity|].
      apply truthy_not_zero. exact Ht. }
    simpl andb. cbv iota. rewrite (clearTimers_pair s (loop w)). cbv zeta.
    rewrite clearTimers_fst. flat. rewrite Hu, Hq, Hf, Hp. simpl negb. simpl andb.
    cbv iota.
    assert (initial_timeLeft timeLeft true q
              (set__timerRef None (set_intervalTimer None (set_timer None s)))
            = temps_or_default q) as ->.
    { unfold initial_timeLeft. flat. rewrite Hp. simpl andb.
      destruct Ht as [->|(t & -> & Ht & Hle)].
      - cbv iota. rewrite (gt_truthy _ Hpos). reflexivity.
      - rewrite Hle. simpl andb. cbv iota. rewrite (gt_truthy _ Hpos). reflexivity. }
    reflexivity. }
  match goal with
  | |- context [start_countdown ?a ?b ?c ?d ?e ?f ?g] =>
      pose proof (start_countdown_armed a b c d e f g Hpos) as H;
      destruct (start_countdown a b c d e f g) as [[s' l'] evs]
  end.
  cbn [tournamentState loop]. exists s'.
  split; [eapply reg_get_set_eq; eauto|]. apply H.
Qed.

(** X18.  Without a current question the timer cannot be set: when
    [currentQuestionUid] is unset or names no question of the session, a
    non-zero [setTimer] only cancels the session's timers; flags, duration,
    start time stay and nothing is sent. *)
Theorem setTimer_without_question
    (now : Z) (code : string) (timeLeft : option jsnum) (fa : bool)
    (w : World) (s : State) (qs : list Question) :
  reg_get code (tournamentState w) = Some s ->
  isDiffered s = false -> arg_is_zero timeLeft = false ->
  questions s = Some qs ->
  (truthy_str (currentQuestionUid s) = false
   \/ find_question (currentQuestionUid s) qs = None) ->
  triggerTournamentTimerSet now code timeLeft fa w
  = (mkWorld (reg_set code (fst (clearTimers s (loop w))) (tournamentState w))
       (snd (clearTimers s (loop w))), [])
  /\ timers_cancelled s (fst (clearTimers s (loop w))) (snd (clearTimers s (loop w)))
  /\ fst (clearTimers s (loop w))
     = set__timerRef None (set_intervalTimer None (set_timer None s)).
Proof.
  intros Hget Hd Hz Hq Hno.
  split; [|split; [apply clearTimers_cancels|apply clearTimers_fst]].
  unfold triggerTournamentTimerSet, on_session. rewrite Hget.
  unfold timerSet_on. rewrite Hd, Hz. simpl andb. cbv iota.
  rewrite (clearTimers_pair s (loop w)) at 1. cbv zeta.
  pose proof (clearTimers_fst s (loop w)) as E.
  destruct (clearTimers s (loop w)) as [s1 l1]. simpl fst in *. simpl snd. subst s1.
  flat. destruct Hno as [Hu|Hf].
  - rewrite Hu. reflexivity.
  - destruct (negb (truthy_str (currentQuestionUid s))); [reflexivity|].
    rewrite Hq, Hf. reflexivity.
Qed.

(** ** No orphan timers *)

Lemma In_filter_handle h (xs : list (nat * jsnum)) e :
  In e (List.filter (fun e => negb (handle_eqb h e)) xs) -> In e xs /\ fst e <> h.
Proof.
  rewrite filter_In. intros [Hin Hne]. split; [exact Hin|].
  apply negb_true_iff in Hne. unfold handle_eqb in Hne.
  apply Nat.eqb_neq in Hne. congruence.
Qed.

Lemma clearTimers_owned s l :
  (forall h d, In (h, d) (timeouts (snd (clearTimers s l))) ->
     In (h, d) (timeouts l) /\ timer s <> Some h)
  /\ (forall h r, In (h, r) (intervals (snd (clearTimers s l))) ->
     In (h, r) (intervals l) /\ intervalTimer s <> Some h).
Proof.
  destruct s. unfold clearTimers. cbn.
  repeat match goal with
         | |- context [match ?x with Some _ => _ | None => _ end] => destruct x; cbn
         end;
    split; intros h d Hin;
    repeat match goal with
           | H : In _ (List.filter _ _) |- _ => apply In_filter_handle in H; destruct H
           end;
    simpl in *; split; auto; congruence.
Qed.

Lemma owned_step_keep s s' l :
  timer s' = timer s -> intervalTimer s' = intervalTimer s -> owned_step s s' l l.
Proof.
  intros Ht Hi. split; intros h d Hin.
  - rewrite Ht. destruct (decide (timer s = Some h)); auto.
  - rewrite Hi. destruct (decide (intervalTimer s = Some h)); auto.
Qed.

Lemma owned_step_cleared s s' l l' :
  timeouts l' = timeouts (snd (clearTimers s l)) ->
  intervals l' = intervals (snd (clearTimers s l)) ->
  owned_step s s' l l'.
Proof.
  intros Ht Hi. destruct (clearTimers_owned s l) as [A B].
  split; intros h d Hin; right; [apply A|apply B]; congruence.
Qed.

Lemma owned_step_armed s s' l l' t d :
  timer s' = Some (S (nextHandle (snd (clearTimers s l)))) ->
  intervalTimer s' = Some (nextHandle (snd (clearTimers s l))) ->
  timeouts l'
  = timeouts (snd (clearTimers s l)) ++ [(S (nextHandle (snd (clearTimers s l))), d)] ->
  intervals l'
  = intervals (snd (clearTimers s l)) ++ [(nextHandle (snd (clearTimers s l)), t)] ->
  owned_step s s' l l'.
Proof.
  intros Ht Hi Hto Hiv. destruct (clearTimers_owned s l) as [A B].
  split; intros h x Hin.
  - rewrite Hto in Hin. apply in_app_or in Hin. destruct Hin as [Hin|[Hin|[]]].
    + right. apply A. exact Hin.
    + left. injection Hin as <- _. exact Ht.
  - rewrite Hiv in Hin. apply in_app_or in Hin. destruct Hin as [Hin|[Hin|[]]].
    + right. apply B. exact Hin.
    + left. injection Hin as <- _. exact Hi.
Qed.

Lemma start_countdown_shape now code fa qs t s l :
  let '(s', l', _) := start_countdown now code fa qs t s l in
  (timer s' = timer s /\ intervalTimer s' = intervalTimer s /\ l' = l)
  \/ (timer s' = Some (S (nextHandle l)) /\ intervalTimer s' = Some (nextHandle l)
      /\ timeouts l' = timeouts l ++ [(S (nextHandle l), mul t (ofZ 1000))]
      /\ intervals l' = intervals l ++ [(nextHandle l, t)]).
Proof.
  unfold start_countdown. destruct (le t (ofZ 0)); [left; auto|].
  right. cbv zeta. unfold setInterval, setTimeout. flat.
  cbn [nextHandle timeouts intervals]. auto.
Qed.

Ltac countdown_owned :=
  match goal with
  | |- context [start_countdown ?a ?b ?c ?d ?e ?f ?g] =>
      let H := fresh "H" in
      pose proof (start_countdown_shape a b c d e f g) as H;
      destruct (start_countdown a b c d e f g) as [[? ?] ?];
      cbn [fst snd]; flat;
      destruct H as [(? & ? & ->)|(? & ? & ? & ?)];
      [ apply owned_step_cleared; reflexivity
      | eapply owned_step_armed; eassumption ]
  end.

Lemma timerSet_on_owned now code timeLeft fa s l :
  owned_step s (fst (fst (timerSet_on now code timeLeft fa s l))) l
    (snd (fst (timerSet_on now code timeLeft fa s l))).
Proof.
  unfold timerSet_on.
  destruct (isDiffered s); [apply owned_step_keep; reflexivity|].
  destruct (arg_is_zero timeLeft && stopped s); [apply owned_step_keep; reflexivity|].
  rewrite (clearTimers_pair s l). cbv zeta.
  destruct (arg_is_zero timeLeft); [apply owned_step_cleared; reflexivity|].
  destruct (negb (truthy_str _)); [apply owned_step_cleared; reflexivity|].
  rewrite clearTimers_fst. flat.
  destruct (questions s) as [qs|]; [|apply owned_step_cleared; reflexivity].
  destruct (find_question (currentQuestionUid s) qs) as [q|];
    [|apply owned_step_cleared; reflexivity].
  destruct (fa && paused _ && pausedRemaining_positive _); cbv iota beta;
    destruct fa; simpl negb; cbv iota; flat;
    try countdown_owned;
    destruct (stopped s); try (apply owned_step_cleared; reflexivity);
    destruct (paused s); try (apply owned_step_cleared; reflexivity);
    countdown_owned.
Qed.

Lemma pause_on_owned now code rt s l :
  owned_step s (fst (fst (pause_on now code rt s l))) l
    (snd (fst (pause_on now code rt s l))).
Proof.
  unfold pause_on.
  destruct (isDiffered s || paused s || stopped s);
    [apply owned_step_keep; reflexivity|].
  rewrite (clearTimers_pair s l). apply owned_step_cleared; reflexivity.
Qed.

Lemma reg_set_In_new code s s' r :
  reg_get code r = Some s -> exists k, In (k, s') (reg_set code s' r).
Proof.
  induction r as [|[k x] r IH]; simpl; [discriminate|].
  destruct (String.eqb k code).
  - intros _. exists k. left. reflexivity.
  - intros H. destruct (IH H) as [k' Hk']. exists k'. right. exact Hk'.
Qed.

Lemma reg_set_In_other code s s' r c s0 :
  reg_get code r = Some s -> In (c, s0) r -> s0 <> s ->
  In (c, s0) (reg_set code s' r).
Proof.
  induction r as [|[k x] r IH]; simpl; [discriminate|].
  destruct (String.eqb k code).
  - intros [= <-] [H|H] Hne; [congruence|right; exact H].
  - intros Hg [H|H] Hne; [left; exact H|right; auto].
Qed.

Lemma reg_set_owned code s s' r l l' :
  timers_owned (mkWorld r l) -> reg_get code r = Some s ->
  owned_step s s' l l' -> timers_owned (mkWorld (reg_set code s' r) l').
Proof.
  intros [Ho1 Ho2] Hget [Hs1 Hs2]. split; cbn [loop tournamentState] in *.
  - intros h d Hin. destruct (Hs1 h d Hin) as [Hnew|[Hold Hne]].
    + destruct (reg_set_In_new code s s' r Hget) as [k Hk]. eauto.
    + destruct (Ho1 h d Hold) as (c & s0 & Hc & Ht).
      exists c, s0. split; [|exact Ht].
      eapply reg_set_In_other; eauto. congruence.
  - intros h d Hin. destruct (Hs2 h d Hin) as [Hnew|[Hold Hne]].
    + destruct (reg_set_In_new code s s' r Hget) as [k Hk]. eauto.
    + destruct (Ho2 h d Hold) as (c & s0 & Hc & Ht).
      exists c, s0. split; [|exact Ht].
      eapply reg_set_In_other; eauto. congruence.
Qed.

Lemma on_session_owned code f w :
  (forall s l, owned_step s (fst (fst (f s l))) l (snd (fst (f s l)))) ->
  timers_owned w -> timers_owned (fst (on_session code f w)).
Proof.
  intros Hf Hw. unfold on_session.
  destruct (reg_get code (tournamentState w)) as [s|] eqn:E; [|exact Hw].
  pose proof (Hf s (loop w)) as Hs.
  destruct (f s (loop w)) as [[s' l'] evs]. cbn [fst snd] in *.
  destruct w as [r l]. eapply reg_set_owned; eauto.
Qed.

Lemma step_owned cs w ta : timers_owned w -> timers_owned (fst (step cs w ta)).
Proof.
  intros Hw. destruct ta as [now [sock code quid a|code i quiz it tg|code tl fa|code rt]];
    cbn [step].
  - unfold handleTournamentAnswer.
    destruct (resolve code sock (tournamentState w)) as [[[k s] j]|] eqn:R;
      [|exact Hw].
    pose proof (answer_on_frame cs now j quid a s) as F.
    destruct (answer_on cs now j quid a s) as [[s' evs] out]. cbn [fst] in *.
    destruct w as [r l]. cbn [tournamentState loop] in *.
    eapply reg_set_owned; [exact Hw|eapply resolve_get; exact R|].
    apply owned_step_keep; rewrite F; reflexivity.
  - apply on_session_owned; [|exact Hw]. intros s l.
    pose proof (setQuestion_on_frame code i quiz it tg s) as F.
    destruct (setQuestion_on code i quiz it tg s) as [s' evs]. cbn [fst snd] in *.
    apply owned_step_keep; rewrite F; reflexivity.
  - apply on_session_owned; [|exact Hw]. intros s l. apply timerSet_on_owned.
  - apply on_session_owned; [|exact Hw]. intros s l. apply pause_on_owned.
Qed.

(** X19.  The controller leaves no orphan timer behind: along any run of
    answers, question settings, timer settings and pauses, every pending
    timeout is the [timer] of a registered session and every pending interval
    the [intervalTimer] of one, provided this held at the start. *)
Theorem no_orphan_timers
    (calculateScore : Question -> Answer -> Z -> nat -> jsnum)
    (w : World) (tr : list (Z * Action)) :
  timers_owned w -> timers_owned (run calculateScore w tr).
Proof.
  revert w. induction tr as [|ta tr IH]; intros w Hw; simpl; [exact Hw|].
  apply IH. apply step_owned. exact Hw.
Qed.

(** ** Pause and resume together *)



(** X21.  The guard that makes a resume ignore the caller's [timeLeft] only
    holds while the stored remaining time is positive: on a session paused
    with no remaining time left (0, or none stored), a forced timer set with
    a positive [timeLeft] starts a countdown of [timeLeft]. *)
Theorem resume_from_zero_uses_timeLeft
    (now : Z) (code : string) (t : jsnum) (w : World) (s : State) :
  reg_get code (tournamentState w) = Some s ->
  isDiffered s = false -> has_current_question s ->
  paused s = true -> pausedRemaining_positive s = false ->
  gt t (ofZ 0) = true ->
  let '(w', evs) := triggerTournamentTimerSet now code (Some t) true w in
  exists s',
    reg_get code (tournamentState w') = Some s'
    /\ countdown_armed now t (snd (clearTimers s (loop w))) s' (loop w').
Proof.
  intros Hget Hd (qs & q & Hu & Hq & Hf) Hp Hz Hpos.
  unfold triggerTournamentTimerSet, on_session. rewrite Hget.
  rewrite (timerSet_on_forced now code t s (loop w) qs q) by
    (try assumption; rewrite Hz; apply andb_false_r).
  match goal with
  | |- context [start_countdown ?a ?b ?c ?d ?e ?f ?g] =>
      pose proof (start_countdown_armed a b c d e f g Hpos) as H;
      destruct (start_countdown a b c d e f g) as [[s' l'] evs]
  end.
  cbn [tournamentState loop]. exists s'.
  split; [eapply reg_get_set_eq; eauto|]. apply H.
Qed.

(** X22.  The remaining time a pause stores is the calculated one rounded to
    a multiple of 0.1 s: never negative, and at most 0.05 s away from the
    calculated value (the override when positive, else the duration minus the
    elapsed time, floored at 0). *)
Theorem pause_rounds_to_tenths
    (now : Z) (code : string) (remainingTime : option jsnum) (w : World) (s : State) :
  reg_get code (tournamentState w) = Some s ->
  isDiffered s = false -> in_state s Active -> countdown_started s ->
  exists (x : Q) (n : Z) (s' : State),
    calculatedRemainingTime now remainingTime s = Num x
    /\ reg_get code
         (tournamentState (fst (triggerTournamentPause now code remainingTime w)))
       = Some s'
    /\ pausedRemainingTime s' = Some (Num (n # 10))
    /\ 0 <= n
    /\ (x - (1 # 20) <= n # 10)%Q /\ (n # 10 <= x + (1 # 20))%Q.
Proof.
  intros Hget Hd [Hp Hs] [[t Ht] [d Hdur]].
  assert (exists x, calculatedRemainingTime now remainingTime s = Num x /\ (0 <= x)%Q)
    as (x & Hx & Hx0).
  { unfold calculatedRemainingTime.
    assert (exists x, max0 (sub (duration_num s) (elapsed_seconds now s)) = Num x
                      /\ (0 <= x)%Q) as Hc.
    { unfold duration_num, elapsed_seconds. rewrite Ht, Hdur. simpl.
      match goal with |- context [Qle_bool ?a ?b] => destruct (Qle_bool a b) eqn:E end.
      - eexists. split; [reflexivity|]. apply Qle_bool_iff. exact E.
      - exists 0%Q. split; [reflexivity|]. apply Qle_refl. }
    destruct remainingTime as [[|r]|]; try exact Hc.
    simpl. destruct (Qle_bool r (inject_Z 0)) eqn:E; simpl; [exact Hc|].
    exists r. split; [reflexivity|].
    apply Qlt_le_weak. apply (Qnot_le_lt r (inject_Z 0)). intros H.
    apply Qle_bool_iff in H. congruence. }
  destruct (toFixed1_close x Hx0) as (n & Hn & Hn0 & Hlo & Hhi).
  exists x, n. eexists. split; [exact Hx|].
  unfold triggerTournamentPause. rewrite (on_session_get _ _ _ _ Hget).
  rewrite (pause_on_active _ _ _ _ _ Hd Hp Hs). cbv zeta. cbn [fst].
  split; [reflexivity|]. flat.
  unfold pause_stores_valid. rewrite <- calculated_valid, Hx, Hn. auto.
Qed.

(** ** The deprecated resume *)

(** X23.  [triggerTournamentResume] does nothing unless the session exists
    and is paused; it resumes a paused session like a forced timer set with
    the stored remaining time; and since it passes that time as [timeLeft],
    a session paused with exactly 0 s left is stopped by it, not resumed. *)
Theorem resume_deprecated (now : Z) (code : string) (w : World) :
  (forall s, reg_get code (tournamentState w) = Some s -> paused s = false ->
     triggerTournamentResume now code w = (w, []))
  /\ (reg_get code (tournamentState w) = None ->
      triggerTournamentResume now code w = (w, []))
  /\ (forall s r, reg_get code (tournamentState w) = Some s -> paused s = true ->
        isDiffered s = false -> has_current_question s ->
        pausedRemainingTime s = Some r -> gt r (ofZ 0) = true ->
        exists s',
          reg_get code (tournamentState (fst (triggerTournamentResume now code w)))
          = Some s'
          /\ in_state s' Active /\ currentQuestionDuration s' = Some r
          /\ questionStart s' = Some now)
  /\ (forall s r, reg_get code (tournamentState w) = Some s -> paused s = true ->
        isDiffered s = false -> stopped s = false ->
        pausedRemainingTime s = Some r -> is_zero r = true ->
        exists s',
          reg_get code (tournamentState (fst (triggerTournamentResume now code w)))
          = Some s'
          /\ in_state s' Stopped /\ paused s' = false).
Proof.
  unfold triggerTournamentResume. split; [|split; [|split]].
  - intros s -> ->. reflexivity.
  - intros ->. reflexivity.
  - intros s r Hget Hp Hd Hq Hr Hpos. rewrite Hget, Hp, Hr.
    unfold triggerTournamentTimerSet. rewrite (on_session_get _ _ _ _ Hget).
    assert (arg_is_zero (Some r) = false) as Hz
      by (apply truthy_not_zero, gt_truthy; exact Hpos).
    destruct (timerSet_on_resume now code (Some r) s (loop w) r Hd Hz Hq Hp Hr Hpos)
      as (A & B & C & D).
    eexists. split; [reflexivity|]. split; [split; assumption|]. auto.
  - intros s r Hget Hp Hd Hs Hr Hz. rewrite Hget, Hp, Hr.
    unfold triggerTournamentTimerSet. rewrite (on_session_get _ _ _ _ Hget).
    rewrite (timerSet_on_stop now code r true s (loop w) Hd Hs Hz). cbv zeta.
    cbn [fst]. eexists. split; [reflexivity|]. unfold in_state. flat. auto.
Qed.

(** ** The callbacks of a countdown *)

Lemma interval_var_set h r l r0 :
  interval_var h l = Some r0 -> interval_var h (set_interval_var h r l) = Some r.
Proof.
  unfold interval_var, set_interval_var. cbn [intervals].
  induction (intervals l) as [|e es IH]; simpl; [discriminate|].
  destruct (handle_eqb h e) eqn:E; simpl.
  - intros _. unfold handle_eqb in *. simpl. rewrite E. reflexivity.
  - rewrite E. exact IH.
Qed.

Lemma interval_var_not_pending h l :
  pending_interval h l = false -> interval_var h l = None.
Proof.
  unfold pending_interval, interval_var.
  induction (intervals l) as [|e es IH]; simpl; [reflexivity|].
  destruct (handle_eqb h e); simpl; [discriminate|exact IH].
Qed.

Lemma tick_running handler code h w s x :
  reg_get code (tournamentState w) = Some s ->
  paused s = false -> stopped s = false ->
  interval_var h (loop w) = Some (Num x) ->
  (1 < x)%Q ->
  intervalCallback handler code h w
  = (mkWorld (tournamentState w) (set_interval_var h (Num (x - inject_Z 1)) (loop w)),
     [Emit (live code) (tournament_set_timer (Num (x - inject_Z 1)) "active")]).
Proof.
  intros Hget Hp Hs Hv Hx. unfold intervalCallback.
  rewrite Hget, Hv, Hp, Hs. simpl orb. cbv iota. unfold ofZ, sub, le, max0.
  assert (0 < x - inject_Z 1)%Q as Hpos.
  { rewrite <- (Qplus_opp_r (inject_Z 1)). apply Qplus_lt_l. exact Hx. }
  assert (Qle_bool (x - inject_Z 1) (inject_Z 0) = false) as ->.
  { apply not_true_is_false. intros H. apply Qle_bool_iff in H.
    exact (Qlt_not_le _ _ Hpos H). }
  assert (Qle_bool 0 (x - inject_Z 1) = true) as ->.
  { apply Qle_bool_iff. apply Qlt_le_weak. exact Hpos. }
  reflexivity.
Qed.

Lemma tick_expiring handler code h w s x :
  reg_get code (tournamentState w) = Some s ->
  paused s = false -> stopped s = false ->
  interval_var h (loop w) = Some (Num x) ->
  (x == 1)%Q ->
  exists y,
    (y == 0)%Q
    /\ intervalCallback handler code h w
       = (handler code
            (mkWorld (reg_set code (set_intervalTimer None s) (tournamentState w))
               (match intervalTimer s with
                | Some hi => clearInterval hi
                               (set_interval_var h (Num (x - inject_Z 1)) (loop w))
                | None => set_interval_var h (Num (x - inject_Z 1)) (loop w)
                end)),
          [Emit (live code) (tournament_set_timer (Num y) "active");
           HandleTimerExpiration code]).
Proof.
  intros Hget Hp Hs Hv Hx. unfold intervalCallback.
  rewrite Hget, Hv, Hp, Hs. simpl orb. cbv iota. unfold ofZ, sub, le, max0.
  assert (x - inject_Z 1 == 0)%Q as Hz by (rewrite Hx; reflexivity).
  assert (Qle_bool (x - inject_Z 1) (inject_Z 0) = true) as ->.
  { apply Qle_bool_iff. rewrite Hz. apply Qle_refl. }
  assert (Qle_bool 0 (x - inject_Z 1) = true) as ->.
  { apply Qle_bool_iff. rewrite Hz. apply Qle_refl. }
  exists (x - inject_Z 1)%Q. split; [exact Hz|]. reflexivity.
Qed.

Lemma ticks_run handler code h s (n : nat) : forall w x,
  reg_get code (tournamentState w) = Some s ->
  paused s = false -> stopped s = false ->
  interval_var h (loop w) = Some (Num x) ->
  (x == inject_Z (Z.of_nat (S n)))%Q ->
  exists w1 evs y,
    ticks handler code h (S n) w
    = (handler code w1,
       evs ++ [Emit (live code) (tournament_set_timer (Num y) "active");
               HandleTimerExpiration code])
    /\ (y == 0)%Q
    /\ length evs = n
    /\ Forall (fun e => exists z, e = Emit (live code) (tournament_set_timer (Num z) "active")
                                  /\ (0 < z)%Q) evs
    /\ tournamentState w1 = reg_set code (set_intervalTimer None s) (tournamentState w)
    /\ timeouts (loop w1) = timeouts (loop w).
Proof.
  induction n as [|n IH]; intros w x Hget Hp Hs Hv Hx.
  - destruct (tick_expiring handler code h w s x Hget Hp Hs Hv Hx) as (y & Hy & E).
    simpl ticks. rewrite E. eexists _, [], y. split; [rewrite app_nil_r; reflexivity|].
    split; [exact Hy|]. split; [reflexivity|]. split; [constructor|].
    cbn [tournamentState loop]. split; [reflexivity|].
    destruct (intervalTimer s); reflexivity.
  - assert (1 < x)%Q as Hgt.
    { rewrite Hx. change 1%Q with (inject_Z 1). rewrite <- Zlt_Qlt. lia. }
    pose proof (tick_running handler code h w s x Hget Hp Hs Hv Hgt) as E.
    change (ticks handler code h (S (S n)) w)
      with (let '(w1, evs1) := intervalCallback handler code h w in
            let '(w2, evs2) := ticks handler code h (S n) w1 in (w2, evs1 ++ evs2)).
    rewrite E.
    destruct (IH (mkWorld (tournamentState w)
                    (set_interval_var h (Num (x - inject_Z 1)) (loop w)))
                 (x - inject_Z 1)%Q) as (w1 & evs & y & E' & Hy & Hlen & Hall & Hts & Hto);
      try assumption.
    + cbn [loop]. eapply interval_var_set. exact Hv.
    + rewrite Hx. unfold Qeq, Qminus, Qplus, Qopp, inject_Z. cbn [Qnum Qden]. lia.
    + rewrite E'. eexists w1, (_ :: evs), y. split; [reflexivity|].
      split; [exact Hy|]. split; [simpl; congruence|]. split.
      * constructor; [|exact Hall]. eexists. split; [reflexivity|].
        rewrite <- (Qplus_opp_r (inject_Z 1)). apply Qplus_lt_l. exact Hgt.
      * split; [exact Hts|exact Hto].
Qed.

(** X24.  A countdown of [n] whole seconds on a session that stays active:
    the interval's first [n - 1] firings each send the live room a positive
    remaining time and nothing else happens; the [n]-th sends 0, clears the
    session's interval handle and calls expiration handling, once.  The
    deadline timeout is never touched by the interval. *)
Theorem countdown_ticks
    (handleTimerExpiration : string -> World -> World)
    (code : string) (h : nat) (w : World) (s : State) (n : nat) :
  reg_get code (tournamentState w) = Some s ->
  paused s = false -> stopped s = false ->
  interval_var h (loop w) = Some (ofZ (Z.of_nat (S n))) ->
  exists w1 evs y,
    ticks handleTimerExpiration code h (S n) w
    = (handleTimerExpiration code w1,
       evs ++ [Emit (live code) (tournament_set_timer (Num y) "active");
               HandleTimerExpiration code])
    /\ (y == 0)%Q
    /\ length evs = n
    /\ Forall (fun e => exists z, e = Emit (live code) (tournament_set_timer (Num z) "active")
                                  /\ (0 < z)%Q) evs
    /\ tournamentState w1 = reg_set code (set_intervalTimer None s) (tournamentState w)
    /\ timeouts (loop w1) = timeouts (loop w).
Proof.
  intros Hget Hp Hs Hv.
  apply (ticks_run handleTimerExpiration code h s n w (inject_Z (Z.of_nat (S n))));
    try assumption.
  reflexivity.
Qed.

(** X25.  A timer that fires on a paused or stopped session never expires
    the question: the interval callback only clears the session's interval,
    the deadline callback does nothing; neither sends anything nor calls
    expiration handling (the result does not depend on the handler). *)
Theorem callbacks_idle_when_not_active
    (handler1 handler2 : string -> World -> World)
    (code : string) (h : nat) (w : World) (s : State) :
  reg_get code (tournamentState w) = Some s ->
  (paused s = true \/ stopped s = true) ->
  intervalCallback handler1 code h w = intervalCallback handler2 code h w
  /\ timeoutCallback handler1 code h w = timeoutCallback handler2 code h w
  /\ snd (intervalCallback handler1 code h w) = []
  /\ snd (timeoutCallback handler1 code h w) = []
  /\ tournamentState (fst (timeoutCallback handler1 code h w)) = tournamentState w
  /\ (forall s', reg_get code (tournamentState (fst (intervalCallback handler1 code h w)))
                 = Some s' ->
        s' = s \/ s' = set_intervalTimer None s).
Proof.
  intros Hget Hidle.
  assert (paused s || stopped s = true) as Hb
    by (destruct Hidle as [-> | ->]; [reflexivity|apply orb_true_r]).
  unfold intervalCallback, timeoutCallback. rewrite Hget, Hb.
  split; [reflexivity|]. split; [reflexivity|].
  split; [destruct (interval_var h (loop w)); reflexivity|].
  split; [destruct (pending_timeout h (loop w)); reflexivity|].
  split; [destruct (pending_timeout h (loop w)); reflexivity|].
  intros s'. destruct (interval_var h (loop w)).
  - unfold drop_interval. cbn [fst tournamentState].
    rewrite (reg_get_set_eq _ _ _ _ Hget). intros [= <-]. auto.
  - cbn [fst]. rewrite Hget. intros [= <-]. auto.
Qed.

(** X26.  When the deadline fires first on an active session, it cancels the
    interval before expiration handling is entered: the world handed to the
    handler has neither the deadline nor the session's interval pending, and
    a later firing of that interval does nothing at all. *)
Theorem deadline_first_cancels_interval
    (handleTimerExpiration : string -> World -> World)
    (code : string) (h hi : nat) (w : World) (s : State) :
  reg_get code (tournamentState w) = Some s ->
  paused s = false -> stopped s = false ->
  pending_timeout h (loop w) = true ->
  intervalTimer s = Some hi ->
  exists w1,
    timeoutCallback handleTimerExpiration code h w
    = (handleTimerExpiration code w1, [HandleTimerExpiration code])
    /\ pending_timeout h (loop w1) = false
    /\ pending_interval hi (loop w1) = false
    /\ intervalCallback handleTimerExpiration code hi w1 = (w1, []).
Proof.
  intros Hget Hp Hs Hpend Hi. unfold timeoutCallback.
  rewrite Hpend, Hget, Hp, Hs, Hi. simpl orb. cbv iota.
  unfold drop_interval. rewrite Hi. cbv beta iota zeta.
  eexists. split; [reflexivity|]. cbn [loop].
  assert (pending_interval hi (clearInterval hi (clearTimeout h (loop w))) = false) as Hnp
    by apply existsb_filter_self.
  split; [apply (existsb_filter_self h)|]. split; [exact Hnp|].
  unfold intervalCallback. cbn [tournamentState loop].
  rewrite (reg_get_set_eq _ _ _ _ Hget), (interval_var_not_pending _ _ Hnp).
  reflexivity.
Qed.

(** ** Finalization *)

Lemma reg_get_delete_ne code key r :
  key <> code -> reg_get key (reg_delete code r) = reg_get key r.
Proof.
  intros Hne. unfold reg_delete. induction r as [|[k x] r IH]; simpl; [reflexivity|].
  destruct (String.eqb_spec k code) as [->|Hk]; simpl.
  - destruct (String.eqb_spec code key); [congruence|exact IH].
  - destruct (String.eqb k key); [reflexivity|exact IH].
Qed.

(** X27.  A completed [forceTournamentEnd] (the leaderboard write went
    through) removes the session and only it: every other session is as
    before; and calling it again, whatever the store then answers, finds no
    session, changes nothing and emits nothing. *)
Theorem forceEnd_removes_session_once
    (computeLeaderboard : State -> gset string -> nat -> list LeaderboardEntry)
    (quizAskedQuestions : string -> option (gset string))
    (db db2 : Db) (code : string) (w : World) (s : State) :
  reg_get code (tournamentState w) = Some s ->
  questions s <> None ->
  update_rejects db = false ->
  let w' := fst (forceTournamentEnd computeLeaderboard quizAskedQuestions db code w) in
  reg_get code (tournamentState w') = None
  /\ (forall key, key <> code ->
        reg_get key (tournamentState w') = reg_get key (tournamentState w))
  /\ forceTournamentEnd computeLeaderboard quizAskedQuestions db2 code w' = (w', []).
Proof.
  intros Hget Hq Hu.
  destruct (forceEnd_questions computeLeaderboard quizAskedQuestions db code w s Hget)
    as (s1 & l1 & Hq1 & E).
  cbv zeta. rewrite E. rewrite Hq1. destruct (questions s) as [qs|]; [|contradiction].
  rewrite Hu. cbv zeta. cbn [fst tournamentState].
  assert (forall r, reg_get code (reg_delete code r) = None) as Hdel
    by (intros r; apply reg_get_delete).
  split; [apply Hdel|]. split.
  - intros key Hne. rewrite reg_get_delete_ne by exact Hne.
    apply reg_get_set_ne. congruence.
  - unfold forceTournamentEnd at 1. cbn [tournamentState]. rewrite Hdel. reflexivity.
Qed.

Lemma save_scores_durable db tid ps : forall p,
  In (DbSaveParticipantScore tid p) (fst (save_scores db tid ps)) ->
  In p ps /\ durable p = true /\ save_rejects db p = false.
Proof.
  induction ps as [|x ps IH]; intros p; simpl; [intros []|].
  destruct (durable x) eqn:D.
  - destruct (save_rejects db x) eqn:R; [intros []|].
    destruct (save_scores db tid ps) as [evs rej]. simpl in *.
    intros [[= <-]|H]; [auto|]. destruct (IH p H) as (A & B & C). auto.
  - intros H. destruct (IH p H) as (A & B & C). auto.
Qed.

Lemma save_scores_only_rows db tid ps e :
  In e (fst (save_scores db tid ps)) -> exists p, e = DbSaveParticipantScore tid p.
Proof.
  revert e. induction ps as [|x ps IH]; intros e; simpl; [intros []|].
  destruct (durable x).
  - destruct (save_rejects db x); [intros []|].
    destruct (save_scores db tid ps) as [evs rej]. simpl in *.
    intros [<-|H]; eauto.
  - apply IH.
Qed.

Lemma save_scores_all db tid ps :
  (forall p, In p ps -> save_rejects db p = false) ->
  save_scores db tid ps = (saved_rows tid ps, false).
Proof.
  unfold saved_rows. induction ps as [|x ps IH]; intros H; simpl; [reflexivity|].
  destruct (durable x).
  - rewrite (H x (or_introl eq_refl)). rewrite IH by (intros p Hp; apply H; right; exact Hp).
    reflexivity.
  - apply IH. intros p Hp. apply H. right. exact Hp.
Qed.

Lemma sync_askedQuestions_participants quizAskedQuestions s :
  participants (sync_askedQuestions quizAskedQuestions s) = participants s.
Proof.
  unfold sync_askedQuestions. destruct (linkedQuizId s) as [quiz|]; [|reflexivity].
  destruct (String.eqb quiz ""); [reflexivity|].
  destruct (quizAskedQuestions quiz); reflexivity.
Qed.

Lemma forceEnd_events computeLeaderboard quizAskedQuestions db code w s qs :
  reg_get code (tournamentState w) = Some s ->
  questions s = Some qs ->
  update_rejects db = false ->
  exists scaled,
    snd (forceTournamentEnd computeLeaderboard quizAskedQuestions db code w)
    = [DbUpdateTournoi code scaled; Emit (live code) (tournament_end scaled)]
      ++ match findUnique db with
         | None => [LogError "ForceEnd: error saving scores/updating tournament"]
         | Some None => []
         | Some (Some tournoiId) =>
             let '(evs, rejected) :=
               save_scores db tournoiId
                 (snd <$> map_to_list (apply_scaled scaled (participants s))) in
             evs ++ (if rejected
                     then [LogError "ForceEnd: error saving scores/updating tournament"]
                     else [])
         end
      ++ [Emit (live code) (tournament_finished_redirect code)].
Proof.
  intros Hget Hq Hu. unfold forceTournamentEnd. rewrite Hget.
  destruct (timer s) as [h|].
  - rewrite sync_askedQuestions_questions. flat. rewrite Hq, Hu. cbv zeta.
    flat. rewrite sync_askedQuestions_participants. flat. eexists. reflexivity.
  - rewrite sync_askedQuestions_questions, Hq, Hu. cbv zeta.
    flat. rewrite sync_askedQuestions_participants. eexists. reflexivity.
Qed.

Lemma apply_scaled_step (ps : gmap string Participant) e i :
  (match e_id e with
   | Some k => match ps !! k with
               | Some p => <[k := with_score (e_score e) p]> ps
               | None => ps
               end
   | None => ps
   end) !! i
  = (if bool_decide (e_id e = Some i) then with_score (e_score e) else fun p => p)
      <$> ps !! i.
Proof.
  destruct (e_id e) as [k|].
  - destruct (decide (k = i)) as [->|Hne].
    + rewrite bool_decide_eq_true_2 by reflexivity.
      destruct (ps !! i) as [p|] eqn:E.
      * rewrite lookup_insert_eq. reflexivity.
      * rewrite E. reflexivity.
    + rewrite bool_decide_eq_false_2 by congruence.
      destruct (ps !! k) as [p|].
      * rewrite lookup_insert_ne by exact Hne. destruct (ps !! i); reflexivity.
      * destruct (ps !! i); reflexivity.
  - rewrite bool_decide_eq_false_2 by discriminate. destruct (ps !! i); reflexivity.
Qed.

Lemma apply_scaled_lookup es : forall (ps : gmap string Participant) i,
  exists f : Participant -> Participant,
    apply_scaled es ps !! i = f <$> ps !! i
    /\ (forall p, exists v, f p = with_score v p)
    /\ ((forall e, In e es -> e_id e <> Some i) -> forall p, f p = p)
    /\ (forall e, NoDup (e_id <$> es) -> In e es -> e_id e = Some i ->
          forall p, f p = with_score (e_score e) p).
Proof.
  induction es as [|e es IH]; intros ps i.
  - exists (fun p => p). change (apply_scaled [] ps) with ps.
    split; [destruct (ps !! i); reflexivity|].
    split; [intros p; exists (score p); destruct p; reflexivity|].
    split; [reflexivity|]. intros e _ [].
  - change (apply_scaled (e :: es) ps)
      with (apply_scaled es
              (match e_id e with
               | Some k => match ps !! k with
                           | Some p => <[k := with_score (e_score e) p]> ps
                           | None => ps
                           end
               | None => ps
               end)).
    destruct (IH (match e_id e with
                  | Some k => match ps !! k with
                              | Some p => <[k := with_score (e_score e) p]> ps
                              | None => ps
                              end
                  | None => ps
                  end) i) as (f & Hf & Hscore & Hid & Hentry).
    rewrite apply_scaled_step in Hf.
    exists (fun p => f ((if bool_decide (e_id e = Some i)
                         then with_score (e_score e) else fun p => p) p)).
    split; [rewrite Hf; destruct (ps !! i); reflexivity|].
    split; [|split].
    + intros p. destruct (Hscore ((if bool_decide (e_id e = Some i)
                                   then with_score (e_score e) else fun p => p) p))
        as [v Hv].
      exists v. rewrite Hv. destruct (bool_decide (e_id e = Some i)); reflexivity.
    + intros Hno p. rewrite bool_decide_eq_false_2 by (apply Hno; left; reflexivity).
      apply Hid. intros e' He'. apply Hno. right. exact He'.
    + intros e' Hnd [<-|Hin] He' p.
      * rewrite bool_decide_eq_true_2 by exact He'.
        rewrite Hid; [reflexivity|].
        intros e'' Hin'' He''. inversion Hnd as [|x xs Hnotin Hnd']. subst.
        apply Hnotin. rewrite He', <- He''.
        apply list_elem_of_fmap. exists e''. split; [reflexivity|].
        apply list_elem_of_In. exact Hin''.
      * inversion Hnd as [|x xs Hnotin Hnd']. subst.
        assert (e_id e <> Some i) as Hne.
        { intros Heq. apply Hnotin. rewrite Heq, <- He'.
          apply list_elem_of_fmap. exists e'. split; [reflexivity|].
          apply list_elem_of_In. exact Hin. }
        rewrite bool_decide_eq_false_2 by exact Hne.
        apply Hentry; assumption.
Qed.

(** X28.  Which score rows finalization writes.  Whatever the store
    answers, a row is only ever written for a participant of the session
    that is not deferred and has a non-empty id not starting with
    [socket_], under the tournament id the store returned; and when the
    store accepts every write, the events are the leaderboard write, the
    [tournament_end] broadcast of the same leaderboard, one row for each such
    participant (with the score that leaderboard gave it) and no other, then
    the redirect. *)
Theorem forceEnd_saves_durable_participants
    (computeLeaderboard : State -> gset string -> nat -> list LeaderboardEntry)
    (quizAskedQuestions : string -> option (gset string))
    (db : Db) (code : string) (w : World) (s : State) (qs : list Question) :
  reg_get code (tournamentState w) = Some s ->
  questions s = Some qs ->
  update_rejects db = false ->
  let evs := snd (forceTournamentEnd computeLeaderboard quizAskedQuestions db code w) in
  (forall tid p, In (DbSaveParticipantScore tid p) evs ->
     findUnique db = Some (Some tid) /\ durable p = true
     /\ exists i p0, participants s !! i = Some p0 /\ p = with_score (score p) p0)
  /\ (forall tid, findUnique db = Some (Some tid) ->
        (forall p, save_rejects db p = false) ->
        exists scaled,
          evs = [DbUpdateTournoi code scaled; Emit (live code) (tournament_end scaled)]
                ++ saved_rows tid
                     (snd <$> map_to_list (apply_scaled scaled (participants s)))
                ++ [Emit (live code) (tournament_finished_redirect code)]).
Proof.
  intros Hget Hq Hu. cbv zeta.
  destruct (forceEnd_events computeLeaderboard quizAskedQuestions db code w s qs Hget Hq Hu)
    as (scaled & ->).
  split.
  - intros tid p Hin. simpl in Hin. destruct Hin as [H|[H|Hin]]; try discriminate.
    apply in_app_or in Hin. destruct Hin as [Hin|[H|[]]]; [|discriminate].
    destruct (findUnique db) as [[tid'|]|]; [|destruct Hin|destruct Hin as [H|[]]; discriminate].
    destruct (save_scores db tid' _) as [evs rej] eqn:S.
    apply in_app_or in Hin. destruct Hin as [Hin|Hin].
    + assert (In (DbSaveParticipantScore tid p) (fst (save_scores db tid'
                (snd <$> map_to_list (apply_scaled scaled (participants s))))))
        as Hin' by (rewrite S; exact Hin).
      destruct (save_scores_only_rows _ _ _ _ Hin') as (p' & [= -> ->]).
      destruct (save_scores_durable _ _ _ _ Hin') as (A & B & _).
      split; [reflexivity|]. split; [exact B|].
      apply list_elem_of_In, list_elem_of_fmap in A. destruct A as ([i p1] & -> & A).
      apply elem_of_map_to_list in A. cbn [snd].
      destruct (apply_scaled_lookup scaled (participants s) i) as (f & Hf & Hscore & _).
      rewrite A in Hf. destruct (participants s !! i) as [p0|] eqn:E; [|discriminate].
      simpl in Hf. injection Hf as ->. exists i, p0. split; [exact E|].
      cbn [snd]. destruct (Hscore p0) as [v ->]. destruct p0; reflexivity.
    + destruct rej; [destruct Hin as [H|[]]; discriminate|destruct Hin].
  - intros tid Hf Hok. rewrite Hf.
    rewrite save_scores_all by (intros p _; apply Hok).
    rewrite app_nil_r. eexists. reflexivity.
Qed.

(** X29.  Writing the scaled leaderboard back onto the participants changes
    scores only: nobody is added or removed, every participant keeps its id,
    pseudo, avatar, per-question scores and deferred flag; a participant that
    the leaderboard does not list keeps its score; and when the leaderboard's
    ids are distinct, a listed participant gets exactly its entry's score. *)
Theorem scaled_scores_written_back
    (entries : list LeaderboardEntry) (ps : gmap string Participant) (i : string) :
  (apply_scaled entries ps !! i = None <-> ps !! i = None)
  /\ (forall p', apply_scaled entries ps !! i = Some p' ->
        exists p, ps !! i = Some p /\ p' = with_score (score p') p)
  /\ ((forall e, In e entries -> e_id e <> Some i) ->
      apply_scaled entries ps !! i = ps !! i)
  /\ (forall e p, NoDup (e_id <$> entries) -> In e entries -> e_id e = Some i ->
        ps !! i = Some p ->
        apply_scaled entries ps !! i = Some (with_score (e_score e) p)).
Proof.
  destruct (apply_scaled_lookup entries ps i) as (f & Hf & Hscore & Hid & Hentry).
  rewrite Hf. split; [|split; [|split]].
  - destruct (ps !! i); simpl; split; congruence.
  - intros p' H. destruct (ps !! i) as [p|]; [|discriminate].
    simpl in H. injection H as <-. exists p. split; [reflexivity|].
    destruct (Hscore p) as [v ->]. reflexivity.
  - intros Hno. destruct (ps !! i) as [p|]; [|reflexivity]. simpl.
    rewrite (Hid Hno). reflexivity.
  - intros e p Hnd Hin He ->. simpl. rewrite (Hentry e Hnd Hin He). reflexivity.
Qed.

Lemma forceEnd_loop computeLeaderboard quizAskedQuestions db code w :
  loop (fst (forceTournamentEnd computeLeaderboard quizAskedQuestions db code w))
  = match reg_get code (tournamentState w) with
    | Some s => match timer s with
                | Some h => clearTimeout h (loop w)
                | None => loop w
                end
    | None => loop w
    end.
Proof.
  unfold forceTournamentEnd.
  destruct (reg_get code (tournamentState w)) as [s|]; [|reflexivity].
  destruct (timer s) as [h|].
  - destruct (questions _); [|reflexivity]. cbv zeta.
    destruct (update_rejects db); reflexivity.
  - destruct (questions _); [|reflexivity]. cbv zeta.
    destruct (update_rejects db); reflexivity.
Qed.

(** X30.  Finalization cancels the session's deadline timeout but never its
    interval: whatever the store answers, the pending intervals are exactly
    those of before, also once the session has been removed from the
    registry, so an interval that was ticking stays armed without a session. *)
Theorem forceEnd_keeps_interval
    (computeLeaderboard : State -> gset string -> nat -> list LeaderboardEntry)
    (quizAskedQuestions : string -> option (gset string))
    (db : Db) (code : string) (w : World) :
  let w' := fst (forceTournamentEnd computeLeaderboard quizAskedQuestions db code w) in
  intervals (loop w') = intervals (loop w)
  /\ (forall s h, reg_get code (tournamentState w) = Some s -> timer s = Some h ->
        pending_timeout h (loop w') = false)
  /\ (forall s hi, reg_get code (tournamentState w) = Some s ->
        intervalTimer s = Some hi -> questions s <> None ->
        update_rejects db = false ->
        pending_interval hi (loop w) = true ->
        reg_get code (tournamentState w') = None
        /\ pending_interval hi (loop w') = true).
Proof.
  cbv zeta. rewrite forceEnd_loop.
  split; [|split].
  - destruct (reg_get code (tournamentState w)) as [s|]; [|reflexivity].
    destruct (timer s); reflexivity.
  - intros s h -> ->. apply (existsb_filter_self h).
  - intros s hi Hget Hi Hq Hu Hp.
    destruct (forceEnd_questions computeLeaderboard quizAskedQuestions db code w s Hget)
      as (s1 & l1 & Hq1 & E).
    rewrite E, Hq1. destruct (questions s); [|contradiction].
    rewrite Hu. cbv zeta. cbn [fst tournamentState].
    split; [apply reg_get_delete|].
    rewrite Hget. destruct (timer s); exact Hp.
Qed.

(** ** The properties above on the sample sessions *)

(** Carol's socket is unknown to the live session "T1" and resolves to her
    replay. *)
Lemma resolve_sound_witness :
  candidate_key "T1" "T1_carol"
  /\ reg_get "T1_carol" (tournamentState w_replay) = Some replay
  /\ socketToJoueur replay !! "sock_c" = Some "carol" /\ "carol" <> ""
  /\ (forall s0 j0, reg_get "T1" (tournamentState w_replay) = Some s0 ->
        joueur_of "sock_c" s0 = Some j0 ->
        "T1_carol" = "T1" /\ replay = s0 /\ "carol" = j0).
Proof.
  assert (resolve "T1" "sock_c" (tournamentState w_replay)
          = Some ("T1_carol", replay, "carol")) as R by (vm_compute; reflexivity).
  exact (resolve_sound "T1" "sock_c" (tournamentState w_replay) "T1_carol" replay
           "carol" R).
Defined.

(** Alice answers q1 one second into the countdown. *)
Lemma accepted_answer_is_stored_witness :
  exists s',
    reg_get "T1"
      (tournamentState
         (fst (fst (handleTournamentAnswer scorer 3000 "sock_a" "T1" "q1"
                      (pick 2 2900) w_started)))) = Some s'
    /\ answer_of s' "alice" "q1" = Some (pick 2 2900)
    /\ (forall j' q', (j', q') <> ("alice", "q1") ->
          answer_of s' j' q' = answer_of (session w_started) j' q')
    /\ (forall j', j' <> "alice" ->
          participants s' !! j' = participants (session w_started) !! j').
Proof.
  assert (resolve "T1" "sock_a" (tournamentState w_started)
          = Some ("T1", session w_started, "alice")) as R by (vm_compute; reflexivity).
  assert (snd (handleTournamentAnswer scorer 3000 "sock_a" "T1" "q1" (pick 2 2900)
                 w_started) = Accepted) as O by (vm_compute; reflexivity).
  exact (accepted_answer_is_stored scorer 3000 "sock_a" "T1" "q1" (pick 2 2900)
           w_started "T1" "alice" (session w_started) R O).
Defined.


Lemma answer_stats_are_percentages_witness :
  Forall is_percentage (fst (answer_stats q1 "q1" stored)).
Proof.
  apply (answer_stats_are_percentages q1 "q1" stored).
  intros j per_q a H1 H2. unfold stored in H1.
  apply lookup_singleton_Some in H1 as [_ <-].
  apply lookup_singleton_Some in H2 as [_ <-].
  unfold selects_once, ticked. cbn [answerIdx].
  apply NoDup_cons. split; [|apply NoDup_singleton].
  intros H. apply list_elem_of_singleton in H. discriminate.
Defined.

(** The target uid wins over the index. *)
Lemma setQuestion_by_uid_witness :
  let '(w', evs) := triggerTournamentQuestion "T1" (At 0) None None (Some "q2") w0 in
  let time := temps_or_default q2 in
  exists s',
    reg_get "T1" (tournamentState w') = Some s'
    /\ currentQuestionUid s' = Some "q2"
    /\ currentQuestionDuration s' = Some time
    /\ evs = [send_question "T1" q2 (findIndex (Some "q2") [q1; q2])
                (length [q1; q2]) time None].
Proof.
  assert (reg_get "T1" (tournamentState w0) = Some fresh) as G
    by (vm_compute; reflexivity).
  assert (questions fresh = Some [q1; q2]) as Q by (vm_compute; reflexivity).
  assert (truthy_str (Some "q2") = true) as T by (vm_compute; reflexivity).
  assert (find_question (Some "q2") [q1; q2] = Some q2) as F
    by (vm_compute; reflexivity).
  exact (setQuestion_by_uid "T1" (At 0) None None (Some "q2") w0 fresh [q1; q2] q2
           G Q T F).
Defined.

Lemma setQuestion_by_index_witness :
  let '(w', evs) := triggerTournamentQuestion "T1" (At 1) None None None w0 in
  let time := temps_or_default q2 in
  exists s',
    reg_get "T1" (tournamentState w') = Some s'
    /\ currentQuestionUid s' = Some (uid q2)
    /\ currentQuestionDuration s' = Some time
    /\ evs = [send_question "T1" q2 (Some 1) (length [q1; q2]) time None].
Proof.
  assert (reg_get "T1" (tournamentState w0) = Some fresh) as G
    by (vm_compute; reflexivity).
  assert (questions fresh = Some [q1; q2]) as Q by (vm_compute; reflexivity).
  assert (truthy_str None = false) as T by (vm_compute; reflexivity).
  assert (0 <= 1) as P by lia.
  assert (nth_error [q1; q2] (Z.to_nat 1) = Some q2) as N by (vm_compute; reflexivity).
  exact (setQuestion_by_index "T1" 1 None None None w0 fresh [q1; q2] q2 G Q T P N).
Defined.

(** An explicit [null], nothing at all, and -1 as index on the fresh session,
    which has two questions. *)
Lemma setQuestion_negative_index_witness :
  let after :=
    (mkWorld (reg_set "T1" (set_currentQuestionUid None
                              (set_linkedQuizId (Some "quiz-7") fresh))
                (tournamentState w0)) (loop w0), @nil Event) in
  triggerTournamentQuestion "T1" NullIndex (Some "quiz-7") None None w0 = after
  /\ triggerTournamentQuestion "T1" NoIndex (Some "quiz-7") None None w0 = after
  /\ triggerTournamentQuestion "T1" (At (-1)) (Some "quiz-7") None None w0 = after.
Proof.
  assert (reg_get "T1" (tournamentState w0) = Some fresh) as G
    by (vm_compute; reflexivity).
  assert (questions fresh = Some [q1; q2]) as Q by (vm_compute; reflexivity).
  assert (truthy_str None = false) as T by (vm_compute; reflexivity).
  assert (NullIndex = NoIndex
          \/ (NullIndex = NullIndex /\ [q1; q2] <> [])
          \/ exists i, NullIndex = At i /\ i < 0) as I1
    by (right; left; split; [reflexivity|discriminate]).
  assert (NoIndex = NoIndex
          \/ (NoIndex = NullIndex /\ [q1; q2] <> [])
          \/ exists i, NoIndex = At i /\ i < 0) as I2
    by (left; reflexivity).
  assert (At (-1) = NoIndex
          \/ (At (-1) = NullIndex /\ [q1; q2] <> [])
          \/ exists i, At (-1) = At i /\ i < 0) as I3
    by (right; right; exists (-1); split; [reflexivity|lia]).
  cbv zeta. split; [|split].
  - exact (proj1 (setQuestion_negative_index "T1" NullIndex (Some "quiz-7") None None w0
                    fresh [q1; q2] G Q T) I1).
  - exact (proj1 (setQuestion_negative_index "T1" NoIndex (Some "quiz-7") None None w0
                    fresh [q1; q2] G Q T) I2).
  - exact (proj1 (setQuestion_negative_index "T1" (At (-1)) (Some "quiz-7") None None w0
                    fresh [q1; q2] G Q T) I3).
Defined.

(** Stopping the started countdown. *)
Lemma stop_effect_witness :
  let '(w', evs) := triggerTournamentTimerSet 4000 "T1" (Some (ofZ 0)) false w_started in
  exists s',
    reg_get "T1" (tournamentState w') = Some s'
    /\ timers_cancelled (session w_started) s' (loop w')
    /\ stopped s' = true /\ paused s' = false
    /\ currentQuestionDuration s' = Some (ofZ 0)
    /\ pausedRemainingTime s' = None /\ pausedAt s' = None
    /\ currentQuestionUid s' = currentQuestionUid (session w_started)
    /\ questionStart s' = questionStart (session w_started)
    /\ answers s' = answers (session w_started)
    /\ participants s' = participants (session w_started)
    /\ evs = Emit (live "T1") (tournament_set_timer (ofZ 0) "stopped")
               :: stop_mirror 4000 s'
    /\ (truthy_str (linkedQuizId (session w_started)) = false ->
        stop_mirror 4000 s' = []).
Proof.
  assert (isDiffered (session w_started) = false) as D by (vm_compute; reflexivity).
  assert (stopped (session w_started) = false) as S by (vm_compute; reflexivity).
  assert (is_zero (ofZ 0) = true) as Z0 by (vm_compute; reflexivity).
  exact (stop_effect 4000 "T1" (ofZ 0) false w_started (session w_started)
           session_started D S Z0).
Defined.

Lemma session_stopped : reg_get "T1" (tournamentState w_stopped) = Some (session w_stopped).
Proof. vm_compute. reflexivity. Qed.

Lemma current_question_q1 (s : State) :
  truthy_str (currentQuestionUid s) = true ->
  questions s = Some [q1; q2] ->
  find_question (currentQuestionUid s) [q1; q2] = Some q1 ->
  has_current_question s.
Proof. intros H1 H2 H3. exists [q1; q2], q1. auto. Qed.

Lemma started_has_question : has_current_question (session w_started).
Proof. apply current_question_q1; vm_compute; reflexivity. Qed.

Lemma stopped_has_question : has_current_question (session w_stopped).
Proof. apply current_question_q1; vm_compute; reflexivity. Qed.

Lemma paused_has_question : has_current_question (session w_paused).
Proof. apply current_question_q1; vm_compute; reflexivity. Qed.

Lemma session_paused_out :
  reg_get "T1" (tournamentState w_paused_out) = Some (session w_paused_out).
Proof. vm_compute. reflexivity. Qed.

Lemma paused_out_has_question : has_current_question (session w_paused_out).
Proof. apply current_question_q1; vm_compute; reflexivity. Qed.

Lemma started_is_active : in_state (session w_started) Active.
Proof. split; vm_compute; reflexivity. Qed.

(** Editing the stopped timer to 15 s. *)
Lemma edit_stopped_stays_stopped_witness :
  let '(w', evs) := triggerTournamentTimerSet 5000 "T1" (Some (ofZ 15)) false w_stopped in
  exists s',
    reg_get "T1" (tournamentState w') = Some s'
    /\ stopped s' = true /\ paused s' = paused (session w_stopped)
    /\ currentQuestionDuration s' = Some (ofZ 15)
    /\ questionStart s' = questionStart (session w_stopped)
    /\ timers_cancelled (session w_stopped) s' (loop w')
    /\ nextHandle (loop w') = nextHandle (loop w_stopped)
    /\ evs = [Emit (live "T1") (tournament_set_timer (ofZ 15) "stopped")].
Proof.
  assert (isDiffered (session w_stopped) = false) as D by (vm_compute; reflexivity).
  assert (truthy (ofZ 15) = true) as T by (vm_compute; reflexivity).
  assert (stopped (session w_stopped) = true) as S by (vm_compute; reflexivity).
  exact (edit_stopped_stays_stopped 5000 "T1" (ofZ 15) w_stopped (session w_stopped)
           session_stopped D stopped_has_question T S).
Defined.

(** Editing the paused timer to 7 s. *)
Lemma edit_paused_stays_paused_witness :
  let '(w', evs) := triggerTournamentTimerSet 6000 "T1" (Some (ofZ 7)) false w_paused in
  exists s',
    reg_get "T1" (tournamentState w') = Some s'
    /\ paused s' = true /\ stopped s' = false
    /\ pausedRemainingTime s' = Some (ofZ 7)
    /\ currentQuestionDuration s' = Some (ofZ 7)
    /\ questionStart s' = questionStart (session w_paused)
    /\ timers_cancelled (session w_paused) s' (loop w')
    /\ nextHandle (loop w') = nextHandle (loop w_paused)
    /\ evs = Emit (live "T1") (tournament_set_timer (ofZ 7) "paused")
               :: pause_mirror 6000 s' (ofZ 7)
    /\ (mirrors_pause evs <-> truthy_str (linkedQuizId (session w_paused)) = true).
Proof.
  assert (isDiffered (session w_paused) = false) as D by (vm_compute; reflexivity).
  assert (truthy (ofZ 7) = true) as T by (vm_compute; reflexivity).
  assert (stopped (session w_paused) = false) as S by (vm_compute; reflexivity).
  assert (paused (session w_paused) = true) as P by (vm_compute; reflexivity).
  exact (edit_paused_stays_paused 6000 "T1" (ofZ 7) w_paused (session w_paused)
           session_paused D paused_has_question T S P).
Defined.

(** The running countdown edited to 30 s. *)
Lemma positive_timeLeft_starts_countdown_witness :
  let '(w', evs) := triggerTournamentTimerSet 4000 "T1" (Some (ofZ 30)) false w_started in
  exists s',
    reg_get "T1" (tournamentState w') = Some s'
    /\ countdown_armed 4000 (ofZ 30)
         (snd (clearTimers (session w_started) (loop w_started))) s' (loop w')
    /\ currentQuestionUid s' = currentQuestionUid (session w_started)
    /\ pausedRemainingTime s' = pausedRemainingTime (session w_started)
    /\ answers s' = answers (session w_started)
    /\ participants s' = participants (session w_started)
    /\ exists rest,
         evs = Emit (live "T1") (tournament_set_timer (ofZ 30) "active") :: rest.
Proof.
  assert (isDiffered (session w_started) = false) as D by (vm_compute; reflexivity).
  assert (gt (ofZ 30) (ofZ 0) = true) as T by (vm_compute; reflexivity).
  assert (paused (session w_started) = false) as P by (vm_compute; reflexivity).
  assert (false = true \/ stopped (session w_started) = false) as S
    by (right; vm_compute; reflexivity).
  exact (positive_timeLeft_starts_countdown 4000 "T1" (ofZ 30) false w_started
           (session w_started) session_started D started_has_question T P S).
Defined.

(** The running countdown edited to -5 s. *)
Lemma negative_edit_cancels_countdown_witness :
  let '(w', evs) :=
    triggerTournamentTimerSet 4000 "T1" (Some (ofZ (-5))) false w_started in
  exists s',
    reg_get "T1" (tournamentState w') = Some s'
    /\ in_state s' Active
    /\ currentQuestionDuration s' = currentQuestionDuration (session w_started)
    /\ questionStart s' = Some 4000
    /\ timers_cancelled (session w_started) s' (loop w')
    /\ loop w' = snd (clearTimers (session w_started) (loop w_started))
    /\ evs = [].
Proof.
  assert (isDiffered (session w_started) = false) as D by (vm_compute; reflexivity).
  assert (truthy (ofZ (-5)) = true) as T by (vm_compute; reflexivity).
  assert (le (ofZ (-5)) (ofZ 0) = true) as L by (vm_compute; reflexivity).
  assert (paused (session w_started) = false) as P by (vm_compute; reflexivity).
  assert (stopped (session w_started) = false) as S by (vm_compute; reflexivity).
  exact (negative_edit_cancels_countdown 4000 "T1" (ofZ (-5)) w_started
           (session w_started) session_started D started_has_question T L P S).
Defined.

(** A forced start without [timeLeft] on the question just set: 20 s, the
    [temps] of q1. *)
Lemma forced_start_uses_question_time_witness :
  let '(w', evs) := triggerTournamentTimerSet 2000 "T1" None true w_question in
  exists s',
    reg_get "T1" (tournamentState w') = Some s'
    /\ countdown_armed 2000 (temps_or_default q1)
         (snd (clearTimers (session w_question) (loop w_question))) s' (loop w').
Proof.
  assert (reg_get "T1" (tournamentState w_question) = Some (session w_question)) as G
    by (vm_compute; reflexivity).
  assert (isDiffered (session w_question) = false) as D by (vm_compute; reflexivity).
  assert (paused (session w_question) = false) as P by (vm_compute; reflexivity).
  assert (truthy_str (currentQuestionUid (session w_question)) = true) as T
    by (vm_compute; reflexivity).
  assert (questions (session w_question) = Some [q1; q2]) as Q
    by (vm_compute; reflexivity).
  assert (find_question (currentQuestionUid (session w_question)) [q1; q2] = Some q1)
    as F by (vm_compute; reflexivity).
  assert (forall z, temps q1 = Some z -> 0 <= z) as N
    by (intros z Hz; injection Hz as <-; lia).
  assert (@None jsnum = None
          \/ exists t, @None jsnum = Some t /\ truthy t = true /\ le t (ofZ 0) = true)
    as A by (left; reflexivity).
  exact (forced_start_uses_question_time 2000 "T1" None w_question (session w_question)
           [q1; q2] q1 G D P T Q F N A).
Defined.

(** A timer set on the fresh session, which has no current question. *)
Lemma setTimer_without_question_witness :
  triggerTournamentTimerSet 2000 "T1" (Some (ofZ 20)) true w0
  = (mkWorld (reg_set "T1" (fst (clearTimers fresh (loop w0))) (tournamentState w0))
       (snd (clearTimers fresh (loop w0))), [])
  /\ timers_cancelled fresh (fst (clearTimers fresh (loop w0)))
       (snd (clearTimers fresh (loop w0)))
  /\ fst (clearTimers fresh (loop w0))
     = set__timerRef None (set_intervalTimer None (set_timer None fresh)).
Proof.
  assert (reg_get "T1" (tournamentState w0) = Some fresh) as G
    by (vm_compute; reflexivity).
  assert (isDiffered fresh = false) as D by (vm_compute; reflexivity).
  assert (arg_is_zero (Some (ofZ 20)) = false) as Z0 by (vm_compute; reflexivity).
  assert (questions fresh = Some [q1; q2]) as Q by (vm_compute; reflexivity).
  assert (truthy_str (currentQuestionUid fresh) = false
          \/ find_question (currentQuestionUid fresh) [q1; q2] = None) as N
    by (left; vm_compute; reflexivity).
  exact (setTimer_without_question 2000 "T1" (Some (ofZ 20)) true w0 fresh [q1; q2]
           G D Z0 Q N).
Defined.

Lemma no_orphan_timers_witness :
  timers_owned (run scorer w0 start_pause_resume).
Proof.
  apply (no_orphan_timers scorer w0 start_pause_resume).
  split; intros h d H; destruct H.
Defined.


(** The session paused with nothing left, restarted with 12 s. *)
Lemma resume_from_zero_uses_timeLeft_witness :
  let '(w', evs) :=
    triggerTournamentTimerSet 31000 "T1" (Some (ofZ 12)) true w_paused_out in
  exists s',
    reg_get "T1" (tournamentState w') = Some s'
    /\ countdown_armed 31000 (ofZ 12)
         (snd (clearTimers (session w_paused_out) (loop w_paused_out))) s' (loop w').
Proof.
  assert (isDiffered (session w_paused_out) = false) as D by (vm_compute; reflexivity).
  assert (paused (session w_paused_out) = true) as P by (vm_compute; reflexivity).
  assert (pausedRemaining_positive (session w_paused_out) = false) as R
    by (vm_compute; reflexivity).
  assert (gt (ofZ 12) (ofZ 0) = true) as T by (vm_compute; reflexivity).
  exact (resume_from_zero_uses_timeLeft 31000 "T1" (ofZ 12) w_paused_out
           (session w_paused_out) session_paused_out D paused_out_has_question P R T).
Defined.

Lemma pause_rounds_to_tenths_witness :
  exists (x : Q) (n : Z) (s' : State),
    calculatedRemainingTime 5333 None (session w_started) = Num x
    /\ reg_get "T1"
         (tournamentState (fst (triggerTournamentPause 5333 "T1" None w_started)))
       = Some s'
    /\ pausedRemainingTime s' = Some (Num (n # 10))
    /\ 0 <= n
    /\ (x - (1 # 20) <= n # 10)%Q /\ (n # 10 <= x + (1 # 20))%Q.
Proof.
  assert (isDiffered (session w_started) = false) as D by (vm_compute; reflexivity).
  assert (countdown_started (session w_started)) as C
    by (split; eexists; vm_compute; reflexivity).
  exact (pause_rounds_to_tenths 5333 "T1" None w_started (session w_started)
           session_started D started_is_active C).
Defined.

(** The deprecated resume on the session paused with 0 s left stops it. *)
Lemma resume_deprecated_witness :
  exists s',
    reg_get "T1" (tournamentState (fst (triggerTournamentResume 31000 "T1" w_paused_out)))
    = Some s'
    /\ in_state s' Stopped /\ paused s' = false.
Proof.
  assert (isDiffered (session w_paused_out) = false) as D by (vm_compute; reflexivity).
  assert (paused (session w_paused_out) = true) as P by (vm_compute; reflexivity).
  assert (stopped (session w_paused_out) = false) as S by (vm_compute; reflexivity).
  assert (pausedRemainingTime (session w_paused_out) = Some (Num (0 # 10))) as R
    by (vm_compute; reflexivity).
  assert (is_zero (Num (0 # 10)) = true) as Z0 by (vm_compute; reflexivity).
  destruct (resume_deprecated 31000 "T1" w_paused_out) as (_ & _ & _ & H).
  exact (H (session w_paused_out) (Num (0 # 10)) session_paused_out P D S R Z0).
Defined.

Lemma session_three_seconds :
  reg_get "T1" (tournamentState w_three_seconds) = Some (session w_three_seconds).
Proof. vm_compute. reflexivity. Qed.

(** The three ticks of a countdown of three seconds. *)
Lemma countdown_ticks_witness :
  exists w1 evs y,
    ticks no_effect "T1" 0 3 w_three_seconds
    = (no_effect "T1" w1,
       evs ++ [Emit (live "T1") (tournament_set_timer (Num y) "active");
               HandleTimerExpiration "T1"])
    /\ (y == 0)%Q
    /\ length evs = 2%nat
    /\ Forall (fun e => exists z, e = Emit (live "T1") (tournament_set_timer (Num z) "active")
                                  /\ (0 < z)%Q) evs
    /\ tournamentState w1
       = reg_set "T1" (set_intervalTimer None (session w_three_seconds))
           (tournamentState w_three_seconds)
    /\ timeouts (loop w1) = timeouts (loop w_three_seconds).
Proof.
  assert (paused (session w_three_seconds) = false) as P by (vm_compute; reflexivity).
  assert (stopped (session w_three_seconds) = false) as S by (vm_compute; reflexivity).
  assert (interval_var 0 (loop w_three_seconds) = Some (ofZ (Z.of_nat 3))) as I
    by (vm_compute; reflexivity).
  exact (countdown_ticks no_effect "T1" 0 w_three_seconds (session w_three_seconds) 2
           session_three_seconds P S I).
Defined.

Lemma session_paused_armed :
  reg_get "T1" (tournamentState w_paused_armed) = Some (session w_paused_armed).
Proof. vm_compute. reflexivity. Qed.

Lemma session_stopped_armed :
  reg_get "T1" (tournamentState w_stopped_armed) = Some (session w_stopped_armed).
Proof. vm_compute. reflexivity. Qed.

(** The interval (handle 0) fires on the session marked paused and the
    deadline (handle 1) on the session marked stopped, both still armed: with
    a handler that does nothing and with one that removes the session the
    result is the same, nothing is sent, and the interval is cleared. *)
Lemma callbacks_idle_when_not_active_witness :
  pending_interval 0 (loop w_paused_armed) = true
  /\ pending_timeout 1 (loop w_stopped_armed) = true
  /\ intervalCallback no_effect "T1" 0 w_paused_armed
     = intervalCallback drop_session "T1" 0 w_paused_armed
  /\ snd (intervalCallback no_effect "T1" 0 w_paused_armed) = []
  /\ (forall s', reg_get "T1" (tournamentState
                                 (fst (intervalCallback no_effect "T1" 0 w_paused_armed)))
                 = Some s' ->
        s' = session w_paused_armed
        \/ s' = set_intervalTimer None (session w_paused_armed))
  /\ timeoutCallback no_effect "T1" 1 w_stopped_armed
     = timeoutCallback drop_session "T1" 1 w_stopped_armed
  /\ snd (timeoutCallback no_effect "T1" 1 w_stopped_armed) = []
  /\ tournamentState (fst (timeoutCallback no_effect "T1" 1 w_stopped_armed))
     = tournamentState w_stopped_armed.
Proof.
  assert (pending_interval 0 (loop w_paused_armed) = true) as A
    by (vm_compute; reflexivity).
  assert (pending_timeout 1 (loop w_stopped_armed) = true) as B
    by (vm_compute; reflexivity).
  assert (paused (session w_paused_armed) = true
          \/ stopped (session w_paused_armed) = true) as P
    by (left; vm_compute; reflexivity).
  assert (paused (session w_stopped_armed) = true
          \/ stopped (session w_stopped_armed) = true) as S
    by (right; vm_compute; reflexivity).
  destruct (callbacks_idle_when_not_active no_effect drop_session "T1" 0 w_paused_armed
              (session w_paused_armed) session_paused_armed P)
    as (I1 & _ & I2 & _ & _ & I3).
  destruct (callbacks_idle_when_not_active no_effect drop_session "T1" 1 w_stopped_armed
              (session w_stopped_armed) session_stopped_armed S)
    as (_ & T1 & _ & T2 & T3 & _).
  split; [exact A|]. split; [exact B|]. split; [exact I1|]. split; [exact I2|].
  split; [exact I3|]. split; [exact T1|]. split; [exact T2|exact T3].
Defined.

(** The deadline (handle 1) of the three-second countdown fires before its
    interval (handle 0). *)
Lemma deadline_first_cancels_interval_witness :
  exists w1,
    timeoutCallback no_effect "T1" 1 w_three_seconds
    = (no_effect "T1" w1, [HandleTimerExpiration "T1"])
    /\ pending_timeout 1 (loop w1) = false
    /\ pending_interval 0 (loop w1) = false
    /\ intervalCallback no_effect "T1" 0 w1 = (w1, []).
Proof.
  assert (paused (session w_three_seconds) = false) as P by (vm_compute; reflexivity).
  assert (stopped (session w_three_seconds) = false) as S by (vm_compute; reflexivity).
  assert (pending_timeout 1 (loop w_three_seconds) = true) as T
    by (vm_compute; reflexivity).
  assert (intervalTimer (session w_three_seconds) = Some 0%nat) as I
    by (vm_compute; reflexivity).
  exact (deadline_first_cancels_interval no_effect "T1" 1 0 w_three_seconds
           (session w_three_seconds) session_three_seconds P S T I).
Defined.

(** Finalization of the started session with the store up; a second call
    with the store down. *)
Lemma forceEnd_removes_session_once_witness :
  let w' := fst (forceTournamentEnd no_scaling no_quiz db_up "T1" w_started) in
  reg_get "T1" (tournamentState w') = None
  /\ (forall key, key <> "T1" ->
        reg_get key (tournamentState w') = reg_get key (tournamentState w_started))
  /\ forceTournamentEnd no_scaling no_quiz db_down "T1" w' = (w', []).
Proof.
  assert (questions (session w_started) <> None) as Q
    by (vm_compute; discriminate).
  assert (update_rejects db_up = false) as U by (vm_compute; reflexivity).
  exact (forceEnd_removes_session_once no_scaling no_quiz db_up db_down "T1" w_started
           (session w_started) session_started Q U).
Defined.

Lemma forceEnd_saves_durable_participants_witness :
  let evs := snd (forceTournamentEnd no_scaling no_quiz db_up "T1" w_started) in
  (forall tid p, In (DbSaveParticipantScore tid p) evs ->
     findUnique db_up = Some (Some tid) /\ durable p = true
     /\ exists i p0, participants (session w_started) !! i = Some p0
                     /\ p = with_score (score p) p0)
  /\ (forall tid, findUnique db_up = Some (Some tid) ->
        (forall p, save_rejects db_up p = false) ->
        exists scaled,
          evs = [DbUpdateTournoi "T1" scaled; Emit (live "T1") (tournament_end scaled)]
                ++ saved_rows tid
                     (snd <$> map_to_list
                                (apply_scaled scaled (participants (session w_started))))
                ++ [Emit (live "T1") (tournament_finished_redirect "T1")]).
Proof.
  assert (questions (session w_started) = Some [q1; q2]) as Q
    by (vm_compute; reflexivity).
  assert (update_rejects db_up = false) as U by (vm_compute; reflexivity).
  exact (forceEnd_saves_durable_participants no_scaling no_quiz db_up "T1" w_started
           (session w_started) [q1; q2] session_started Q U).
Defined.

Lemma scaled_scores_written_back_witness :
  apply_scaled [alice_500] (participants fresh) !! "alice"
  = Some (with_score (ofZ 500) alice).
Proof.
  assert (NoDup (e_id <$> [alice_500])) as N by apply NoDup_singleton.
  assert (In alice_500 [alice_500]) as I by (left; reflexivity).
  assert (e_id alice_500 = Some "alice") as E by reflexivity.
  assert (participants fresh !! "alice" = Some alice) as P by (vm_compute; reflexivity).
  destruct (scaled_scores_written_back [alice_500] (participants fresh) "alice")
    as (_ & _ & _ & H).
  exact (H alice_500 alice N I E P).
Defined.

(** Finalization while the three-second countdown runs: the session is gone
    and its interval (handle 0) is still armed. *)
Lemma forceEnd_keeps_interval_witness :
  reg_get "T1"
    (tournamentState
       (fst (forceTournamentEnd no_scaling no_quiz db_up "T1" w_three_seconds))) = None
  /\ pending_interval 0
       (loop (fst (forceTournamentEnd no_scaling no_quiz db_up "T1" w_three_seconds)))
     = true.
Proof.
  assert (intervalTimer (session w_three_seconds) = Some 0%nat) as I
    by (vm_compute; reflexivity).
  assert (questions (session w_three_seconds) <> None) as Q
    by (vm_compute; discriminate).
  assert (update_rejects db_up = false) as U by (vm_compute; reflexivity).
  assert (pending_interval 0 (loop w_three_seconds) = true) as P
    by (vm_compute; reflexivity).
  destruct (forceEnd_keeps_interval no_scaling no_quiz db_up "T1" w_three_seconds)
    as (_ & _ & H).
  exact (H (session w_three_seconds) 0%nat session_three_seconds I Q U P).
Defined.
